(** * Checkout, order life cycle and payment settlement of the ecommerce backend

    A shallow embedding of the order-creation and payment-settlement
    workflow: [CartService], [OrdersService], [VNPayService],
    [PaymentsService] and the VNPay IPN endpoint of [PaymentsController].

    Conventions of the embedding.
    - The relational store is a record of tables ([Db]).  Every mutation is
      a statement ([Stmt]); statements issued through a repository are
      applied at once (autocommit), statements issued through
      [queryRunner.manager] are queued in the open transaction and applied
      by [commitTransaction] or dropped by [rollbackTransaction].
    - An [async] method is a function [World -> Outcome A * World]: a
      rejected promise is [Throw], and the world reached when the exception
      is raised is kept, as it is for the running service.
    - Money columns are DECIMAL(10,2); amounts are integers counted in
      hundredths.  Quantities and stock are INT columns, modelled in [Z].
    - Instants are milliseconds since the epoch, as in a JavaScript [Date]. *)

From Stdlib Require Import ZArith Lia Ascii String.
From stdpp Require Import gmap strings list sorting.

Local Open Scope string_scope.
Local Open Scope list_scope.
Local Open Scope Z_scope.

(** ** Exceptions and asynchronous computations *)

Inductive Exception : Type :=
| BadRequestException (message : string)
| NotFoundException (message : string)
| QueryFailedError (round_trip : nat)
| MailError.

Inductive Outcome (A : Type) : Type :=
| Ok (a : A)
| Throw (e : Exception).
Arguments Ok {A} a.
Arguments Throw {A} e.

Definition is_ok {A} (r : Outcome A) : bool :=
  match r with Ok _ => true | Throw _ => false end.

(** ** Entities (database/schema.sql and the TypeORM entity classes) *)

Inductive OrderStatus : Type :=
| PENDING | PROCESSING | SHIPPED | DELIVERED | CANCELLED.

Inductive PaymentStatus : Type :=
| PAY_PENDING | PAID | FAILED | REFUNDED.

Definition OrderStatus_eqb (a b : OrderStatus) : bool :=
  match a, b with
  | PENDING, PENDING | PROCESSING, PROCESSING | SHIPPED, SHIPPED
  | DELIVERED, DELIVERED | CANCELLED, CANCELLED => true
  | _, _ => false
  end.

Definition PaymentStatus_eqb (a b : PaymentStatus) : bool :=
  match a, b with
  | PAY_PENDING, PAY_PENDING | PAID, PAID | FAILED, FAILED
  | REFUNDED, REFUNDED => true
  | _, _ => false
  end.

Module User.
Record t : Type := mk
  { email : string;
    first_name : string }.
End User.

Module Product.
Record t : Type := mk
  { name : string;
    price : Z;
    stock_quantity : Z }.
End Product.

Module Cart.
Record t : Type := mk
  { id : string;
    user_id : option string;
    session_id : option string }.
End Cart.

Module CartItem.
Record t : Type := mk
  { id : string;
    cart_id : string;
    product_id : string;
    quantity : Z;
    price : Z }.
End CartItem.

Module Order.
Record t : Type := mk
  { user_id : string;
    order_number : string;
    status : OrderStatus;
    payment_status : PaymentStatus;
    payment_method : string;
    subtotal : Z;
    shipping_fee : Z;
    tax : Z;
    discount : Z;
    total : Z;
    currency : string;
    notes : option string;
    created_at : Z }.
End Order.

Module OrderItem.
Record t : Type := mk
  { id : string;
    order_id : string;
    product_id : string;
    product_name : option string;
    product_sku : option string;
    quantity : Z;
    price : Z;
    subtotal : Z }.
End OrderItem.

Module ShippingAddress.
Record t : Type := mk
  { id : string;
    order_id : string;
    first_name : string;
    last_name : string;
    email : string;
    phone : option string;
    address_line1 : string;
    address_line2 : option string;
    city : string;
    state : option string;
    postal_code : option string;
    country : string }.
End ShippingAddress.

(** ** The store *)

Record Db : Type := mkDb
  { users : gmap string User.t;
    products : gmap string Product.t;
    carts : list Cart.t;
    cart_items : list CartItem.t;
    orders : gmap string Order.t;
    order_items : list OrderItem.t;
    shipping_addresses : list ShippingAddress.t }.

(** The columns [Repository.update] and [Repository.save] change on an
    existing order. *)
Record OrderPatch : Type := mkPatch
  { set_status : option OrderStatus;
    set_payment_status : option PaymentStatus;
    set_payment_method : option string }.

Inductive Stmt : Type :=
| InsertCart (c : Cart.t)
| DeleteCartItems (cart_id : string)
| InsertOrder (id : string) (o : Order.t)
| InsertOrderItem (i : OrderItem.t)
| InsertShippingAddress (a : ShippingAddress.t)
| AdjustStock (product_id : string) (delta : Z)
| UpdateOrder (id : string) (p : OrderPatch).

Definition adjust_stock (delta : Z) (p : Product.t) : Product.t :=
  Product.mk (Product.name p) (Product.price p) (Product.stock_quantity p + delta).

Definition patch_order (p : OrderPatch) (o : Order.t) : Order.t :=
  Order.mk (Order.user_id o) (Order.order_number o)
    (default (Order.status o) (set_status p))
    (default (Order.payment_status o) (set_payment_status p))
    (default (Order.payment_method o) (set_payment_method p))
    (Order.subtotal o) (Order.shipping_fee o) (Order.tax o) (Order.discount o)
    (Order.total o) (Order.currency o) (Order.notes o) (Order.created_at o).

Definition with_products (f : gmap string Product.t -> gmap string Product.t) (d : Db) : Db :=
  mkDb (users d) (f (products d)) (carts d) (cart_items d) (orders d)
       (order_items d) (shipping_addresses d).

Definition with_orders (f : gmap string Order.t -> gmap string Order.t) (d : Db) : Db :=
  mkDb (users d) (products d) (carts d) (cart_items d) (f (orders d))
       (order_items d) (shipping_addresses d).

Definition apply_stmt (s : Stmt) (d : Db) : Db :=
  match s with
  | InsertCart c =>
      mkDb (users d) (products d) (carts d ++ [c]) (cart_items d) (orders d)
           (order_items d) (shipping_addresses d)
  | DeleteCartItems cid =>
      mkDb (users d) (products d) (carts d)
           (filter (fun i => CartItem.cart_id i ≠ cid) (cart_items d))
           (orders d) (order_items d) (shipping_addresses d)
  | InsertOrder id o => with_orders (insert id o) d
  | InsertOrderItem i =>
      mkDb (users d) (products d) (carts d) (cart_items d) (orders d)
           (order_items d ++ [i]) (shipping_addresses d)
  | InsertShippingAddress a =>
      mkDb (users d) (products d) (carts d) (cart_items d) (orders d)
           (order_items d) (shipping_addresses d ++ [a])
  | AdjustStock pid delta => with_products (alter (adjust_stock delta) pid) d
  | UpdateOrder id p => with_orders (alter (patch_order p) id) d
  end.

Definition apply_stmts (ws : list Stmt) (d : Db) : Db :=
  foldl (fun acc s => apply_stmt s acc) d ws.

(** The statements on cart lines and carts that only [CartService] sends,
    through [cartItemRepository] and [cartRepository]. *)
Inductive CartStmt : Type :=
| InsertCartItem (i : CartItem.t)
| SaveCartItem (i : CartItem.t)          (* UPDATE of the row with the item's id *)
| RemoveCartItem (id : string)
| RemoveCart (id : string).

Definition with_cart_items (f : list CartItem.t -> list CartItem.t) (d : Db) : Db :=
  mkDb (users d) (products d) (carts d) (f (cart_items d)) (orders d)
       (order_items d) (shipping_addresses d).

Definition apply_cart_stmt (s : CartStmt) (d : Db) : Db :=
  match s with
  | InsertCartItem i => with_cart_items (fun rows => rows ++ [i]) d
  | SaveCartItem i =>
      with_cart_items
        (map (fun row => if bool_decide (CartItem.id row = CartItem.id i) then i else row)) d
  | RemoveCartItem id => with_cart_items (filter (fun row => CartItem.id row ≠ id)) d
  | RemoveCart id =>
      (* FOREIGN KEY (cart_id) REFERENCES carts(id) ON DELETE CASCADE *)
      mkDb (users d) (products d)
           (filter (fun c => Cart.id c ≠ id) (carts d))
           (filter (fun row => CartItem.cart_id row ≠ id) (cart_items d))
           (orders d) (order_items d) (shipping_addresses d)
  end.

(** ** The world a request runs in *)

Record Email : Type := mkEmail
  { to : string;
    recipient_name : string;
    about_order : string }.

Record World : Type := mkWorld
  { db : Db;                      (* committed rows *)
    pending : list Stmt;          (* statements of the open transaction *)
    journal : list Stmt;          (* statements applied so far, oldest first *)
    outbox : list Email;          (* confirmation mails accepted by the mailer *)
    console : list string;        (* console.log / console.error lines *)
    now : Z;                      (* the clock, ms since the epoch *)
    tz_offset : Z;                (* server zone, ms east of UTC *)
    uuid_next : nat;              (* how many uuids were drawn *)
    uuid_source : nat -> string;  (* the uuids uuidv4() will return *)
    io_count : nat;               (* store round trips made so far *)
    io_fault : nat -> bool;       (* which round trips the store rejects *)
    mail_fault : Email -> bool    (* which mails the mailer rejects *) }.

Definition Async (A : Type) : Type := World -> Outcome A * World.

Definition ret {A} (a : A) : Async A := fun w => (Ok a, w).

Definition throw {A} (e : Exception) : Async A := fun w => (Throw e, w).

Definition bind {A B} (m : Async A) (k : A -> Async B) : Async B :=
  fun w =>
    match m w with
    | (Ok a, w') => k a w'
    | (Throw e, w') => (Throw e, w')
    end.

Notation "x <- m ;; k" := (bind m (fun x => k))
  (at level 100, m at next level, right associativity).
Notation "m ;;; k" := (bind m (fun _ => k))
  (at level 100, right associativity).

(** [try { m } catch (error) { handler error }] *)
Definition try_catch {A} (m : Async A) (handler : Exception -> Async A) : Async A :=
  fun w =>
    match m w with
    | (Ok a, w') => (Ok a, w')
    | (Throw e, w') => handler e w'
    end.

Definition gets {A} (f : World -> A) : Async A := fun w => (Ok (f w), w).

Definition modify (f : World -> World) : Async unit := fun w => (Ok tt, f w).

Definition set_db (d : Db) (w : World) : World :=
  mkWorld d (pending w) (journal w) (outbox w) (console w) (now w) (tz_offset w)
          (uuid_next w) (uuid_source w) (io_count w) (io_fault w) (mail_fault w).

Definition set_pending (p : list Stmt) (w : World) : World :=
  mkWorld (db w) p (journal w) (outbox w) (console w) (now w) (tz_offset w)
          (uuid_next w) (uuid_source w) (io_count w) (io_fault w) (mail_fault w).

Definition set_journal (j : list Stmt) (w : World) : World :=
  mkWorld (db w) (pending w) j (outbox w) (console w) (now w) (tz_offset w)
          (uuid_next w) (uuid_source w) (io_count w) (io_fault w) (mail_fault w).

Definition set_outbox (o : list Email) (w : World) : World :=
  mkWorld (db w) (pending w) (journal w) o (console w) (now w) (tz_offset w)
          (uuid_next w) (uuid_source w) (io_count w) (io_fault w) (mail_fault w).

Definition set_console (c : list string) (w : World) : World :=
  mkWorld (db w) (pending w) (journal w) (outbox w) c (now w) (tz_offset w)
          (uuid_next w) (uuid_source w) (io_count w) (io_fault w) (mail_fault w).

Definition set_io_count (n : nat) (w : World) : World :=
  mkWorld (db w) (pending w) (journal w) (outbox w) (console w) (now w) (tz_offset w)
          (uuid_next w) (uuid_source w) n (io_fault w) (mail_fault w).

Definition set_uuid_next (n : nat) (w : World) : World :=
  mkWorld (db w) (pending w) (journal w) (outbox w) (console w) (now w) (tz_offset w)
          n (uuid_source w) (io_count w) (io_fault w) (mail_fault w).

(** One round trip to the store.  The store rejects the round trips its
    fault oracle names; a rejected statement has no effect. *)
Definition store_io : Async unit :=
  fun w =>
    let k := io_count w in
    (if io_fault w k then Throw (QueryFailedError k) else Ok tt,
     set_io_count (S k) w).

(** A statement sent through a repository: applied and journalled at once. *)
Definition execute (s : Stmt) : Async unit :=
  modify (fun w => set_journal (journal w ++ [s]) (set_db (apply_stmt s (db w)) w)).

(** A cart statement sent through a repository: applied at once. *)
Definition cart_execute (s : CartStmt) : Async unit :=
  modify (fun w => set_db (apply_cart_stmt s (db w)) w).

(** A statement sent through [queryRunner.manager]: queued. *)
Definition tx_execute (s : Stmt) : Async unit :=
  modify (fun w => set_pending (pending w ++ [s]) w).

(** What [queryRunner.manager] reads: the committed rows under the
    transaction's own statements. *)
Definition tx_view (w : World) : Db := apply_stmts (pending w) (db w).

Definition startTransaction : Async unit := modify (set_pending []).

Definition commitTransaction : Async unit :=
  modify (fun w =>
    set_pending [] (set_journal (journal w ++ pending w)
                     (set_db (apply_stmts (pending w) (db w)) w))).

Definition rollbackTransaction : Async unit := modify (set_pending []).

Definition uuidv4 : Async string :=
  fun w => (Ok (uuid_source w (uuid_next w)), set_uuid_next (S (uuid_next w)) w).

Definition console_log (line : string) : Async unit :=
  modify (fun w => set_console (console w ++ [line]) w).

(** [MailService.sendOrderConfirmationEmail]: the mail reaches the outbox
    unless the mailer rejects it. *)
Definition sendOrderConfirmationEmail (e : Email) : Async unit :=
  fun w =>
    if mail_fault w e then (Throw MailError, w)
    else (Ok tt, set_outbox (outbox w ++ [e]) w).

(** JavaScript truthiness of an optional string: [undefined], [null] and the
    empty string are falsy. *)
Definition truthy (s : option string) : bool :=
  match s with
  | Some EmptyString => false
  | Some _ => true
  | None => false
  end.

(** [a || b] on optional strings. *)
Definition or_else (a : option string) (b : string) : string :=
  match a with
  | Some EmptyString => b
  | Some s => s
  | None => b
  end.

(** [a || null] *)
Definition or_null (a : option string) : option string :=
  if truthy a then a else None.

(** ** JavaScript strings and dates, as far as the services use them *)

Module Js.

Definition is_digit (c : ascii) : bool :=
  let n := Z.of_nat (nat_of_ascii c) in (48 <=? n) && (n <=? 57).

Fixpoint all_digits (s : string) : bool :=
  match s with
  | EmptyString => true
  | String c s' => is_digit c && all_digits s'
  end.

(** The number a run of decimal digits denotes, read after [acc]. *)
Fixpoint numeric_value (acc : Z) (s : string) : Z :=
  match s with
  | EmptyString => acc
  | String c s' => numeric_value (acc * 10 + (Z.of_nat (nat_of_ascii c) - 48)) s'
  end.

Definition digit (d : Z) : ascii := ascii_of_nat (48 + Z.to_nat d).

Fixpoint decimal (fuel : nat) (n : Z) (acc : string) : string :=
  match fuel with
  | O => acc
  | S fuel' =>
      let acc' := String (digit (n mod 10)) acc in
      if n <? 10 then acc' else decimal fuel' (n / 10) acc'
  end.

(** [String(n)] for an integer [n]. *)
Definition toString (n : Z) : string :=
  if n <? 0 then String "-"%char (decimal (S (Z.to_nat (Z.log2 (- n)))) (- n) "")
  else decimal (S (Z.to_nat (Z.log2 n))) n "".

Fixpoint repeat_char (c : ascii) (n : nat) : string :=
  match n with
  | O => ""
  | S n' => String c (repeat_char c n')
  end.

(** [s.padStart(targetLength, c)] with a one-character filler. *)
Definition padStart (targetLength : nat) (c : ascii) (s : string) : string :=
  repeat_char c (targetLength - String.length s) +:+ s.

(** [s.replace(/-/g, '')] *)
Fixpoint strip_dashes (s : string) : string :=
  match s with
  | EmptyString => EmptyString
  | String c s' => if Ascii.eqb c "-"%char then strip_dashes s' else String c (strip_dashes s')
  end.

(** [s.slice(0, n)] *)
Definition slice0 (n : nat) (s : string) : string := String.substring 0 n s.

Definition msPerDay : Z := 86400000.

(** Day number (days since 1970-01-01) to proleptic Gregorian
    (year, month 1..12, day of month). *)
Definition civil_from_days (z : Z) : Z * Z * Z :=
  let z := z + 719468 in
  let era := z / 146097 in
  let doe := z - era * 146097 in
  let yoe := (doe - doe / 1460 + doe / 36524 - doe / 146096) / 365 in
  let doy := doe - (365 * yoe + yoe / 4 - yoe / 100) in
  let mp := (5 * doy + 2) / 153 in
  let d := doy - (153 * mp + 2) / 5 + 1 in
  let m := if mp <? 10 then mp + 3 else mp - 9 in
  let y := yoe + era * 400 in
  (if m <=? 2 then y + 1 else y, m, d).

Definition pad (width : nat) (n : Z) : string := padStart width "0"%char (toString n).

(** [new Date(t).toISOString()]: UTC fields; years outside 0..9999 are
    written with a sign and six digits. *)
Definition toISOString (t : Z) : string :=
  let '(y, m, d) := civil_from_days (t / msPerDay) in
  let ms := t mod msPerDay in
  (if (0 <=? y) && (y <=? 9999) then pad 4 y
   else if y <? 0 then String "-"%char (pad 6 (- y)) else String "+"%char (pad 6 y))
  +:+ "-" +:+ pad 2 m +:+ "-" +:+ pad 2 d
  +:+ "T" +:+ pad 2 (ms / 3600000) +:+ ":" +:+ pad 2 (ms / 60000 mod 60)
  +:+ ":" +:+ pad 2 (ms / 1000 mod 60) +:+ "." +:+ pad 3 (ms mod 1000) +:+ "Z".

(** [new Date(date.getFullYear(), date.getMonth(), date.getDate())]: the
    instant at which the local calendar day of [t] began, for a server
    zone [offset] milliseconds east of UTC. *)
Definition startOfLocalDay (offset t : Z) : Z :=
  (t + offset) / msPerDay * msPerDay - offset.

End Js.

(** ** CartService (src/modules/cart/cart.service.ts) *)

Module CartService.

(** A cart loaded with [relations: ['items', 'items.product']]. *)
Record LoadedCart : Type := mkLoaded
  { cart : Cart.t;
    items : list (CartItem.t * option Product.t) }.

Record FormattedItem : Type := mkItem
  { id : string;
    product_id : string;
    product_name : option string;     (* product.name, item.product?.name *)
    quantity : Z;
    price : Z;
    line_total : Z }.

Record CartResponse : Type := mkResponse
  { cart_id : string;
    response_items : list FormattedItem;
    subtotal : Z;
    itemCount : Z }.

Definition load_items (d : Db) (cid : string) : list (CartItem.t * option Product.t) :=
  map (fun i => (i, products d !! CartItem.product_id i))
      (filter (fun i => CartItem.cart_id i = cid) (cart_items d)).

Definition find_cart (d : Db) (P : Cart.t -> bool) : option LoadedCart :=
  match List.find P (carts d) with
  | Some c => Some (mkLoaded c (load_items d (Cart.id c)))
  | None => None
  end.

Definition owned_by (key : string) (owner : option string) : bool :=
  match owner with
  | Some u => bool_decide (u = key)
  | None => false
  end.

Definition getOrCreateCart (userId sessionId : option string) : Async LoadedCart :=
  found <-
    (if truthy userId then
       store_io ;;;
       gets (fun w => find_cart (db w) (fun c => owned_by (default "" userId) (Cart.user_id c)))
     else if truthy sessionId then
       store_io ;;;
       gets (fun w => find_cart (db w) (fun c => owned_by (default "" sessionId) (Cart.session_id c)))
     else ret None) ;;
  match found with
  | Some c => ret c
  | None =>
      new_id <- uuidv4 ;;
      let newCart :=
        Cart.mk new_id userId (if truthy userId then None else sessionId) in
      store_io ;;;
      execute (InsertCart newCart) ;;;
      ret (mkLoaded newCart [])
  end.

(** Amounts are held in hundredths, on which
    [Math.round(subtotal * 100) / 100] is the identity. *)
Definition formatCartResponse (c : LoadedCart) : CartResponse :=
  let formattedItems :=
    map (fun ip : CartItem.t * option Product.t =>
           let (item, product) := ip in
           mkItem (CartItem.id item) (CartItem.product_id item)
                  (Product.name <$> product)
                  (CartItem.quantity item) (CartItem.price item)
                  (CartItem.price item * CartItem.quantity item))
        (items c) in
  mkResponse (Cart.id (cart c)) formattedItems
    (foldl (fun sum item => sum + line_total item) 0 formattedItems)
    (foldl (fun sum item => sum + quantity item) 0 formattedItems).

Definition getCart (userId sessionId : option string) : Async CartResponse :=
  c <- getOrCreateCart userId sessionId ;;
  ret (formatCartResponse c).

Definition clearCart (userId sessionId : option string) : Async CartResponse :=
  c <- getOrCreateCart userId sessionId ;;
  store_io ;;;
  execute (DeleteCartItems (Cart.id (cart c))) ;;;
  getCart userId sessionId.

Record AddToCartDto : Type := mkAddDto
  { add_product_id : string;
    add_quantity : option Z }.

(** [cartItemRepository.findOne({ where: { cart_id, product_id } })] *)
Definition find_line (d : Db) (cartId productId : string) : option CartItem.t :=
  List.find (fun i => bool_decide (CartItem.cart_id i = cartId)
                      && bool_decide (CartItem.product_id i = productId))
            (cart_items d).

(** [cartItemRepository.findOne({ where: { id, cart_id } })] *)
Definition find_item (d : Db) (itemId cartId : string) : option CartItem.t :=
  List.find (fun i => bool_decide (CartItem.id i = itemId)
                      && bool_decide (CartItem.cart_id i = cartId))
            (cart_items d).

(** [dto.quantity || 1] *)
Definition quantity_or_one (q : option Z) : Z :=
  match q with
  | Some n => if n =? 0 then 1 else n
  | None => 1
  end.

Section Catalogue.

(** The [is_active] column of the products table, by product id; none of
    the services modelled here writes it. *)
Variable is_active : string -> bool.

(** Add item to cart *)
Definition addItem (userId sessionId : option string) (dto : AddToCartDto)
  : Async CartResponse :=
  c <- getOrCreateCart userId sessionId ;;
  let quantity := quantity_or_one (add_quantity dto) in
  (* Validate product exists and is active *)
  store_io ;;;
  product <- gets (fun w => if is_active (add_product_id dto)
                            then products (db w) !! add_product_id dto else None) ;;
  match product with
  | None => throw (NotFoundException "Product not found or is not available")
  | Some p =>
      (* Check stock *)
      if Product.stock_quantity p <? quantity
      then throw (BadRequestException
                    ("Insufficient stock. Only " +:+ Js.toString (Product.stock_quantity p)
                     +:+ " available."))
      else
        (* Check if product already in cart *)
        store_io ;;;
        cartItem <- gets (fun w => find_line (db w) (Cart.id (cart c)) (add_product_id dto)) ;;
        match cartItem with
        | Some item =>
            (* Update quantity *)
            let newQuantity := CartItem.quantity item + quantity in
            if Product.stock_quantity p <? newQuantity
            then throw (BadRequestException
                          ("Cannot add more. Only " +:+ Js.toString (Product.stock_quantity p)
                           +:+ " available, you already have "
                           +:+ Js.toString (CartItem.quantity item) +:+ " in cart."))
            else
              store_io ;;;
              cart_execute
                (SaveCartItem (CartItem.mk (CartItem.id item) (CartItem.cart_id item)
                                 (CartItem.product_id item) newQuantity (Product.price p))) ;;;
              getCart userId sessionId
        | None =>
            (* Create new cart item *)
            new_id <- uuidv4 ;;
            store_io ;;;
            cart_execute
              (InsertCartItem (CartItem.mk new_id (Cart.id (cart c)) (add_product_id dto)
                                 quantity (Product.price p))) ;;;
            getCart userId sessionId
        end
  end.

End Catalogue.

(** Remove item from cart *)
Definition removeItem (userId sessionId : option string) (itemId : string)
  : Async CartResponse :=
  c <- getOrCreateCart userId sessionId ;;
  store_io ;;;
  cartItem <- gets (fun w => find_item (db w) itemId (Cart.id (cart c))) ;;
  match cartItem with
  | None => throw (NotFoundException "Cart item not found")
  | Some item =>
      store_io ;;;
      cart_execute (RemoveCartItem (CartItem.id item)) ;;;
      getCart userId sessionId
  end.

(** [product?.stock_quantity || 0] *)
Definition maxQty (product : option Product.t) : Z :=
  match product with
  | Some p => Product.stock_quantity p
  | None => 0
  end.

(** The loop of [mergeCart] over the guest cart's lines. *)
Fixpoint merge_items (userCartId : string) (guestItems : list (CartItem.t * option Product.t))
  : Async unit :=
  match guestItems with
  | [] => ret tt
  | (guestItem, _) :: rest =>
      store_io ;;;
      existingItem <-
        gets (fun w => find_line (db w) userCartId (CartItem.product_id guestItem)) ;;
      match existingItem with
      | Some existing =>
          (* Add quantities (cap at stock) *)
          store_io ;;;
          product <- gets (fun w => products (db w) !! CartItem.product_id guestItem) ;;
          store_io ;;;
          cart_execute
            (SaveCartItem
               (CartItem.mk (CartItem.id existing) (CartItem.cart_id existing)
                  (CartItem.product_id existing)
                  (Z.min (CartItem.quantity existing + CartItem.quantity guestItem)
                         (maxQty product))
                  (CartItem.price guestItem)))
      | None =>
          (* Move item to user cart *)
          new_id <- uuidv4 ;;
          store_io ;;;
          cart_execute
            (InsertCartItem
               (CartItem.mk new_id userCartId (CartItem.product_id guestItem)
                  (CartItem.quantity guestItem) (CartItem.price guestItem)))
      end ;;;
      merge_items userCartId rest
  end.

(** Merge guest cart into user cart on login *)
Definition mergeCart (userId sessionId : string) : Async CartResponse :=
  if negb (truthy (Some sessionId)) then getCart (Some userId) None
  else
    (* Get guest cart *)
    store_io ;;;
    guestCart <-
      gets (fun w => find_cart (db w) (fun c => owned_by sessionId (Cart.session_id c))) ;;
    match guestCart with
    | None => getCart (Some userId) None
    | Some guest =>
        match items guest with
        | [] => getCart (Some userId) None
        | _ :: _ =>
            (* Get or create user cart *)
            userCart <- getOrCreateCart (Some userId) None ;;
            (* Merge items *)
            merge_items (Cart.id (cart userCart)) (items guest) ;;;
            (* Delete guest cart *)
            store_io ;;;
            execute (DeleteCartItems (Cart.id (cart guest))) ;;;
            store_io ;;;
            cart_execute (RemoveCart (Cart.id (cart guest))) ;;;
            getCart (Some userId) None
        end
    end.

End CartService.

(** ** OrdersService (src/modules/orders/orders.service.ts) *)

Record ShippingAddressDto : Type := mkAddressDto
  { dto_first_name : string;
    dto_last_name : string;
    dto_email : option string;
    dto_phone : option string;
    dto_address_line1 : string;
    dto_address_line2 : option string;
    dto_city : string;
    dto_state : option string;
    dto_postal_code : option string;
    dto_country : string }.

Record CreateOrderDto : Type := mkOrderDto
  { dto_shipping_address : ShippingAddressDto;
    dto_payment_method : option string;
    dto_notes : option string }.

Module OrdersService.

(** An order loaded with its [items], [shipping_address] and [user]. *)
Record LoadedOrder : Type := mkLoaded
  { id : string;
    order : Order.t;
    items : list OrderItem.t;
    shipping_address : option ShippingAddress.t;
    user : option User.t }.

Definition count_orders_since (d : Db) (t : Z) : nat :=
  size (filter (fun kv : string * Order.t => t <= Order.created_at kv.2) (orders d)).

Definition generateOrderNumber : Async string :=
  date <- gets now ;;
  offset <- gets tz_offset ;;
  let dateStr := Js.strip_dashes (Js.slice0 10 (Js.toISOString date)) in
  let todayStart := Js.startOfLocalDay offset date in
  store_io ;;;
  count <- gets (fun w => count_orders_since (db w) todayStart) ;;
  let sequence := Js.padStart 4 "0" (Js.toString (Z.of_nat count + 1)) in
  ret ("ORD-" +:+ dateStr +:+ "-" +:+ sequence).

Definition load_order (d : Db) (oid : string) (o : Order.t) : LoadedOrder :=
  mkLoaded oid o
    (filter (fun i => OrderItem.order_id i = oid) (order_items d))
    (List.find (fun a => bool_decide (ShippingAddress.order_id a = oid)) (shipping_addresses d))
    (users d !! Order.user_id o).

Definition findOne (oid : string) (userId : option string) : Async LoadedOrder :=
  store_io ;;;
  d <- gets db ;;
  match orders d !! oid with
  | Some o =>
      if truthy userId && negb (bool_decide (Order.user_id o = default "" userId))
      then throw (NotFoundException "Order not found")
      else ret (load_order d oid o)
  | None => throw (NotFoundException "Order not found")
  end.

(** Step 1 of [createOrder]: the stock of every cart line, read through
    the transaction. *)
Fixpoint validate_stock (lines : list CartService.FormattedItem) : Async unit :=
  match lines with
  | [] => ret tt
  | item :: rest =>
      store_io ;;;
      product <- gets (fun w => products (tx_view w) !! CartService.product_id item) ;;
      match product with
      | None =>
          throw (BadRequestException
                   ("Product not found: " +:+ default "undefined" (CartService.product_name item)))
      | Some p =>
          if Product.stock_quantity p <? CartService.quantity item
          then throw (BadRequestException
                        ("Insufficient stock for " +:+ Product.name p +:+ ". Available: "
                         +:+ Js.toString (Product.stock_quantity p)))
          else validate_stock rest
      end
  end.

(** Step 5: one [OrderItem] row per cart line. *)
Fixpoint save_order_items (order_id : string) (lines : list CartService.FormattedItem)
  : Async (list OrderItem.t) :=
  match lines with
  | [] => ret []
  | cartItem :: rest =>
      item_id <- uuidv4 ;;
      let orderItem :=
        OrderItem.mk item_id order_id (CartService.product_id cartItem)
          (CartService.product_name cartItem) None
          (CartService.quantity cartItem) (CartService.price cartItem)
          (CartService.line_total cartItem) in
      store_io ;;;
      tx_execute (InsertOrderItem orderItem) ;;;
      saved <- save_order_items order_id rest ;;
      ret (orderItem :: saved)
  end.

(** Step 7: [UPDATE products SET stock_quantity = stock_quantity - q]. *)
Fixpoint reduce_stock (lines : list CartService.FormattedItem) : Async unit :=
  match lines with
  | [] => ret tt
  | cartItem :: rest =>
      store_io ;;;
      tx_execute (AdjustStock (CartService.product_id cartItem) (- CartService.quantity cartItem)) ;;;
      reduce_stock rest
  end.

Definition sendOrderConfirmation (e : Email) : Async unit :=
  try_catch (sendOrderConfirmationEmail e)
    (fun _ => console_log "Failed to send order confirmation email:").

(** The [try] block of [createOrder], up to the hand-over of the
    confirmation mail; it yields the id of the saved order. *)
Definition createOrder_body (userId : string) (dto : CreateOrderDto) (userEmail : string)
    (cart : CartService.CartResponse) : Async string :=
  let lines := CartService.response_items cart in
  (* 1. Validate stock for all items *)
  validate_stock lines ;;;
  (* 2. Generate order number *)
  orderNumber <- generateOrderNumber ;;
  (* 3. Calculate totals *)
  let subtotal := CartService.subtotal cart in
  let shippingFee := 0 in
  let tax := 0 in
  let discount := 0 in
  let total := subtotal + shippingFee + tax - discount in
  (* 4. Create order *)
  created <- gets now ;;
  order_id <- uuidv4 ;;
  let order :=
    Order.mk userId orderNumber PENDING PAY_PENDING
      (or_else (dto_payment_method dto) "cod")
      subtotal shippingFee tax discount total "USD"
      (or_null (dto_notes dto)) created in
  store_io ;;;
  tx_execute (InsertOrder order_id order) ;;;
  (* 5. Create order items *)
  orderItems <- save_order_items order_id lines ;;
  (* 6. Create shipping address *)
  address_id <- uuidv4 ;;
  let a := dto_shipping_address dto in
  let shippingAddress :=
    ShippingAddress.mk address_id order_id (dto_first_name a) (dto_last_name a)
      (or_else (dto_email a) userEmail) (or_null (dto_phone a))
      (dto_address_line1 a) (or_null (dto_address_line2 a)) (dto_city a)
      (or_null (dto_state a)) (or_null (dto_postal_code a)) (dto_country a) in
  store_io ;;;
  tx_execute (InsertShippingAddress shippingAddress) ;;;
  (* 7. Reduce product stock *)
  reduce_stock lines ;;;
  (* 8. Clear cart *)
  CartService.clearCart (Some userId) None ;;;
  (* 9. Commit transaction *)
  store_io ;;;
  commitTransaction ;;;
  (* 10. Send confirmation email (async, don't block) *)
  sendOrderConfirmation
    (mkEmail (or_else (Some (ShippingAddress.email shippingAddress)) userEmail)
             (dto_first_name a) order_id) ;;;
  ret order_id.

Definition createOrder (userId : string) (dto : CreateOrderDto) (userEmail userName : string)
  : Async LoadedOrder :=
  cart <- CartService.getCart (Some userId) None ;;
  match CartService.response_items cart with
  | [] => throw (BadRequestException "Cart is empty. Add items before checking out.")
  | _ :: _ =>
      store_io ;;;            (* queryRunner.connect() *)
      store_io ;;;            (* queryRunner.startTransaction() *)
      startTransaction ;;;
      saved_id <-
        try_catch (createOrder_body userId dto userEmail cart)
          (fun error => rollbackTransaction ;;; throw error) ;;
      (* 11. Return order details *)
      findOne saved_id (Some userId)
  end.

(** The stock restoring loop of [cancelOrder]. *)
Fixpoint restore_stock (lines : list OrderItem.t) : Async unit :=
  match lines with
  | [] => ret tt
  | item :: rest =>
      store_io ;;;
      execute (AdjustStock (OrderItem.product_id item) (OrderItem.quantity item)) ;;;
      restore_stock rest
  end.

Definition with_status (s : OrderStatus) (o : LoadedOrder) : LoadedOrder :=
  mkLoaded (id o) (patch_order (mkPatch (Some s) None None) (order o))
           (items o) (shipping_address o) (user o).

Definition cancelOrder (oid userId : string) : Async LoadedOrder :=
  o <- findOne oid (Some userId) ;;
  if negb (OrderStatus_eqb (Order.status (order o)) PENDING)
  then throw (BadRequestException "Only pending orders can be cancelled")
  else
    (* Restore stock *)
    restore_stock (items o) ;;;
    store_io ;;;
    execute (UpdateOrder oid (mkPatch (Some CANCELLED) None None)) ;;;
    ret (with_status CANCELLED o).

Record UpdateOrderStatusDto : Type := mkStatusDto
  { dto_status : option OrderStatus;
    dto_payment_status : option PaymentStatus }.

(** Update order status (admin) *)
Definition updateStatus (oid : string) (dto : UpdateOrderStatusDto) : Async LoadedOrder :=
  o <- findOne oid None ;;
  let changes := mkPatch (dto_status dto) (dto_payment_status dto) None in
  store_io ;;;
  execute (UpdateOrder oid changes) ;;;
  ret (mkLoaded (id o) (patch_order changes (order o)) (items o) (shipping_address o) (user o)).

Record OrderStats : Type := mkStats
  { totalOrders : nat;
    pendingOrders : nat;
    processingOrders : nat;
    deliveredOrders : nat;
    cancelledOrders : nat;
    totalRevenue : Z }.

(** [orderRepository.count({ where: { status } })] *)
Definition count_status (d : Db) (s : OrderStatus) : nat :=
  size (filter (fun kv : string * Order.t => OrderStatus_eqb (Order.status kv.2) s = true)
               (orders d)).

(** [SELECT SUM(order.total) ... WHERE order.payment_status = 'paid'], read
    with [Number(totalRevenue?.total || 0)]. *)
Definition paid_total (d : Db) : Z :=
  map_fold (fun _ (o : Order.t) acc =>
              if PaymentStatus_eqb (Order.payment_status o) PAID then Order.total o + acc
              else acc)
           0 (orders d).

(** Get order statistics (admin) *)
Definition getOrderStats : Async OrderStats :=
  store_io ;;;
  total <- gets (fun w => size (orders (db w))) ;;
  store_io ;;;
  pending <- gets (fun w => count_status (db w) PENDING) ;;
  store_io ;;;
  processing <- gets (fun w => count_status (db w) PROCESSING) ;;
  store_io ;;;
  delivered <- gets (fun w => count_status (db w) DELIVERED) ;;
  store_io ;;;
  cancelled <- gets (fun w => count_status (db w) CANCELLED) ;;
  store_io ;;;
  revenue <- gets (fun w => paid_total (db w)) ;;
  ret (mkStats total pending processing delivered cancelled revenue).

End OrdersService.

(** ** HMAC-SHA512, as [crypto.createHmac('sha512', key)] computes it *)

Module Crypto.

Definition byte_of (c : ascii) : Z := Z.of_nat (nat_of_ascii c).

Fixpoint bytes_of (s : string) : list Z :=
  match s with
  | EmptyString => []
  | String c s' => byte_of c :: bytes_of s'
  end.

Definition mask64 (x : Z) : Z := Z.land x 0xffffffffffffffff.

Definition rotr (n x : Z) : Z := mask64 (Z.lor (Z.shiftr x n) (Z.shiftl x (64 - n))).

Definition Ch (x y z : Z) : Z := Z.lxor (Z.land x y) (Z.land (Z.lxor x 0xffffffffffffffff) z).
Definition Maj (x y z : Z) : Z := Z.lxor (Z.lxor (Z.land x y) (Z.land x z)) (Z.land y z).
Definition Sigma0 (x : Z) : Z := Z.lxor (Z.lxor (rotr 28 x) (rotr 34 x)) (rotr 39 x).
Definition Sigma1 (x : Z) : Z := Z.lxor (Z.lxor (rotr 14 x) (rotr 18 x)) (rotr 41 x).
Definition sigma0 (x : Z) : Z := Z.lxor (Z.lxor (rotr 1 x) (rotr 8 x)) (Z.shiftr x 7).
Definition sigma1 (x : Z) : Z := Z.lxor (Z.lxor (rotr 19 x) (rotr 61 x)) (Z.shiftr x 6).

Definition round_constants : list Z :=
  [
   0x428a2f98d728ae22; 0x7137449123ef65cd; 0xb5c0fbcfec4d3b2f; 0xe9b5dba58189dbbc;
   0x3956c25bf348b538; 0x59f111f1b605d019; 0x923f82a4af194f9b; 0xab1c5ed5da6d8118;
   0xd807aa98a3030242; 0x12835b0145706fbe; 0x243185be4ee4b28c; 0x550c7dc3d5ffb4e2;
   0x72be5d74f27b896f; 0x80deb1fe3b1696b1; 0x9bdc06a725c71235; 0xc19bf174cf692694;
   0xe49b69c19ef14ad2; 0xefbe4786384f25e3; 0x0fc19dc68b8cd5b5; 0x240ca1cc77ac9c65;
   0x2de92c6f592b0275; 0x4a7484aa6ea6e483; 0x5cb0a9dcbd41fbd4; 0x76f988da831153b5;
   0x983e5152ee66dfab; 0xa831c66d2db43210; 0xb00327c898fb213f; 0xbf597fc7beef0ee4;
   0xc6e00bf33da88fc2; 0xd5a79147930aa725; 0x06ca6351e003826f; 0x142929670a0e6e70;
   0x27b70a8546d22ffc; 0x2e1b21385c26c926; 0x4d2c6dfc5ac42aed; 0x53380d139d95b3df;
   0x650a73548baf63de; 0x766a0abb3c77b2a8; 0x81c2c92e47edaee6; 0x92722c851482353b;
   0xa2bfe8a14cf10364; 0xa81a664bbc423001; 0xc24b8b70d0f89791; 0xc76c51a30654be30;
   0xd192e819d6ef5218; 0xd69906245565a910; 0xf40e35855771202a; 0x106aa07032bbd1b8;
   0x19a4c116b8d2d0c8; 0x1e376c085141ab53; 0x2748774cdf8eeb99; 0x34b0bcb5e19b48a8;
   0x391c0cb3c5c95a63; 0x4ed8aa4ae3418acb; 0x5b9cca4f7763e373; 0x682e6ff3d6b2b8a3;
   0x748f82ee5defb2fc; 0x78a5636f43172f60; 0x84c87814a1f0ab72; 0x8cc702081a6439ec;
   0x90befffa23631e28; 0xa4506cebde82bde9; 0xbef9a3f7b2c67915; 0xc67178f2e372532b;
   0xca273eceea26619c; 0xd186b8c721c0c207; 0xeada7dd6cde0eb1e; 0xf57d4f7fee6ed178;
   0x06f067aa72176fba; 0x0a637dc5a2c898a6; 0x113f9804bef90dae; 0x1b710b35131c471b;
   0x28db77f523047d84; 0x32caab7b40c72493; 0x3c9ebe0a15c9bebc; 0x431d67c49c100d4c;
   0x4cc5d4becb3e42b6; 0x597f299cfc657e2a; 0x5fcb6fab3ad6faec; 0x6c44198c4a475817
  ].

Definition initial_hash : list Z :=
  [
   0x6a09e667f3bcc908; 0xbb67ae8584caa73b; 0x3c6ef372fe94f82b; 0xa54ff53a5f1d36f1;
   0x510e527fade682d1; 0x9b05688c2b3e6c1f; 0x1f83d9abfb41bd6b; 0x5be0cd19137e2179
  ].

(** Big-endian value of a run of bytes. *)
Definition be (bs : list Z) : Z := foldl (fun acc b => acc * 256 + b) 0 bs.

(** [width] big-endian bytes of [x]. *)
Fixpoint be_bytes (width : nat) (x : Z) : list Z :=
  match width with
  | O => []
  | S w => (x / 256 ^ Z.of_nat w) mod 256 :: be_bytes w x
  end.

Fixpoint chunks (fuel : nat) (size : nat) (bs : list Z) : list (list Z) :=
  match fuel with
  | O => []
  | S f =>
      match bs with
      | [] => []
      | _ => take size bs :: chunks f size (drop size bs)
      end
  end.

(** Message padding: 0x80, zeros up to 112 mod 128, the bit length on 16 bytes. *)
Definition pad_message (m : list Z) : list Z :=
  let len := Z.of_nat (length m) in
  let zeros := Z.to_nat ((111 - len) mod 128) in
  m ++ [0x80] ++ replicate zeros 0 ++ be_bytes 16 (len * 8).

(** The message schedule, newest word first. *)
Fixpoint extend_schedule (n : nat) (w : list Z) : list Z :=
  match n with
  | O => w
  | S n' =>
      let next :=
        mask64 (sigma1 (nth 1 w 0) + nth 6 w 0 + sigma0 (nth 14 w 0) + nth 15 w 0) in
      extend_schedule n' (next :: w)
  end.

Definition schedule (block : list Z) : list Z :=
  rev (extend_schedule 64 (rev (map be (chunks 16 8 block)))).

Record Regs : Type := mkRegs { ra : Z; rb : Z; rc : Z; rd : Z; re : Z; rf : Z; rg : Z; rh : Z }.

Definition round (r : Regs) (kw : Z * Z) : Regs :=
  let t1 := rh r + Sigma1 (re r) + Ch (re r) (rf r) (rg r) + kw.1 + kw.2 in
  let t2 := Sigma0 (ra r) + Maj (ra r) (rb r) (rc r) in
  mkRegs (mask64 (t1 + t2)) (ra r) (rb r) (rc r) (mask64 (rd r + t1)) (re r) (rf r) (rg r).

Definition regs_of (h : list Z) : Regs :=
  mkRegs (nth 0 h 0) (nth 1 h 0) (nth 2 h 0) (nth 3 h 0)
         (nth 4 h 0) (nth 5 h 0) (nth 6 h 0) (nth 7 h 0).

Definition compress (h : list Z) (block : list Z) : list Z :=
  let r := foldl round (regs_of h) (zip round_constants (schedule block)) in
  zip_with (fun x y => mask64 (x + y)) h
    [ra r; rb r; rc r; rd r; re r; rf r; rg r; rh r].

Definition sha512 (m : list Z) : list Z :=
  let padded := pad_message m in
  let h := foldl compress initial_hash (chunks (length padded) 128 padded) in
  concat (map (be_bytes 8) h).

Definition hmac_sha512 (key msg : list Z) : list Z :=
  let k := if (128 <? Z.of_nat (length key)) then sha512 key else key in
  let k := k ++ replicate (128 - length k) 0 in
  sha512 (map (Z.lxor 0x5c) k ++ sha512 (map (Z.lxor 0x36) k ++ msg)).

Definition hex_digit (d : Z) : ascii :=
  ascii_of_nat (Z.to_nat (if d <? 10 then 48 + d else 87 + d)).

(** [digest('hex')] *)
Fixpoint hex (bs : list Z) : string :=
  match bs with
  | [] => EmptyString
  | b :: bs' => String (hex_digit (b / 16)) (String (hex_digit (b mod 16)) (hex bs'))
  end.

(** [crypto.createHmac('sha512', key).update(Buffer.from(data, 'utf-8')).digest('hex')] *)
Definition hmac_sha512_hex (key data : string) : string :=
  hex (hmac_sha512 (bytes_of key) (bytes_of data)).

End Crypto.

(** ** JavaScript objects used as records of query parameters *)

Module JsObject.

(** The own enumerable string-keyed properties of an object, in property
    order: array-index keys in ascending numeric order, then the other
    keys in insertion order. *)
Definition t (V : Type) : Type := list (string * V).

(** [Some n] when [k] is the canonical decimal form of an array index
    [n <= 2^32 - 2]. *)
Definition array_index (k : string) : option Z :=
  match k with
  | EmptyString => None
  | String c rest =>
      if Js.all_digits k
         && (negb (Ascii.eqb c "0") || bool_decide (rest = ""))
         && (Js.numeric_value 0 k <=? 4294967294)
      then Some (Js.numeric_value 0 k)
      else None
  end.

Definition has {V} (k : string) (o : t V) : bool :=
  existsb (fun kv => bool_decide (kv.1 = k)) o.

Fixpoint get {V} (k : string) (o : t V) : option V :=
  match o with
  | [] => None
  | (k', v) :: rest => if bool_decide (k' = k) then Some v else get k rest
  end.

Definition replace {V} (k : string) (v : V) (o : t V) : t V :=
  map (fun kv : string * V => if bool_decide (kv.1 = k) then (kv.1, v) else kv) o.

(** Where a new array-index key [n] goes: before the first key that is
    not an array index or is a larger one. *)
Fixpoint insert_index {V} (n : Z) (k : string) (v : V) (o : t V) : t V :=
  match o with
  | [] => [(k, v)]
  | (k', v') :: rest =>
      match array_index k' with
      | Some n' => if n' <? n then (k', v') :: insert_index n k v rest
                   else (k, v) :: (k', v') :: rest
      | None => (k, v) :: (k', v') :: rest
      end
  end.

(** [o[k] = v] *)
Definition set {V} (k : string) (v : V) (o : t V) : t V :=
  if has k o then replace k v o
  else match array_index k with
       | Some n => insert_index n k v o
       | None => o ++ [(k, v)]
       end.

Definition keys {V} (o : t V) : list string := map fst o.

Fixpoint insert_sorted (k : string) (sorted : list string) : list string :=
  match sorted with
  | [] => [k]
  | k' :: rest => if String.leb k k' then k :: k' :: rest else k' :: insert_sorted k rest
  end.

(** [Object.keys(o).sort()] *)
Definition sorted_keys {V} (o : t V) : list string :=
  foldr insert_sorted [] (keys o).

End JsObject.

(** ** URLSearchParams serialisation *)

Module URLSearchParams.

Definition unreserved (c : ascii) : bool :=
  let n := Z.of_nat (nat_of_ascii c) in
  ((48 <=? n) && (n <=? 57)) || ((65 <=? n) && (n <=? 90)) || ((97 <=? n) && (n <=? 122))
  || (n =? 42) || (n =? 45) || (n =? 46) || (n =? 95).

Definition upper_hex (d : Z) : ascii :=
  ascii_of_nat (Z.to_nat (if d <? 10 then 48 + d else 55 + d)).

Definition encode_byte (c : ascii) : string :=
  if unreserved c then String c ""
  else if Ascii.eqb c " " then "+"
  else
    let n := Z.of_nat (nat_of_ascii c) in
    String "%" (String (upper_hex (n / 16)) (String (upper_hex (n mod 16)) "")).

(** application/x-www-form-urlencoded byte serialisation of a string *)
Fixpoint encode (s : string) : string :=
  match s with
  | EmptyString => EmptyString
  | String c s' => encode_byte c +:+ encode s'
  end.

(** [new URLSearchParams(record).toString()] *)
Fixpoint toString (pairs : JsObject.t string) : string :=
  match pairs with
  | [] => ""
  | (k, v) :: rest =>
      encode k +:+ "=" +:+ encode v +:+
      match rest with
      | [] => ""
      | _ :: _ => "&" +:+ toString rest
      end
  end.

End URLSearchParams.

(** ** VNPayService (src/modules/payments/vnpay.service.ts) *)

Record VNPayConfig : Type := mkVNPayConfig
  { tmnCode : string;
    hashSecret : string;
    url : string;
    returnUrl : string }.

Module VNPayService.

Record ReturnResult : Type := mkResult
  { isValid : bool;
    responseCode : option string;
    orderId : option string;
    transactionNo : option string }.

(** Sort object keys alphabetically *)
Definition sortObject (obj : JsObject.t string) : JsObject.t string :=
  foldl (fun sorted key =>
           match JsObject.get key obj with
           | Some v => if bool_decide (v = "") then sorted else JsObject.set key v sorted
           | None => sorted
           end)
        [] (JsObject.sorted_keys obj).

(** The string [validateReturn] signs: the returned parameters without
    the hash fields, filtered, sorted and serialised. *)
Definition signData (params : JsObject.t string) : string :=
  let paramsToSign : JsObject.t (option string) :=
    map (fun kv : string * string => (kv.1, Some kv.2)) params in
  let paramsToSign := JsObject.set "vnp_SecureHash" None paramsToSign in
  let paramsToSign := JsObject.set "vnp_SecureHashType" None paramsToSign in
  let filteredParams :=
    foldl (fun acc (kv : string * option string) =>
             match kv.2 with
             | Some value => JsObject.set kv.1 value acc
             | None => acc
             end)
          [] paramsToSign in
  let sortedParams := sortObject filteredParams in
  URLSearchParams.toString sortedParams.

Definition validateReturn (config : VNPayConfig) (params : JsObject.t string) : ReturnResult :=
  let secureHash := JsObject.get "vnp_SecureHash" params in
  let checkSum := Crypto.hmac_sha512_hex (hashSecret config) (signData params) in
  mkResult (bool_decide (secureHash = Some checkSum))
           (JsObject.get "vnp_ResponseCode" params)
           (JsObject.get "vnp_TxnRef" params)
           (JsObject.get "vnp_TransactionNo" params).

Definition isPaymentSuccessful (responseCode : option string) : bool :=
  bool_decide (responseCode = Some "00").

Definition messages : JsObject.t string :=
  [ ("00", "Transaction successful");
    ("07", "Deducted money successfully. Transaction is suspected of fraud");
    ("09", "Transaction failed: Card/Account not registered for InternetBanking");
    ("10", "Transaction failed: Incorrect card/account information more than 3 times");
    ("11", "Transaction failed: Payment timeout");
    ("12", "Transaction failed: Card/Account is locked");
    ("13", "Transaction failed: Incorrect OTP");
    ("24", "Transaction cancelled by customer");
    ("51", "Transaction failed: Insufficient balance");
    ("65", "Transaction failed: Exceeded daily transaction limit");
    ("75", "Bank is under maintenance");
    ("79", "Transaction failed: Incorrect payment password");
    ("99", "Other errors") ].

Definition getResponseMessage (code : option string) : string :=
  match code with
  | Some c => default "Unknown error" (JsObject.get c messages)
  | None => "Unknown error"
  end.

(** [formatDate]: the local calendar fields of an instant, yyyyMMddHHmmss. *)
Definition formatDate (offset t : Z) : string :=
  let local := t + offset in
  let '(y, m, d) := Js.civil_from_days (local / Js.msPerDay) in
  let ms := local mod Js.msPerDay in
  Js.toString y +:+ Js.pad 2 m +:+ Js.pad 2 d
  +:+ Js.pad 2 (ms / 3600000) +:+ Js.pad 2 (ms / 60000 mod 60) +:+ Js.pad 2 (ms / 1000 mod 60).

Definition createPaymentUrl (config : VNPayConfig) (offset date : Z)
    (order : Order.t) (ipAddr : string) : string :=
  let createDate := formatDate offset date in
  let expireDate := formatDate offset (date + 15 * 60 * 1000) in
  (* order.total is held in hundredths, which is the VNPay amount *)
  let amount := Order.total order in
  let params : JsObject.t string :=
    [ ("vnp_Version", "2.1.0");
      ("vnp_Command", "pay");
      ("vnp_TmnCode", tmnCode config);
      ("vnp_Locale", "vn");
      ("vnp_CurrCode", "VND");
      ("vnp_TxnRef", Order.order_number order);
      ("vnp_OrderInfo", "Payment for order " +:+ Order.order_number order);
      ("vnp_OrderType", "other");
      ("vnp_Amount", Js.toString amount);
      ("vnp_ReturnUrl", returnUrl config);
      ("vnp_IpAddr", ipAddr);
      ("vnp_CreateDate", createDate);
      ("vnp_ExpireDate", expireDate) ] in
  let sortedParams := sortObject params in
  let signData := URLSearchParams.toString sortedParams in
  let signed := Crypto.hmac_sha512_hex (hashSecret config) signData in
  let sortedParams := JsObject.set "vnp_SecureHash" signed sortedParams in
  let queryString := URLSearchParams.toString sortedParams in
  url config +:+ "?" +:+ queryString.

End VNPayService.

(** ** StripeService (src/modules/payments/stripe.service.ts) *)

Record PaymentIntent : Type := mkIntent
  { intent_id : string;
    client_secret : option string }.

(** [event.data.object] of a payment-intent event, as the handlers read it. *)
Record PaymentData : Type := mkPaymentData
  { payment_id : string;
    metadata_order_id : option string   (* paymentData.metadata?.order_id *) }.

Record StripeEvent : Type := mkEvent
  { event_type : string;
    data_object : PaymentData }.

(** The Stripe SDK client: both calls either return or throw ([None]). *)
Record StripeSdk : Type := mkSdk
  { paymentIntents_create :
      Z -> string -> string -> string -> option PaymentIntent;
    webhooks_constructEvent :
      string -> string -> string -> option StripeEvent }.

Record PaymentsEnv : Type := mkEnv
  { vnpay_config : VNPayConfig;
    stripe : StripeSdk;
    STRIPE_WEBHOOK_SECRET : option string }.

Module StripeService.

Definition lower (c : ascii) : ascii :=
  let n := nat_of_ascii c in
  if (65 <=? Z.of_nat n) && (Z.of_nat n <=? 90) then ascii_of_nat (n + 32) else c.

Fixpoint toLowerCase (s : string) : string :=
  match s with
  | EmptyString => EmptyString
  | String c s' => String (lower c) (toLowerCase s')
  end.

Definition createPaymentIntent (env : PaymentsEnv) (order_id : string) (order : Order.t)
  : Async PaymentIntent :=
  (* Amount in cents: order.total is held in hundredths *)
  let amount := Order.total order in
  match paymentIntents_create (stripe env) amount (toLowerCase (Order.currency order))
          order_id (Order.order_number order) with
  | Some paymentIntent => ret paymentIntent
  | None => throw (BadRequestException "Payment setup failed: ")
  end.

Definition constructWebhookEvent (env : PaymentsEnv) (payload signature : string)
  : Async StripeEvent :=
  if truthy (STRIPE_WEBHOOK_SECRET env) then
    match webhooks_constructEvent (stripe env) payload signature
            (default "" (STRIPE_WEBHOOK_SECRET env)) with
    | Some event => ret event
    | None => throw (BadRequestException "Webhook signature verification failed: ")
    end
  else throw (BadRequestException "Webhook secret not configured").

End StripeService.

(** ** PaymentsService (src/modules/payments/payments.service.ts) *)

Module PaymentsService.

Record StripeIntentResponse : Type := mkIntentResponse
  { clientSecret : option string;
    paymentIntentId : string;
    amount : Z;
    intent_currency : string }.

Record VNPayUrlResponse : Type := mkUrlResponse
  { paymentUrl : string;
    url_orderNumber : string }.

Record VNPayReturnResponse : Type := mkReturnResponse
  { success : bool;
    message : string;
    orderId : string;
    orderNumber : string }.

Record PaymentStatusResponse : Type := mkStatusResponse
  { status_orderId : string;
    status_orderNumber : string;
    paymentStatus : PaymentStatus;
    paymentMethod : string;
    status_total : Z }.

Record RefundResponse : Type := mkRefundResponse
  { refund_success : bool;
    refund_orderId : string;
    refundedAmount : Z }.

Section WithEnv.

Variable env : PaymentsEnv.

(** Get payment status *)
Definition getPaymentStatus (orderId userId : string) : Async PaymentStatusResponse :=
  store_io ;;;
  d <- gets db ;;
  match orders d !! orderId with
  | Some o =>
      if bool_decide (Order.user_id o = userId)
      then ret (mkStatusResponse orderId (Order.order_number o) (Order.payment_status o)
                  (Order.payment_method o) (Order.total o))
      else throw (NotFoundException "Order not found")
  | None => throw (NotFoundException "Order not found")
  end.

(** Process refund (Admin); [amount || order.total] is the amount reported. *)
Definition processRefund (orderId : string) (amount : option Z) : Async RefundResponse :=
  store_io ;;;
  d <- gets db ;;
  match orders d !! orderId with
  | None => throw (NotFoundException "Order not found")
  | Some o =>
      if negb (PaymentStatus_eqb (Order.payment_status o) PAID)
      then throw (BadRequestException "Order has not been paid")
      else if bool_decide (Order.payment_method o = "stripe")
      then throw (BadRequestException "Stripe refund requires payment intent ID")
      else
        (* Update order status *)
        store_io ;;;
        execute (UpdateOrder orderId (mkPatch None (Some REFUNDED) None)) ;;;
        ret (mkRefundResponse true orderId
               (match amount with
                | Some a => if a =? 0 then Order.total o else a
                | None => Order.total o
                end))
  end.

(** Find order for payment with validation *)
Definition findOrderForPayment (orderId userId : string) : Async OrdersService.LoadedOrder :=
  store_io ;;;
  d <- gets db ;;
  match orders d !! orderId with
  | Some o =>
      if negb (bool_decide (Order.user_id o = userId))
      then throw (NotFoundException "Order not found")
      else if PaymentStatus_eqb (Order.payment_status o) PAID
      then throw (BadRequestException "Order already paid")
      else if PaymentStatus_eqb (Order.payment_status o) REFUNDED
      then throw (BadRequestException "Order has been refunded")
      else ret (OrdersService.load_order d orderId o)
  | None => throw (NotFoundException "Order not found")
  end.

Definition createStripePaymentIntent (orderId userId : string) : Async StripeIntentResponse :=
  o <- findOrderForPayment orderId userId ;;
  paymentIntent <-
    StripeService.createPaymentIntent env (OrdersService.id o) (OrdersService.order o) ;;
  store_io ;;;
  execute (UpdateOrder (OrdersService.id o) (mkPatch None None (Some "stripe"))) ;;;
  ret (mkIntentResponse (client_secret paymentIntent) (intent_id paymentIntent)
         (Order.total (OrdersService.order o)) (Order.currency (OrdersService.order o))).

Definition createVNPayPaymentUrl (orderId userId ipAddr : string) : Async VNPayUrlResponse :=
  o <- findOrderForPayment orderId userId ;;
  date <- gets now ;;
  offset <- gets tz_offset ;;
  let paymentUrl :=
    VNPayService.createPaymentUrl (vnpay_config env) offset date (OrdersService.order o) ipAddr in
  store_io ;;;
  execute (UpdateOrder (OrdersService.id o) (mkPatch None None (Some "vnpay"))) ;;;
  ret (mkUrlResponse paymentUrl (Order.order_number (OrdersService.order o))).

(** Mark order as paid *)
Definition markOrderPaid (o : OrdersService.LoadedOrder) (transactionId : option string)
  : Async unit :=
  store_io ;;;
  execute (UpdateOrder (OrdersService.id o) (mkPatch (Some PROCESSING) (Some PAID) None)) ;;;
  (* Send confirmation email *)
  match OrdersService.user o with
  | Some u =>
      if truthy (Some (User.email u)) then
        try_catch
          (sendOrderConfirmationEmail
             (mkEmail (User.email u) (User.first_name u) (OrdersService.id o)))
          (fun _ => console_log "Failed to send payment confirmation email:")
      else ret tt
  | None => ret tt
  end ;;;
  console_log ("✅ Order " +:+ Order.order_number (OrdersService.order o)
               +:+ " marked as paid (Transaction: "
               +:+ default "undefined" transactionId +:+ ")").

(** Mark order payment as failed *)
Definition markOrderPaymentFailed (o : OrdersService.LoadedOrder) : Async unit :=
  store_io ;;;
  execute (UpdateOrder (OrdersService.id o) (mkPatch None (Some FAILED) None)) ;;;
  console_log ("❌ Order " +:+ Order.order_number (OrdersService.order o) +:+ " payment failed").

(** [orderRepository.findOne({ where: { order_number } })]; a
    notification without [vnp_TxnRef] is taken to match no order. *)
Definition find_by_order_number (d : Db) (ref : option string)
  : option OrdersService.LoadedOrder :=
  match ref with
  | Some r =>
      match List.find (fun kv : string * Order.t => bool_decide (Order.order_number kv.2 = r))
              (map_to_list (orders d)) with
      | Some (oid, o) => Some (OrdersService.load_order d oid o)
      | None => None
      end
  | None => None
  end.

(** Handle VNPay return *)
Definition handleVNPayReturn (params : JsObject.t string) : Async VNPayReturnResponse :=
  let result := VNPayService.validateReturn (vnpay_config env) params in
  if negb (VNPayService.isValid result)
  then throw (BadRequestException "Invalid VNPay signature")
  else
    store_io ;;;
    found <- gets (fun w => find_by_order_number (db w) (VNPayService.orderId result)) ;;
    match found with
    | None => throw (NotFoundException "Order not found")
    | Some o =>
        (if VNPayService.isPaymentSuccessful (VNPayService.responseCode result)
         then markOrderPaid o (VNPayService.transactionNo result)
         else markOrderPaymentFailed o) ;;;
        ret (mkReturnResponse
               (VNPayService.isPaymentSuccessful (VNPayService.responseCode result))
               (VNPayService.getResponseMessage (VNPayService.responseCode result))
               (OrdersService.id o)
               (Order.order_number (OrdersService.order o)))
    end.

(** Handle successful payment *)
Definition handlePaymentSuccess (paymentData : PaymentData) (method : string) : Async unit :=
  if negb (truthy (metadata_order_id paymentData))
  then console_log "No order ID in payment metadata"
  else
    let orderId := default "" (metadata_order_id paymentData) in
    store_io ;;;
    d <- gets db ;;
    match orders d !! orderId with
    | None => console_log ("Order not found: " +:+ orderId)
    | Some o => markOrderPaid (OrdersService.load_order d orderId o) (Some (payment_id paymentData))
    end.

(** Handle failed payment *)
Definition handlePaymentFailed (paymentData : PaymentData) (method : string) : Async unit :=
  if negb (truthy (metadata_order_id paymentData))
  then ret tt
  else
    let orderId := default "" (metadata_order_id paymentData) in
    store_io ;;;
    d <- gets db ;;
    match orders d !! orderId with
    | None => ret tt
    | Some o => markOrderPaymentFailed (OrdersService.load_order d orderId o)
    end.

(** Handle Stripe webhook event; the result stands for [{ received: true }]. *)
Definition handleStripeWebhook (payload signature : string) : Async bool :=
  event <- StripeService.constructWebhookEvent env payload signature ;;
  (if bool_decide (event_type event = "payment_intent.succeeded")
   then handlePaymentSuccess (data_object event) "stripe"
   else if bool_decide (event_type event = "payment_intent.payment_failed")
   then handlePaymentFailed (data_object event) "stripe"
   else console_log ("Unhandled Stripe event type: " +:+ event_type event)) ;;;
  ret true.

End WithEnv.

End PaymentsService.

(** ** PaymentsController (src/modules/payments/payments.controller.ts) *)

Module PaymentsController.

Record IpnResponse : Type := mkIpn
  { RspCode : string;
    Message : string }.

(** VNPay IPN (Instant Payment Notification) handler *)
Definition handleVNPayIPN (env : PaymentsEnv) (query : JsObject.t string) : Async IpnResponse :=
  result <- PaymentsService.handleVNPayReturn env query ;;
  ret (mkIpn (if PaymentsService.success result then "00" else "99")
             (PaymentsService.message result)).

End PaymentsController.

(** ** Sample data *)

Module Sample.

Definition uuids (n : nat) : string := "uuid-" +:+ Js.toString (Z.of_nat n).

(** 2025-01-01T00:00:00.000Z *)
Definition new_year : Z := 1735689600000.

Definition ann : User.t := User.mk "ann@example.com" "Ann".

Definition world (d : Db) (faults : nat -> bool) : World :=
  mkWorld d [] [] [] [] new_year 0 0 uuids 0 faults (fun _ => false).

Definition reliable : nat -> bool := fun _ => false.

(** Ann's cart holds two widgets; five are in stock. *)
Definition basket : Db :=
  mkDb {[ "u1" := ann ]}
       {[ "A" := Product.mk "Widget" 1000 5 ]}
       [Cart.mk "c1" (Some "u1") None]
       [CartItem.mk "ci1" "c1" "A" 2 1000]
       ∅ [] [].

Definition checkout : CreateOrderDto :=
  mkOrderDto (mkAddressDto "Ann" "Lee" None None "1 Main St" None "Hanoi" None None "VN")
             (Some "vnpay") None.

Definition order1 (s : OrderStatus) (p : PaymentStatus) : Order.t :=
  Order.mk "u1" "ORD-20250101-0001" s p "vnpay" 2000 0 0 0 2000 "USD" None new_year.

(** The store once Ann's order "o1" is placed, in the given states. *)
Definition placed (s : OrderStatus) (p : PaymentStatus) : Db :=
  mkDb {[ "u1" := ann ]}
       {[ "A" := Product.mk "Widget" 1000 3 ]}
       [Cart.mk "c1" (Some "u1") None]
       []
       {[ "o1" := order1 s p ]}
       [OrderItem.mk "i1" "o1" "A" (Some "Widget") None 2 1000 2000]
       [].

Definition sdk : StripeSdk :=
  mkSdk (fun _ _ _ _ => Some (mkIntent "pi_1" (Some "pi_1_secret")))
        (fun _ _ _ =>
           Some (mkEvent "payment_intent.succeeded" (mkPaymentData "pi_1" (Some "o9")))).

Definition env : PaymentsEnv :=
  mkEnv (mkVNPayConfig "TMN" "SECRET" "https://sandbox.vnpayment.vn/paymentv2/vpcpay.html"
           "http://localhost:3002/checkout/payment/vnpay-return")
        sdk (Some "whsec").

(** A return parameter set signed with the secret of [env]. *)
Definition notification (txnRef : string) (secureHash : string) : JsObject.t string :=
  [ ("vnp_Amount", "200000");
    ("vnp_BankCode", "NCB");
    ("vnp_BankTranNo", "");
    ("vnp_OrderInfo", "Payment for order " +:+ txnRef);
    ("vnp_PayDate", "20250101120000");
    ("vnp_ResponseCode", "00");
    ("vnp_TmnCode", "TMN");
    ("vnp_TransactionNo", "14226112");
    ("vnp_TransactionStatus", "00");
    ("vnp_TxnRef", txnRef);
    ("vnp_SecureHash", secureHash) ].

Definition paid_notification : JsObject.t string :=
  notification "ORD-20250101-0001"
    "1c1764bd020fc903a0378b4194279c3563f5b7a262ff18be155c2cc9b09999e923668bd30a4af1a5018505900b0a7cdfa543f0a719c7b5ad4a7848f54fdc6034".

(** The store rejects the read that closes [clearCart] (round trip 11 of a
    one-line checkout). *)
Definition reload_outage : nat -> bool := fun k => Nat.eqb k 11.

(** The order a checkout of [basket] returns. *)
Definition first_order : OrdersService.LoadedOrder :=
  OrdersService.mkLoaded "uuid-0"
    (Order.mk "u1" "ORD-20250101-0001" PENDING PAY_PENDING "vnpay" 2000 0 0 0 2000 "USD"
       None new_year)
    [OrderItem.mk "uuid-1" "uuid-0" "A" (Some "Widget") None 2 1000 2000]
    (Some (ShippingAddress.mk "uuid-2" "uuid-0" "Ann" "Lee" "ann@example.com" None
             "1 Main St" None "Hanoi" None None "VN"))
    (Some ann).

(** A day on which 9999 orders were placed already. *)
Definition busy_day : Db :=
  mkDb ∅ ∅ [] []
    (list_to_map
       (map (fun n : nat => (Js.toString (Z.of_nat n), order1 PENDING PAY_PENDING))
            (seq 0 (Z.to_nat 9999))))
    [] [].

(** A server seven hours east of UTC at 2025-01-01T18:00Z, which is one
    o'clock in the morning of January 2nd there; order "o1" was placed at
    2025-01-01T00:00Z. *)
Definition after_local_midnight : World :=
  mkWorld (placed PENDING PAY_PENDING) [] [] [] [] (new_year + 18 * 3600000) 25200000
          0 uuids 0 reliable (fun _ => false).

(** Ann's order "o1" awaiting payment / already shipped but unpaid. *)
Definition awaiting_payment : World := world (placed PENDING PAY_PENDING) reliable.
Definition shipped_unpaid : World := world (placed SHIPPED PAY_PENDING) reliable.

Definition loaded (w : World) (s : OrderStatus) (p : PaymentStatus) : OrdersService.LoadedOrder :=
  OrdersService.load_order (db w) "o1" (order1 s p).

(** Ann's order "o1", paid through VNPay and being processed. *)
Definition paid_by_vnpay : World := world (placed PROCESSING PAID) reliable.

(** The fields of [paid_notification] as another sender would lay them
    out: the hash type first, the rest in reverse order. *)
Definition resent_notification : JsObject.t string :=
  ("vnp_SecureHashType", "HmacSHA512") :: rev paid_notification.

(** A catalogue in which every product is active. *)
Definition catalogue : string -> bool := fun _ => true.

(** Ann's cart as the cart service loads it from [basket], and what the
    service answers once it holds three widgets, or nothing. *)
Definition anns_cart : CartService.LoadedCart :=
  CartService.mkLoaded (Cart.mk "c1" (Some "u1") None)
    [(CartItem.mk "ci1" "c1" "A" 2 1000, Some (Product.mk "Widget" 1000 5))].

Definition three_widgets : CartService.CartResponse :=
  CartService.mkResponse "c1" [CartService.mkItem "ci1" "A" (Some "Widget") 3 1000 3000] 3000 3.

Definition empty_cart : CartService.CartResponse := CartService.mkResponse "c1" [] 0 0.

(** Ann's cart beside the cart of the guest session "s1", which holds four
    widgets taken at an older price and three gadgets, of which one is
    left in stock. *)
Definition before_login : Db :=
  mkDb {[ "u1" := ann ]}
       (<[ "A" := Product.mk "Widget" 1000 5 ]> {[ "B" := Product.mk "Gadget" 500 1 ]})
       [Cart.mk "c1" (Some "u1") None; Cart.mk "g1" None (Some "s1")]
       [CartItem.mk "ci1" "c1" "A" 2 1000;
        CartItem.mk "gi1" "g1" "A" 4 900;
        CartItem.mk "gi2" "g1" "B" 3 500]
       ∅ [] [].

Definition guest_cart : CartService.LoadedCart :=
  CartService.mkLoaded (Cart.mk "g1" None (Some "s1"))
    [(CartItem.mk "gi1" "g1" "A" 4 900, Some (Product.mk "Widget" 1000 5));
     (CartItem.mk "gi2" "g1" "B" 3 500, Some (Product.mk "Gadget" 500 1))].

End Sample.

(** * Properties *)

(** ** Notions used to state the properties *)

(** The store accepts every round trip. *)
Definition no_faults (w : World) : Prop := forall k, io_fault w k = false.

(** Total quantity the order lines [lines] hold of product [pid]. *)
Definition ordered_quantity (pid : string) (lines : list OrderItem.t) : Z :=
  foldr (fun i acc => if bool_decide (OrderItem.product_id i = pid)
                      then OrderItem.quantity i + acc else acc) 0 lines.

(** The rows of [order_items] that belong to order [oid]. *)
Definition lines_of (d : Db) (oid : string) : list OrderItem.t :=
  filter (fun i => OrderItem.order_id i = oid) (order_items d).

Definition cancelled (o : Order.t) : Order.t :=
  patch_order (mkPatch (Some CANCELLED) None None) o.

Definition paid (o : Order.t) : Order.t :=
  patch_order (mkPatch (Some PROCESSING) (Some PAID) None) o.

Definition payment_failed (o : Order.t) : Order.t :=
  patch_order (mkPatch None (Some FAILED) None) o.

Definition paying_with (method : string) (o : Order.t) : Order.t :=
  patch_order (mkPatch None None (Some method)) o.

(** The confirmation mail [markOrderPaid] hands to the mailer for a loaded
    order: none when the order has no user or the user no e-mail address. *)
Definition confirmation_for (lo : OrdersService.LoadedOrder) : list Email :=
  match OrdersService.user lo with
  | Some u =>
      if truthy (Some (User.email u))
      then [mkEmail (User.email u) (User.first_name u) (OrdersService.id lo)]
      else []
  | None => []
  end.

(** The mails of [mails] the mailer of [w] accepts. *)
Definition delivered (w : World) (mails : list Email) : list Email :=
  filter (fun e => mail_fault w e = false) mails.

(** The lines of the cart that [createOrder] reads for user [userId]. *)
Definition cart_lines (d : Db) (userId : string) : list CartService.FormattedItem :=
  match CartService.find_cart d (fun c => CartService.owned_by userId (Cart.user_id c)) with
  | Some c => CartService.response_items (CartService.formatCartResponse c)
  | None => []
  end.

(** The stock of [line]'s product covers the line / falls short of it. *)
Definition in_stock (m : gmap string Product.t) (line : CartService.FormattedItem) : Prop :=
  exists p, m !! CartService.product_id line = Some p
            /\ CartService.quantity line <= Product.stock_quantity p.

Definition short_of_stock (m : gmap string Product.t) (line : CartService.FormattedItem) : Prop :=
  exists p, m !! CartService.product_id line = Some p
            /\ Product.stock_quantity p < CartService.quantity line.

(** The tables a checkout writes through its transaction, and the users. *)
Definition sales_tables (d : Db) :=
  (users d, products d, orders d, order_items d, shipping_addresses d).

(** Relative stock statements, applied in order. *)
Definition adjust_all (deltas : list (string * Z)) (m : gmap string Product.t)
  : gmap string Product.t :=
  foldl (fun acc kd => alter (adjust_stock kd.2) kd.1 acc) m deltas.

Definition total_delta (pid : string) (deltas : list (string * Z)) : Z :=
  foldr (fun kd acc => if bool_decide (kd.1 = pid) then kd.2 + acc else acc) 0 deltas.

Definition decrements (lines : list CartService.FormattedItem) : list (string * Z) :=
  map (fun l => (CartService.product_id l, - CartService.quantity l)) lines.

Definition stock_stmt (kd : string * Z) : Stmt := AdjustStock kd.1 kd.2.

(** An order item is the snapshot of a cart line. *)
Definition snapshot_of (oid : string) (item : OrderItem.t) (line : CartService.FormattedItem) : Prop :=
  OrderItem.order_id item = oid
  /\ OrderItem.product_id item = CartService.product_id line
  /\ OrderItem.quantity item = CartService.quantity line
  /\ OrderItem.price item = CartService.price line
  /\ OrderItem.subtotal item = CartService.line_total line.

Definition sum_subtotals (items : list OrderItem.t) : Z :=
  foldr (fun i acc => OrderItem.subtotal i + acc) 0 items.

(** The world after a run that only queued statements, drew uuids and made
    round trips. *)
Definition tx_step (w : World) (stmts : list Stmt) (u n : nat) : World :=
  mkWorld (db w) (pending w ++ stmts) (journal w) (outbox w) (console w) (now w)
          (tz_offset w) u (uuid_source w) n (io_fault w) (mail_fault w).

(** The statements a checkout queues, in order. *)
Definition checkout_stmts (oid : string) (o : Order.t) (items : list OrderItem.t)
    (a : ShippingAddress.t) (lines : list CartService.FormattedItem) : list Stmt :=
  [InsertOrder oid o] ++ map InsertOrderItem items ++ [InsertShippingAddress a]
  ++ map stock_stmt (decrements lines).

(** The instant at which the server's current day began, and the number of
    stored orders created since. *)
Definition todayStart (w : World) : Z := Js.startOfLocalDay (tz_offset w) (now w).

Definition orders_today (w : World) : nat :=
  OrdersService.count_orders_since (db w) (todayStart w).

(** *** Invariants of asynchronous code *)

(** [m] relates the world it starts in to the world it ends in by [R],
    whether it returns or throws. *)
Definition Preserves {A} (R : World -> World -> Prop) (m : Async A) : Prop :=
  forall w r w', m w = (r, w') -> R w w'.

(** The same for the runs of [m] that throw. *)
Definition ThrowPreserves {A} (R : World -> World -> Prop) (m : Async A) : Prop :=
  forall w e w', m w = (Throw e, w') -> R w w'.

Definition NoThrow {A} (m : Async A) : Prop := forall w e w', m w <> (Throw e, w').

(** The invariant of a checkout that has not committed: the tables the
    transaction writes, and the users, are as they were. *)
Definition sales_untouched (w w' : World) : Prop := sales_tables (db w') = sales_tables (db w).

(** What the cart service keeps: the same, and the open transaction. *)
Definition cart_only (w w' : World) : Prop :=
  sales_tables (db w') = sales_tables (db w) /\ pending w' = pending w.

(** *** Query parameters and what is signed *)

(** The three shapes of an encoded byte. *)
Inductive EncodedByte (c : ascii) : string -> Prop :=
| enc_plain :
    URLSearchParams.unreserved c = true -> EncodedByte c (String c "")
| enc_space :
    c = " "%char -> EncodedByte c "+"
| enc_percent h l :
    URLSearchParams.unreserved c = false ->
    h = Z.of_nat (nat_of_ascii c) / 16 -> l = Z.of_nat (nat_of_ascii c) mod 16 ->
    EncodedByte c (String "%" (String (URLSearchParams.upper_hex h)
                                 (String (URLSearchParams.upper_hex l) ""))).

(** What may follow an encoded name or value: nothing, or a separator. *)
Definition Stop (s : string) : Prop :=
  s = "" \/ exists rest, s = String "&" rest \/ s = String "=" rest.

(** The received parameters [validateReturn] keeps after deleting the two
    hash fields, and the object it serialises and signs. *)
Definition received_fields (params : JsObject.t string) : JsObject.t string :=
  foldl (fun acc (kv : string * option string) =>
           match kv.2 with
           | Some value => JsObject.set kv.1 value acc
           | None => acc
           end)
        []
        (JsObject.set "vnp_SecureHashType" None
           (JsObject.set "vnp_SecureHash" None
              (map (fun kv : string * string => (kv.1, Some kv.2)) params))).

Definition signed_object (params : JsObject.t string) : JsObject.t string :=
  VNPayService.sortObject (received_fields params).

(** A parameter is signed when it is not a hash field and is not empty. *)
Definition is_signed (kv : string * string) : Prop :=
  kv.1 <> "vnp_SecureHash" /\ kv.1 <> "vnp_SecureHashType" /\ kv.2 <> "".

#[global] Instance is_signed_dec kv : Decision (is_signed kv).
Proof. unfold is_signed. apply _. Defined.

(** The order of [Array.prototype.sort] on keys. *)
Definition key_le (a b : string) : Prop := String.leb a b = true.

(** The value of [key] survives [sortObject]. *)
Definition kept (obj : JsObject.t string) (key : string) : bool :=
  match JsObject.get key obj with
  | Some v => negb (bool_decide (v = ""))
  | None => false
  end.

(** [x || undefined] on the values [sortObject] keeps. *)
Definition nonempty (v : option string) : option string :=
  match v with
  | Some x => if bool_decide (x = "") then None else Some x
  | None => None
  end.

(** The value under which [validateReturn] signs the parameter [k]. *)
Definition signed_field (k : string) (params : JsObject.t string) : option string :=
  if bool_decide (k = "vnp_SecureHashType") then None
  else if bool_decide (k = "vnp_SecureHash") then None
  else nonempty (JsObject.get k params).

(** The parameters [createPaymentUrl] builds, and the query it appends to
    the gateway address. *)
Definition payment_params (config : VNPayConfig) (offset date : Z)
    (order : Order.t) (ipAddr : string) : JsObject.t string :=
  [ ("vnp_Version", "2.1.0");
    ("vnp_Command", "pay");
    ("vnp_TmnCode", tmnCode config);
    ("vnp_Locale", "vn");
    ("vnp_CurrCode", "VND");
    ("vnp_TxnRef", Order.order_number order);
    ("vnp_OrderInfo", "Payment for order " +:+ Order.order_number order);
    ("vnp_OrderType", "other");
    ("vnp_Amount", Js.toString (Order.total order));
    ("vnp_ReturnUrl", returnUrl config);
    ("vnp_IpAddr", ipAddr);
    ("vnp_CreateDate", VNPayService.formatDate offset date);
    ("vnp_ExpireDate", VNPayService.formatDate offset (date + 15 * 60 * 1000)) ].

Definition payment_query (config : VNPayConfig) (offset date : Z)
    (order : Order.t) (ipAddr : string) : JsObject.t string :=
  let sortedParams := VNPayService.sortObject (payment_params config offset date order ipAddr) in
  JsObject.set "vnp_SecureHash"
    (Crypto.hmac_sha512_hex (hashSecret config) (URLSearchParams.toString sortedParams))
    sortedParams.

(** What an order adds to the revenue figure. *)
Definition revenue_of (o : Order.t) : Z :=
  if PaymentStatus_eqb (Order.payment_status o) PAID then Order.total o else 0.

(** *** Payments *)

(** The tables a payment notification has no business with. *)
Definition unsettled_tables (d : Db) :=
  (users d, products d, carts d, cart_items d, order_items d, shipping_addresses d).

Definition refunded (o : Order.t) : Order.t :=
  patch_order (mkPatch None (Some REFUNDED) None) o.

(** [amount || order.total] *)
Definition amount_or_total (amount : option Z) (o : Order.t) : Z :=
  match amount with
  | Some a => if a =? 0 then Order.total o else a
  | None => Order.total o
  end.

(** The settlement [handleVNPayReturn] applies for a response code. *)
Definition settled (params : JsObject.t string) (o : Order.t) : Order.t :=
  if bool_decide (JsObject.get "vnp_ResponseCode" params = Some "00")
  then paid o else payment_failed o.

(** The settlement a Stripe event of type [type] asks for. *)
Definition stripe_settled (type : string) (o : Order.t) : Order.t :=
  if bool_decide (type = "payment_intent.succeeded") then paid o
  else if bool_decide (type = "payment_intent.payment_failed") then payment_failed o
  else o.

(** What a caller gets who asks for an order that is not stored. *)
Definition order_not_found {A} (w : World) : Outcome A * World :=
  (Throw (NotFoundException "Order not found"), set_io_count (S (io_count w)) w).

(** *** Carts *)

(** The cart [getOrCreateCart] looks for: the caller's by user id, else by
    session id; a caller with neither has none. *)
Definition caller_cart (userId sessionId : option string) (c : Cart.t) : bool :=
  if truthy userId then CartService.owned_by (default "" userId) (Cart.user_id c)
  else if truthy sessionId then CartService.owned_by (default "" sessionId) (Cart.session_id c)
  else false.

(** Quantity of product [pid] in cart [cid], as [addItem] reads it. *)
Definition quantity_in_cart (d : Db) (cid pid : string) : Z :=
  match CartService.find_line d cid pid with
  | Some line => CartItem.quantity line
  | None => 0
  end.

(** The store refused the request (as opposed to failing). *)
Definition refusal (e : Exception) : Prop :=
  match e with
  | BadRequestException _ | NotFoundException _ => True
  | _ => False
  end.

(** The lookup at the head of [getOrCreateCart]. *)
Definition cart_lookup (userId sessionId : option string) : Async (option CartService.LoadedCart) :=
  if truthy userId then
    store_io ;;;
    gets (fun w => CartService.find_cart (db w)
                     (fun c => CartService.owned_by (default "" userId) (Cart.user_id c)))
  else if truthy sessionId then
    store_io ;;;
    gets (fun w => CartService.find_cart (db w)
                     (fun c => CartService.owned_by (default "" sessionId) (Cart.session_id c)))
  else ret None.

(** The cart row [getOrCreateCart] inserts when it finds none. *)
Definition new_cart (userId sessionId : option string) (w : World) : Cart.t :=
  Cart.mk (uuid_source w (uuid_next w)) userId (if truthy userId then None else sessionId).

(** What [removeItem] did to the cart lines. *)
Definition removed_own_line (userId sessionId : option string) (itemId : string)
    (w w' : World) : Prop :=
  cart_items (db w') = filter (fun row => CartItem.id row <> itemId) (cart_items (db w))
  /\ exists item c,
       item ∈ cart_items (db w) /\ CartItem.id item = itemId
       /\ c ∈ carts (db w') /\ Cart.id c = CartItem.cart_id item
       /\ caller_cart userId sessionId c = true.

(** What [clearCart] did to the cart lines. *)
Definition cleared_own_cart (userId sessionId : option string) (cid : string)
    (w w' : World) : Prop :=
  cart_items (db w') = filter (fun row => CartItem.cart_id row <> cid) (cart_items (db w))
  /\ exists c, c ∈ carts (db w') /\ Cart.id c = cid /\ caller_cart userId sessionId c = true.

(** The primary key of the cart lines holds, and the uuids still to be
    drawn are new to it and distinct. *)
Definition line_ids_ok (w : World) : Prop :=
  NoDup (map CartItem.id (cart_items (db w)))
  /\ (forall n, (uuid_next w <= n)%nat ->
        uuid_source w n ∉ map CartItem.id (cart_items (db w)))
  /\ (forall n m, (uuid_next w <= n)%nat -> (uuid_next w <= m)%nat ->
        uuid_source w n = uuid_source w m -> n = m).

(** The line [mergeCart] leaves in the user's cart [ucid] for a guest line:
    the quantities added and capped at the stock when the cart held the
    product, the guest's quantity as it is when it did not; the guest's
    price either way. *)
Definition merged_line (d : Db) (ucid : string) (guestItem : CartItem.t) (new_id : string)
  : CartItem.t :=
  match CartService.find_line d ucid (CartItem.product_id guestItem) with
  | Some existing =>
      CartItem.mk (CartItem.id existing) (CartItem.cart_id existing)
        (CartItem.product_id existing)
        (Z.min (CartItem.quantity existing + CartItem.quantity guestItem)
               (CartService.maxQty (products d !! CartItem.product_id guestItem)))
        (CartItem.price guestItem)
  | None =>
      CartItem.mk new_id ucid (CartItem.product_id guestItem)
        (CartItem.quantity guestItem) (CartItem.price guestItem)
  end.

(** The guest line for product [pid], if any. *)
Definition guest_line (guestItems : list (CartItem.t * option Product.t)) (pid : string)
  : option CartItem.t :=
  fst <$> List.find (fun gi : CartItem.t * option Product.t =>
                       bool_decide (CartItem.product_id gi.1 = pid)) guestItems.

#[global] Instance CartItem_eq_dec : EqDecision CartItem.t.
Proof. solve_decision. Defined.

(** The primary key of the carts holds, and the next uuid is new to it. *)
Definition cart_ids_ok (w : World) : Prop :=
  NoDup (map Cart.id (carts (db w)))
  /\ uuid_source w (uuid_next w) ∉ map Cart.id (carts (db w)).

(** ** Running asynchronous code *)

Lemma bind_run {A B} (m : Async A) (k : A -> Async B) w a w1 :
  m w = (Ok a, w1) -> bind m k w = k a w1.
Proof. intros H. unfold bind. now rewrite H. Qed.

Lemma bind_run_to {A B} (m : Async A) (k : A -> Async B) w a w1 r :
  m w = (Ok a, w1) -> k a w1 = r -> bind m k w = r.
Proof. intros H1 H2. unfold bind. rewrite H1. exact H2. Qed.

Lemma bind_throw {A B} (m : Async A) (k : A -> Async B) w e w1 :
  m w = (Throw e, w1) -> bind m k w = (Throw e, w1).
Proof. intros H. unfold bind. now rewrite H. Qed.

Lemma bind_ok_inv {A B} (m : Async A) (k : A -> Async B) w b w' :
  bind m k w = (Ok b, w') ->
  exists a w1, m w = (Ok a, w1) /\ k a w1 = (Ok b, w').
Proof.
  unfold bind. destruct (m w) as [[a|e] w1]; intros H.
  - eauto.
  - discriminate.
Qed.

Lemma bind_throw_inv {A B} (m : Async A) (k : A -> Async B) w e w' :
  bind m k w = (Throw e, w') ->
  m w = (Throw e, w') \/ exists a w1, m w = (Ok a, w1) /\ k a w1 = (Throw e, w').
Proof.
  unfold bind. destruct (m w) as [[a|e0] w1]; intros H.
  - right. eauto.
  - left. congruence.
Qed.

Lemma store_io_ok w :
  io_fault w (io_count w) = false ->
  store_io w = (Ok tt, set_io_count (S (io_count w)) w).
Proof. intros H. unfold store_io. now rewrite H. Qed.

Lemma store_io_no_faults w :
  no_faults w -> store_io w = (Ok tt, set_io_count (S (io_count w)) w).
Proof. intros H. apply store_io_ok, H. Qed.

(** ** Stock arithmetic *)

Lemma adjust_stock_0 p : adjust_stock 0 p = p.
Proof. destruct p as [n pr s]. unfold adjust_stock. simpl. f_equal. lia. Qed.

Lemma adjust_stock_add a b p : adjust_stock a (adjust_stock b p) = adjust_stock (b + a) p.
Proof. unfold adjust_stock. simpl. f_equal. lia. Qed.

(** The products after the restoring statements of [lines]. *)
Definition restored (lines : list OrderItem.t) (m : gmap string Product.t) : gmap string Product.t :=
  foldl (fun acc i => alter (adjust_stock (OrderItem.quantity i)) (OrderItem.product_id i) acc)
        m lines.

Lemma restored_lookup lines : forall (m : gmap string Product.t) pid,
  restored lines m !! pid = adjust_stock (ordered_quantity pid lines) <$> m !! pid.
Proof.
  induction lines as [|i lines IH]; intros m pid; simpl.
  - destruct (m !! pid) as [p|]; simpl; [now rewrite adjust_stock_0 | reflexivity].
  - unfold restored in *. simpl. rewrite IH. rewrite lookup_alter.
    case_decide as Hd; case_bool_decide as Hb; try congruence.
    subst. destruct (m !! OrderItem.product_id i) as [p|]; simpl; [|reflexivity].
    now rewrite adjust_stock_add.
Qed.

(** ** cancelOrder *)

Lemma restore_stock_run lines : forall w,
  no_faults w ->
  exists w',
    OrdersService.restore_stock lines w = (Ok tt, w')
    /\ db w' = with_products (restored lines) (db w)
    /\ journal w' = journal w ++ map (fun i => AdjustStock (OrderItem.product_id i) (OrderItem.quantity i)) lines
    /\ outbox w' = outbox w
    /\ no_faults w'.
Proof.
  induction lines as [|i lines IH]; intros w Hnf.
  - exists w. simpl. repeat split; try easy.
    + destruct (db w); reflexivity.
    + now rewrite app_nil_r.
  - cbn [OrdersService.restore_stock].
    erewrite bind_run by (apply store_io_no_faults, Hnf).
    unfold execute at 1. unfold modify at 1. unfold bind at 1.
    match goal with |- context [OrdersService.restore_stock lines ?w1] =>
      destruct (IH w1) as (w' & Hrun & Hdb & Hj & Ho & Hnf') end.
    { exact Hnf. }
    exists w'. split; [exact Hrun|]. rewrite Hdb, Hj, Ho. simpl.
    repeat split; try easy.
    now rewrite <- app_assoc.
Qed.

Lemma findOne_run w oid userId o :
  io_fault w (io_count w) = false ->
  orders (db w) !! oid = Some o ->
  Order.user_id o = userId ->
  OrdersService.findOne oid (Some userId) w
  = (Ok (OrdersService.load_order (db w) oid o), set_io_count (S (io_count w)) w).
Proof.
  intros Hio Ho Hu. unfold OrdersService.findOne.
  erewrite bind_run by (apply store_io_ok, Hio).
  unfold bind, gets. cbn [db set_io_count]. rewrite Ho.
  rewrite Hu. destruct userId as [|c u]; cbn [truthy default andb negb].
  - reflexivity.
  - rewrite bool_decide_eq_true_2 by reflexivity. reflexivity.
Qed.

(** C6. Cancelling an order that is no longer pending fails with the
    bad-request error "Only pending orders can be cancelled" and leaves the
    store, the statement journal and the outbox as they were.  Cancelling a
    pending order marks it cancelled and adds, to the stock of every
    product, the quantity of each of the order's lines exactly once: one
    relative stock statement per order line is applied, followed by the
    status update. *)
Theorem cancelOrder_legality (w : World) (oid userId : string) (o : Order.t) :
  no_faults w ->
  orders (db w) !! oid = Some o ->
  Order.user_id o = userId ->
  match Order.status o with
  | PENDING =>
      exists lo w',
        OrdersService.cancelOrder oid userId w = (Ok lo, w')
        /\ Order.status (OrdersService.order lo) = CANCELLED
        /\ orders (db w') !! oid = Some (cancelled o)
        /\ (forall pid,
              products (db w') !! pid
              = adjust_stock (ordered_quantity pid (lines_of (db w) oid))
                  <$> products (db w) !! pid)
        /\ journal w'
           = journal w
             ++ map (fun i => AdjustStock (OrderItem.product_id i) (OrderItem.quantity i))
                    (lines_of (db w) oid)
             ++ [UpdateOrder oid (mkPatch (Some CANCELLED) None None)]
  | _ =>
      exists w',
        OrdersService.cancelOrder oid userId w
        = (Throw (BadRequestException "Only pending orders can be cancelled"), w')
        /\ db w' = db w /\ journal w' = journal w /\ outbox w' = outbox w
  end.
Proof.
  intros Hnf Ho Hu.
  assert (Hfind := findOne_run w oid userId o (Hnf _) Ho Hu).
  unfold OrdersService.cancelOrder.
  erewrite bind_run by exact Hfind.
  cbn [OrdersService.order OrdersService.load_order OrdersService.items].
  destruct (Order.status o) eqn:Hst; cbn [OrderStatus_eqb negb];
    try (eexists; split; [reflexivity | now repeat split]).
  destruct (restore_stock_run (lines_of (db w) oid) (set_io_count (S (io_count w)) w))
    as (w1 & Hrun & Hdb & Hj & Hout & Hnf1); [exact Hnf|].
  unfold lines_of in *.
  erewrite bind_run by exact Hrun.
  erewrite bind_run by (apply store_io_no_faults, Hnf1).
  unfold execute, modify, bind, ret.
  eexists _, _. split; [reflexivity|].
  cbn [db journal set_db set_journal set_io_count apply_stmt with_orders orders products
       OrdersService.order OrdersService.with_status] in *.
  rewrite Hdb, Hj. cbn [with_products orders products].
  repeat split.
  - rewrite lookup_alter. rewrite decide_True by reflexivity. now rewrite Ho.
  - intros pid. apply restored_lookup.
  - now rewrite <- app_assoc.
Qed.

(** ** Payment settlement *)

Lemma find_by_order_number_found d ref oid o :
  orders d !! oid = Some o ->
  Order.order_number o = ref ->
  (forall oid' o', orders d !! oid' = Some o' -> Order.order_number o' = ref -> oid' = oid) ->
  PaymentsService.find_by_order_number d (Some ref) = Some (OrdersService.load_order d oid o).
Proof.
  intros Ho Hn Huniq. unfold PaymentsService.find_by_order_number.
  destruct (List.find _ (map_to_list (orders d))) as [[oid' o']|] eqn:Hf.
  - apply find_some in Hf as [Hin Hp].
    apply list_elem_of_In, elem_of_map_to_list in Hin.
    apply bool_decide_eq_true_1 in Hp. cbn in Hp.
    assert (oid' = oid) by eauto. subst oid'.
    rewrite Ho in Hin. now inversion Hin.
  - exfalso.
    assert (Hin : In (oid, o) (map_to_list (orders d))).
    { apply list_elem_of_In, elem_of_map_to_list, Ho. }
    apply (find_none _ _ Hf) in Hin. cbn in Hin.
    apply bool_decide_eq_false_1 in Hin. contradiction.
Qed.

Lemma find_by_order_number_missing d ref :
  (forall oid o, orders d !! oid = Some o -> Order.order_number o <> ref) ->
  PaymentsService.find_by_order_number d (Some ref) = None.
Proof.
  intros Hno. unfold PaymentsService.find_by_order_number.
  destruct (List.find _ (map_to_list (orders d))) as [[oid' o']|] eqn:Hf; [|reflexivity].
  apply find_some in Hf as [Hin Hp].
  apply list_elem_of_In, elem_of_map_to_list in Hin.
  apply bool_decide_eq_true_1 in Hp. cbn in Hp.
  exfalso. eapply Hno; eauto.
Qed.

Lemma markOrderPaid_run lo tx w :
  no_faults w ->
  exists w',
    PaymentsService.markOrderPaid lo tx w = (Ok tt, w')
    /\ db w' = with_orders (alter paid (OrdersService.id lo)) (db w)
    /\ journal w'
       = journal w ++ [UpdateOrder (OrdersService.id lo) (mkPatch (Some PROCESSING) (Some PAID) None)]
    /\ outbox w' = outbox w ++ delivered w (confirmation_for lo)
    /\ no_faults w'
    /\ mail_fault w' = mail_fault w.
Proof.
  intros Hnf. unfold PaymentsService.markOrderPaid.
  erewrite bind_run by (apply store_io_no_faults, Hnf).
  unfold execute at 1. unfold modify at 1. unfold bind at 1.
  unfold confirmation_for, delivered.
  destruct (OrdersService.user lo) as [u|].
  - destruct (truthy (Some (User.email u))).
    + unfold bind at 1, try_catch, sendOrderConfirmationEmail.
      cbn [mail_fault set_journal set_db set_io_count filter list_filter].
      destruct (mail_fault w _) eqn:Hm.
      * eexists. split; [reflexivity|]. cbn. rewrite app_nil_r. now repeat split.
      * eexists. split; [reflexivity|]. cbn. now repeat split.
    + eexists. split; [reflexivity|]. cbn. rewrite app_nil_r. now repeat split.
  - eexists. split; [reflexivity|]. cbn. rewrite app_nil_r. now repeat split.
Qed.

Lemma markOrderPaymentFailed_run lo w :
  no_faults w ->
  exists w',
    PaymentsService.markOrderPaymentFailed lo w = (Ok tt, w')
    /\ db w' = with_orders (alter payment_failed (OrdersService.id lo)) (db w)
    /\ journal w'
       = journal w ++ [UpdateOrder (OrdersService.id lo) (mkPatch None (Some FAILED) None)]
    /\ outbox w' = outbox w.
Proof.
  intros Hnf. unfold PaymentsService.markOrderPaymentFailed.
  erewrite bind_run by (apply store_io_no_faults, Hnf).
  eexists. split; [reflexivity|]. cbn. now repeat split.
Qed.

Lemma paid_paid o : paid (paid o) = paid o.
Proof. reflexivity. Qed.

Lemma alter_paid_twice oid (m : gmap string Order.t) :
  alter paid oid (alter paid oid m) = alter paid oid m.
Proof.
  apply map_eq. intros j. rewrite !lookup_alter.
  repeat case_decide; try congruence.
  now destruct (m !! oid).
Qed.

Lemma handleVNPayReturn_paid env w params ref oid o :
  no_faults w ->
  VNPayService.isValid (VNPayService.validateReturn (vnpay_config env) params) = true ->
  JsObject.get "vnp_TxnRef" params = Some ref ->
  JsObject.get "vnp_ResponseCode" params = Some "00" ->
  orders (db w) !! oid = Some o ->
  Order.order_number o = ref ->
  (forall oid' o', orders (db w) !! oid' = Some o' -> Order.order_number o' = ref -> oid' = oid) ->
  exists r w',
    PaymentsService.handleVNPayReturn env params w = (Ok r, w')
    /\ PaymentsService.success r = true
    /\ db w' = with_orders (alter paid oid) (db w)
    /\ journal w' = journal w ++ [UpdateOrder oid (mkPatch (Some PROCESSING) (Some PAID) None)]
    /\ outbox w' = outbox w ++ delivered w (confirmation_for (OrdersService.load_order (db w) oid o))
    /\ no_faults w'
    /\ mail_fault w' = mail_fault w.
Proof.
  intros Hnf Hvalid Href Hcode Ho Hn Huniq.
  unfold PaymentsService.handleVNPayReturn. rewrite Hvalid. cbn [negb].
  erewrite bind_run by (apply store_io_no_faults, Hnf).
  unfold bind at 1, gets at 1. cbn [db set_io_count].
  cbn [VNPayService.orderId VNPayService.responseCode VNPayService.validateReturn
       VNPayService.transactionNo].
  rewrite Href, Hcode.
  rewrite (find_by_order_number_found (db w) ref oid o Ho Hn Huniq).
  unfold VNPayService.isPaymentSuccessful. rewrite bool_decide_eq_true_2 by reflexivity.
  destruct (markOrderPaid_run (OrdersService.load_order (db w) oid o)
              (JsObject.get "vnp_TransactionNo" params)
              (set_io_count (S (io_count w)) w)) as (w' & Hrun & Hdb & Hj & Hout & Hnf' & Hmf).
  { exact Hnf. }
  erewrite bind_run by exact Hrun.
  eexists _, w'. split; [reflexivity|].
  cbn [PaymentsService.success]. repeat split; assumption.
Qed.

Lemma alter_paid_number oid (m : gmap string Order.t) oid' o' :
  alter paid oid m !! oid' = Some o' ->
  exists o0, m !! oid' = Some o0 /\ Order.order_number o0 = Order.order_number o'.
Proof.
  rewrite lookup_alter. case_decide as Hd.
  - subst. destruct (m !! oid') as [o0|]; cbn; intros H; inversion H. eauto.
  - eauto.
Qed.

(** C4 (as the code has it).  [markOrderPaid] sets [payment_status = paid]
    and [status = processing] whatever the order's status was; it then hands
    a confirmation mail to the mailer when the loaded order has a user with
    an e-mail address, and returns normally whether or not the mailer
    accepts it.  [markOrderPaymentFailed] sets [payment_status = failed] and
    leaves [status] as it was. *)
Theorem markOrderPaid_effect (lo : OrdersService.LoadedOrder) (tx : option string)
    (w : World) (o : Order.t) :
  no_faults w ->
  orders (db w) !! OrdersService.id lo = Some o ->
  (exists w',
     PaymentsService.markOrderPaid lo tx w = (Ok tt, w')
     /\ orders (db w') !! OrdersService.id lo = Some (paid o)
     /\ Order.payment_status (paid o) = PAID
     /\ Order.status (paid o) = PROCESSING
     /\ outbox w' = outbox w ++ delivered w (confirmation_for lo))
  /\ (exists w',
        PaymentsService.markOrderPaymentFailed lo w = (Ok tt, w')
        /\ orders (db w') !! OrdersService.id lo = Some (payment_failed o)
        /\ Order.payment_status (payment_failed o) = FAILED
        /\ Order.status (payment_failed o) = Order.status o
        /\ outbox w' = outbox w).
Proof.
  intros Hnf Ho. split.
  - destruct (markOrderPaid_run lo tx w Hnf) as (w' & Hrun & Hdb & _ & Hout & _).
    exists w'. split; [exact Hrun|]. rewrite Hdb. cbn [with_orders orders].
    rewrite lookup_alter, decide_True by reflexivity. rewrite Ho.
    now repeat split.
  - destruct (markOrderPaymentFailed_run lo w Hnf) as (w' & Hrun & Hdb & _ & Hout).
    exists w'. split; [exact Hrun|]. rewrite Hdb. cbn [with_orders orders].
    rewrite lookup_alter, decide_True by reflexivity. rewrite Ho.
    now repeat split.
Qed.

Lemma markOrderPaid_effect_witness :
  (exists w',
     PaymentsService.markOrderPaid (Sample.loaded Sample.awaiting_payment PENDING PAY_PENDING)
       (Some "14226112") Sample.awaiting_payment = (Ok tt, w')
     /\ orders (db w') !! "o1" = Some (paid (Sample.order1 PENDING PAY_PENDING))
     /\ Order.payment_status (paid (Sample.order1 PENDING PAY_PENDING)) = PAID
     /\ Order.status (paid (Sample.order1 PENDING PAY_PENDING)) = PROCESSING
     /\ outbox w'
        = outbox Sample.awaiting_payment
          ++ delivered Sample.awaiting_payment
               (confirmation_for (Sample.loaded Sample.awaiting_payment PENDING PAY_PENDING)))
  /\ (exists w',
        PaymentsService.markOrderPaymentFailed
          (Sample.loaded Sample.awaiting_payment PENDING PAY_PENDING) Sample.awaiting_payment
        = (Ok tt, w')
        /\ orders (db w') !! "o1" = Some (payment_failed (Sample.order1 PENDING PAY_PENDING))
        /\ Order.payment_status (payment_failed (Sample.order1 PENDING PAY_PENDING)) = FAILED
        /\ Order.status (payment_failed (Sample.order1 PENDING PAY_PENDING)) = PENDING
        /\ outbox w' = outbox Sample.awaiting_payment).
Proof.
  apply (markOrderPaid_effect (Sample.loaded Sample.awaiting_payment PENDING PAY_PENDING)
           (Some "14226112") Sample.awaiting_payment (Sample.order1 PENDING PAY_PENDING)).
  - intros k. reflexivity.
  - reflexivity.
Defined.

(** C4, as stated, fails on a shipped order: the claim leaves its status
    unchanged, [markOrderPaid] moves it back to [processing]. *)
Lemma markOrderPaid_overwrites_status :
  Order.status <$> orders (db Sample.shipped_unpaid) !! "o1" = Some SHIPPED
  /\ Order.status
       <$> orders (db (PaymentsService.markOrderPaid
                         (Sample.loaded Sample.shipped_unpaid SHIPPED PAY_PENDING)
                         (Some "14226112") Sample.shipped_unpaid).2) !! "o1"
     = Some PROCESSING.
Proof. vm_compute. split; reflexivity. Qed.

(** C3 (as the code has it).  Processing a verified payment-success
    notification a second time leaves the order as the first processing left
    it ([payment_status = paid], [status = processing]), leaves the whole
    store, hence every product's stock, unchanged, and hands the
    confirmation mail to the mailer once more: there is no terminal-state
    check, every processing of the notification triggers a confirmation. *)
Theorem settlement_replay (env : PaymentsEnv) (w : World) (params : JsObject.t string)
    (ref oid : string) (o : Order.t) :
  no_faults w ->
  VNPayService.isValid (VNPayService.validateReturn (vnpay_config env) params) = true ->
  JsObject.get "vnp_TxnRef" params = Some ref ->
  JsObject.get "vnp_ResponseCode" params = Some "00" ->
  orders (db w) !! oid = Some o ->
  Order.order_number o = ref ->
  (forall oid' o', orders (db w) !! oid' = Some o' -> Order.order_number o' = ref -> oid' = oid) ->
  exists r1 w1 r2 w2,
    PaymentsService.handleVNPayReturn env params w = (Ok r1, w1)
    /\ PaymentsService.handleVNPayReturn env params w1 = (Ok r2, w2)
    /\ orders (db w1) !! oid = Some (paid o)
    /\ Order.payment_status (paid o) = PAID
    /\ db w2 = db w1
    /\ products (db w1) = products (db w)
    /\ outbox w1 = outbox w ++ delivered w (confirmation_for (OrdersService.load_order (db w) oid o))
    /\ outbox w2 = outbox w1 ++ delivered w (confirmation_for (OrdersService.load_order (db w) oid o)).
Proof.
  intros Hnf Hvalid Href Hcode Ho Hn Huniq.
  destruct (handleVNPayReturn_paid env w params ref oid o Hnf Hvalid Href Hcode Ho Hn Huniq)
    as (r1 & w1 & Hrun1 & _ & Hdb1 & _ & Hout1 & Hnf1 & Hmf1).
  assert (Ho1 : orders (db w1) !! oid = Some (paid o)).
  { rewrite Hdb1. cbn [with_orders orders].
    rewrite lookup_alter, decide_True by reflexivity. now rewrite Ho. }
  assert (Huniq1 : forall oid' o', orders (db w1) !! oid' = Some o' ->
                                   Order.order_number o' = ref -> oid' = oid).
  { intros oid' o'. rewrite Hdb1. cbn [with_orders orders]. intros Hl Hnum.
    apply alter_paid_number in Hl as (o0 & Hl0 & Hn0). apply (Huniq oid' o0 Hl0). congruence. }
  destruct (handleVNPayReturn_paid env w1 params ref oid (paid o) Hnf1 Hvalid Href Hcode Ho1 Hn Huniq1)
    as (r2 & w2 & Hrun2 & _ & Hdb2 & _ & Hout2 & _ & _).
  exists r1, w1, r2, w2. repeat split; try assumption.
  - rewrite Hdb2, Hdb1. destruct (db w). unfold with_orders. cbn. f_equal. apply alter_paid_twice.
  - rewrite Hdb1. reflexivity.
  - rewrite Hout2. f_equal. unfold delivered. rewrite Hmf1.
    f_equal. unfold confirmation_for, OrdersService.load_order. cbn [OrdersService.user OrdersService.id].
    rewrite Hdb1. reflexivity.
Qed.

Lemma settlement_replay_witness :
  exists r1 w1 r2 w2,
    PaymentsService.handleVNPayReturn Sample.env Sample.paid_notification Sample.awaiting_payment
    = (Ok r1, w1)
    /\ PaymentsService.handleVNPayReturn Sample.env Sample.paid_notification w1 = (Ok r2, w2)
    /\ orders (db w1) !! "o1" = Some (paid (Sample.order1 PENDING PAY_PENDING))
    /\ Order.payment_status (paid (Sample.order1 PENDING PAY_PENDING)) = PAID
    /\ db w2 = db w1
    /\ products (db w1) = products (db Sample.awaiting_payment)
    /\ outbox w1
       = outbox Sample.awaiting_payment
         ++ delivered Sample.awaiting_payment
              (confirmation_for (Sample.loaded Sample.awaiting_payment PENDING PAY_PENDING))
    /\ outbox w2
       = outbox w1
         ++ delivered Sample.awaiting_payment
              (confirmation_for (Sample.loaded Sample.awaiting_payment PENDING PAY_PENDING)).
Proof.
  apply (settlement_replay Sample.env Sample.awaiting_payment Sample.paid_notification
           "ORD-20250101-0001" "o1" (Sample.order1 PENDING PAY_PENDING)).
  - intros k. reflexivity.
  - vm_compute. reflexivity.
  - reflexivity.
  - reflexivity.
  - reflexivity.
  - reflexivity.
  - intros oid' o' Hl _.
    destruct (decide (oid' = "o1")) as [->|Hne]; [reflexivity|].
    exfalso. unfold Sample.awaiting_payment, Sample.world, Sample.placed in Hl. cbn [db orders] in Hl.
    rewrite lookup_singleton_ne in Hl by congruence. discriminate.
Defined.

(** C3, as stated, fails: the replay of one verified success notification
    sends a second confirmation although the first processing had already
    taken the order to [paid]. *)
Lemma settlement_replay_sends_again :
  Order.payment_status
    <$> orders (db (PaymentsService.handleVNPayReturn Sample.env Sample.paid_notification
                      Sample.awaiting_payment).2) !! "o1"
  = Some PAID
  /\ length (outbox (PaymentsService.handleVNPayReturn Sample.env Sample.paid_notification
                       Sample.awaiting_payment).2) = 1%nat
  /\ length (outbox (PaymentsService.handleVNPayReturn Sample.env Sample.paid_notification
                       (PaymentsService.handleVNPayReturn Sample.env Sample.paid_notification
                          Sample.awaiting_payment).2).2) = 2%nat.
Proof. vm_compute. repeat split. Qed.

(** C10.  A return parameter set whose signature verifies but whose
    [vnp_TxnRef] is no stored order number makes [handleVNPayReturn] throw
    [NotFoundException]; the IPN handler lets it through to its caller.
    On the Stripe webhook path a success event naming an order id that is
    not stored is logged and the handler returns [{ received: true }].
    Neither path changes the store. *)
Theorem unknown_order_vnpay_raises_stripe_logs (env : PaymentsEnv) (w : World)
    (params : JsObject.t string) (ref : string)
    (payload signature missing : string) (event : StripeEvent) :
  io_fault w (io_count w) = false ->
  VNPayService.isValid (VNPayService.validateReturn (vnpay_config env) params) = true ->
  JsObject.get "vnp_TxnRef" params = Some ref ->
  (forall oid o, orders (db w) !! oid = Some o -> Order.order_number o <> ref) ->
  StripeService.constructWebhookEvent env payload signature w = (Ok event, w) ->
  event_type event = "payment_intent.succeeded" ->
  metadata_order_id (data_object event) = Some missing ->
  missing <> "" ->
  orders (db w) !! missing = None ->
  (exists w1,
     PaymentsService.handleVNPayReturn env params w = (Throw (NotFoundException "Order not found"), w1)
     /\ PaymentsController.handleVNPayIPN env params w = (Throw (NotFoundException "Order not found"), w1)
     /\ db w1 = db w /\ journal w1 = journal w /\ outbox w1 = outbox w /\ console w1 = console w)
  /\ (exists w2,
        PaymentsService.handleStripeWebhook env payload signature w = (Ok true, w2)
        /\ db w2 = db w /\ journal w2 = journal w /\ outbox w2 = outbox w
        /\ console w2 = console w ++ ["Order not found: " +:+ missing]).
Proof.
  intros Hio Hvalid Href Hnone Hevent Htype Hmeta Hne Hmissing. split.
  - assert (Hrun : PaymentsService.handleVNPayReturn env params w
                   = (Throw (NotFoundException "Order not found"), set_io_count (S (io_count w)) w)).
    { unfold PaymentsService.handleVNPayReturn. rewrite Hvalid. cbn [negb].
      erewrite bind_run by (apply store_io_ok, Hio).
      unfold bind, gets. cbn [db set_io_count VNPayService.orderId VNPayService.validateReturn].
      rewrite Href. now rewrite (find_by_order_number_missing (db w) ref Hnone). }
    eexists. split; [exact Hrun|]. split; [|now repeat split].
    unfold PaymentsController.handleVNPayIPN. now erewrite bind_throw by exact Hrun.
  - unfold PaymentsService.handleStripeWebhook.
    erewrite bind_run by exact Hevent.
    rewrite Htype. rewrite bool_decide_eq_true_2 by reflexivity.
    unfold PaymentsService.handlePaymentSuccess. rewrite Hmeta.
    destruct missing as [|c rest]; [congruence|]. cbn [truthy negb default].
    erewrite bind_run.
    2:{ erewrite bind_run by (apply store_io_ok, Hio).
        unfold bind, gets. cbn [db set_io_count default]. cbv zeta.
        cbn [db set_io_count default]. unfold id. rewrite Hmissing. reflexivity. }
    eexists. split; [reflexivity|]. now repeat split.
Qed.

Lemma unknown_order_vnpay_raises_stripe_logs_witness :
  (exists w1,
     PaymentsService.handleVNPayReturn Sample.env Sample.paid_notification
       (Sample.world Sample.basket Sample.reliable)
     = (Throw (NotFoundException "Order not found"), w1)
     /\ PaymentsController.handleVNPayIPN Sample.env Sample.paid_notification
          (Sample.world Sample.basket Sample.reliable)
        = (Throw (NotFoundException "Order not found"), w1)
     /\ db w1 = Sample.basket /\ journal w1 = [] /\ outbox w1 = [] /\ console w1 = [])
  /\ (exists w2,
        PaymentsService.handleStripeWebhook Sample.env "{}" "t=1,v1=00"
          (Sample.world Sample.basket Sample.reliable) = (Ok true, w2)
        /\ db w2 = Sample.basket /\ journal w2 = [] /\ outbox w2 = []
        /\ console w2 = [] ++ ["Order not found: " +:+ "o9"]).
Proof.
  apply (unknown_order_vnpay_raises_stripe_logs Sample.env
           (Sample.world Sample.basket Sample.reliable) Sample.paid_notification
           "ORD-20250101-0001" "{}" "t=1,v1=00" "o9"
           (mkEvent "payment_intent.succeeded" (mkPaymentData "pi_1" (Some "o9")))).
  - reflexivity.
  - vm_compute. reflexivity.
  - reflexivity.
  - intros oid o Hl. cbn in Hl. rewrite lookup_empty in Hl. discriminate.
  - reflexivity.
  - reflexivity.
  - reflexivity.
  - discriminate.
  - reflexivity.
Defined.

Lemma findOrderForPayment_run w orderId userId o :
  io_fault w (io_count w) = false ->
  orders (db w) !! orderId = Some o ->
  Order.user_id o = userId ->
  PaymentsService.findOrderForPayment orderId userId w
  = (match Order.payment_status o with
     | PAID => Throw (BadRequestException "Order already paid")
     | REFUNDED => Throw (BadRequestException "Order has been refunded")
     | _ => Ok (OrdersService.load_order (db w) orderId o)
     end, set_io_count (S (io_count w)) w).
Proof.
  intros Hio Ho Hu. unfold PaymentsService.findOrderForPayment.
  erewrite bind_run by (apply store_io_ok, Hio).
  unfold bind, gets. cbn [db set_io_count]. rewrite Ho.
  rewrite bool_decide_eq_true_2 by exact Hu. cbn [negb].
  now destruct (Order.payment_status o).
Qed.

Lemma createStripePaymentIntent_run env w orderId userId o intent :
  no_faults w ->
  PaymentsService.findOrderForPayment orderId userId w
  = (Ok (OrdersService.load_order (db w) orderId o), set_io_count (S (io_count w)) w) ->
  paymentIntents_create (stripe env) (Order.total o)
    (StripeService.toLowerCase (Order.currency o)) orderId (Order.order_number o) = Some intent ->
  exists r w',
    PaymentsService.createStripePaymentIntent env orderId userId w = (Ok r, w')
    /\ db w' = with_orders (alter (paying_with "stripe") orderId) (db w).
Proof.
  intros Hnf Hfind Hintent. unfold PaymentsService.createStripePaymentIntent.
  erewrite bind_run by exact Hfind.
  unfold StripeService.createPaymentIntent.
  cbn [OrdersService.id OrdersService.order OrdersService.load_order].
  rewrite Hintent. unfold bind at 1, ret at 1.
  erewrite bind_run by (apply store_io_no_faults, Hnf).
  eexists _, _. split; [reflexivity|]. reflexivity.
Qed.

Lemma createVNPayPaymentUrl_run env w orderId userId ipAddr o :
  no_faults w ->
  PaymentsService.findOrderForPayment orderId userId w
  = (Ok (OrdersService.load_order (db w) orderId o), set_io_count (S (io_count w)) w) ->
  exists r w',
    PaymentsService.createVNPayPaymentUrl env orderId userId ipAddr w = (Ok r, w')
    /\ db w' = with_orders (alter (paying_with "vnpay") orderId) (db w).
Proof.
  intros Hnf Hfind. eexists _, _. split.
  - unfold PaymentsService.createVNPayPaymentUrl.
    eapply bind_run_to; [exact Hfind|].
    eapply bind_run_to; [reflexivity|].
    eapply bind_run_to; [reflexivity|].
    eapply bind_run_to; [apply store_io_no_faults, Hnf|].
    eapply bind_run_to; [reflexivity|].
    reflexivity.
  - reflexivity.
Qed.

(** C7.  For an order whose [payment_status] is [paid] or [refunded], both
    payment entry points (Stripe payment intent, VNPay payment URL) are
    rejected with a bad-request error and change neither the store nor the
    statement journal; in every other payment state both proceed and record
    their payment method on the order. *)
Theorem payment_entry_gate (env : PaymentsEnv) (w : World) (orderId userId ipAddr : string)
    (o : Order.t) (intent : PaymentIntent) :
  no_faults w ->
  orders (db w) !! orderId = Some o ->
  Order.user_id o = userId ->
  paymentIntents_create (stripe env) (Order.total o)
    (StripeService.toLowerCase (Order.currency o)) orderId (Order.order_number o) = Some intent ->
  match Order.payment_status o with
  | PAID | REFUNDED =>
      exists msg w1 w2,
        PaymentsService.createStripePaymentIntent env orderId userId w
        = (Throw (BadRequestException msg), w1)
        /\ PaymentsService.createVNPayPaymentUrl env orderId userId ipAddr w
           = (Throw (BadRequestException msg), w2)
        /\ db w1 = db w /\ journal w1 = journal w
        /\ db w2 = db w /\ journal w2 = journal w
  | _ =>
      exists r1 w1 r2 w2,
        PaymentsService.createStripePaymentIntent env orderId userId w = (Ok r1, w1)
        /\ orders (db w1) !! orderId = Some (paying_with "stripe" o)
        /\ PaymentsService.createVNPayPaymentUrl env orderId userId ipAddr w = (Ok r2, w2)
        /\ orders (db w2) !! orderId = Some (paying_with "vnpay" o)
  end.
Proof.
  intros Hnf Ho Hu Hintent.
  assert (Hfind := findOrderForPayment_run w orderId userId o (Hnf _) Ho Hu).
  assert (Hset : forall method,
             orders (with_orders (alter (paying_with method) orderId) (db w)) !! orderId
             = Some (paying_with method o)).
  { intros method. cbn [with_orders orders].
    rewrite lookup_alter, decide_True by reflexivity. now rewrite Ho. }
  destruct (Order.payment_status o) eqn:Hps.
  1,3: (destruct (createStripePaymentIntent_run env w orderId userId o intent Hnf Hfind Hintent)
          as (r1 & w1 & Hrun1 & Hdb1);
        destruct (createVNPayPaymentUrl_run env w orderId userId ipAddr o Hnf Hfind)
          as (r2 & w2 & Hrun2 & Hdb2);
        exists r1, w1, r2, w2; rewrite Hdb1, Hdb2, !Hset; now repeat split).
  all: unfold PaymentsService.createStripePaymentIntent, PaymentsService.createVNPayPaymentUrl;
       erewrite !bind_throw by exact Hfind;
       eexists _, _, _; now repeat split.
Qed.

Lemma payment_entry_gate_witness :
  exists r1 w1 r2 w2,
    PaymentsService.createStripePaymentIntent Sample.env "o1" "u1" Sample.awaiting_payment
    = (Ok r1, w1)
    /\ orders (db w1) !! "o1" = Some (paying_with "stripe" (Sample.order1 PENDING PAY_PENDING))
    /\ PaymentsService.createVNPayPaymentUrl Sample.env "o1" "u1" "127.0.0.1"
         Sample.awaiting_payment = (Ok r2, w2)
    /\ orders (db w2) !! "o1" = Some (paying_with "vnpay" (Sample.order1 PENDING PAY_PENDING)).
Proof.
  apply (payment_entry_gate Sample.env Sample.awaiting_payment "o1" "u1" "127.0.0.1"
           (Sample.order1 PENDING PAY_PENDING) (mkIntent "pi_1" (Some "pi_1_secret"))).
  - intros k. reflexivity.
  - reflexivity.
  - reflexivity.
  - reflexivity.
Defined.

Lemma cancelOrder_legality_witness :
  exists lo w',
    OrdersService.cancelOrder "o1" "u1" Sample.awaiting_payment = (Ok lo, w')
    /\ Order.status (OrdersService.order lo) = CANCELLED
    /\ orders (db w') !! "o1" = Some (cancelled (Sample.order1 PENDING PAY_PENDING))
    /\ (forall pid,
          products (db w') !! pid
          = adjust_stock (ordered_quantity pid (lines_of (db Sample.awaiting_payment) "o1"))
              <$> products (db Sample.awaiting_payment) !! pid)
    /\ journal w'
       = journal Sample.awaiting_payment
         ++ map (fun i => AdjustStock (OrderItem.product_id i) (OrderItem.quantity i))
                (lines_of (db Sample.awaiting_payment) "o1")
         ++ [UpdateOrder "o1" (mkPatch (Some CANCELLED) None None)].
Proof.
  apply (cancelOrder_legality Sample.awaiting_payment "o1" "u1" (Sample.order1 PENDING PAY_PENDING)).
  - intros k. reflexivity.
  - reflexivity.
  - reflexivity.
Defined.

Example cancel_restores_two_widgets :
  Product.stock_quantity
    <$> products (db (OrdersService.cancelOrder "o1" "u1" Sample.awaiting_payment).2) !! "A"
  = Some 5.
Proof. vm_compute. reflexivity. Qed.

(** ** Checkout *)

Lemma store_io_inv w r w' : store_io w = (r, w') -> w' = set_io_count (S (io_count w)) w.
Proof. unfold store_io. intros H. now inversion H. Qed.

(** ** Invariants of asynchronous code *)

Section Invariants.

Variable R : World -> World -> Prop.
Hypothesis R_refl : forall w, R w w.
Hypothesis R_trans : forall w1 w2 w3, R w1 w2 -> R w2 w3 -> R w1 w3.

Lemma preserves_ret {A} (a : A) : Preserves R (ret a).
Proof. intros w r w' H. inversion H. apply R_refl. Qed.

Lemma preserves_throw {A} e : Preserves R (@throw A e).
Proof. intros w r w' H. inversion H. apply R_refl. Qed.

Lemma preserves_gets {A} (f : World -> A) : Preserves R (gets f).
Proof. intros w r w' H. inversion H. apply R_refl. Qed.

Lemma preserves_bind {A B} (m : Async A) (k : A -> Async B) :
  Preserves R m -> (forall a, Preserves R (k a)) -> Preserves R (bind m k).
Proof.
  intros Hm Hk w r w' H. unfold bind in H.
  destruct (m w) as [[a|e] w1] eqn:Hrun.
  - eapply R_trans; [eapply Hm, Hrun | eapply Hk, H].
  - inversion H; subst. eapply Hm, Hrun.
Qed.

Lemma preserves_try_catch {A} (m : Async A) handler :
  Preserves R m -> (forall e, Preserves R (handler e)) -> Preserves R (try_catch m handler).
Proof.
  intros Hm Hh w r w' H. unfold try_catch in H.
  destruct (m w) as [[a|e] w1] eqn:Hrun.
  - inversion H; subst. eapply Hm, Hrun.
  - eapply R_trans; [eapply Hm, Hrun | eapply Hh, H].
Qed.

Lemma preserves_modify (f : World -> World) :
  (forall w, R w (f w)) -> Preserves R (modify f).
Proof. intros Hf w r w' H. inversion H. apply Hf. Qed.

Lemma throw_preserves_of {A} (m : Async A) : Preserves R m -> ThrowPreserves R m.
Proof. intros Hm w e w' H. eapply Hm, H. Qed.

Lemma throw_preserves_bind {A B} (m : Async A) (k : A -> Async B) :
  Preserves R m -> (forall a, ThrowPreserves R (k a)) -> ThrowPreserves R (bind m k).
Proof.
  intros Hm Hk w e w' H. apply bind_throw_inv in H as [H | (a & w1 & Hrun & H)].
  - eapply Hm, H.
  - eapply R_trans; [eapply Hm, Hrun | eapply Hk, H].
Qed.

End Invariants.

Lemma sales_untouched_refl w : sales_untouched w w.
Proof. reflexivity. Qed.

Lemma sales_untouched_trans w1 w2 w3 :
  sales_untouched w1 w2 -> sales_untouched w2 w3 -> sales_untouched w1 w3.
Proof. unfold sales_untouched. congruence. Qed.

Lemma cart_only_refl w : cart_only w w.
Proof. split; reflexivity. Qed.

Lemma cart_only_trans w1 w2 w3 : cart_only w1 w2 -> cart_only w2 w3 -> cart_only w1 w3.
Proof. unfold cart_only. intros [] []. split; congruence. Qed.

Lemma cart_only_untouched {A} (m : Async A) :
  Preserves cart_only m -> Preserves sales_untouched m.
Proof. intros H w r w' Hrun. apply (H w r w' Hrun). Qed.

Create HintDb preserved.

Ltac preserved refl trans :=
  repeat first
    [ solve [auto with preserved]
    | apply preserves_bind; [exact trans | | intros ?]
    | apply preserves_ret; exact refl
    | apply preserves_throw; exact refl
    | apply preserves_gets; exact refl
    | apply preserves_modify; intros ?; first [reflexivity | split; reflexivity] ].

Ltac untouched := preserved sales_untouched_refl sales_untouched_trans.
Ltac cart_kept := preserved cart_only_refl cart_only_trans.

Lemma store_io_preserves R :
  (forall w n, R w (set_io_count n w)) -> Preserves R store_io.
Proof. intros HR w r w' H. apply store_io_inv in H. subst. apply HR. Qed.

Lemma store_io_untouched : Preserves sales_untouched store_io.
Proof. apply store_io_preserves. reflexivity. Qed.

Lemma store_io_cart_only : Preserves cart_only store_io.
Proof. apply store_io_preserves. split; reflexivity. Qed.

Lemma uuidv4_untouched : Preserves sales_untouched uuidv4.
Proof. intros w r w' H. inversion H. reflexivity. Qed.

Lemma uuidv4_cart_only : Preserves cart_only uuidv4.
Proof. intros w r w' H. inversion H. split; reflexivity. Qed.

Lemma tx_execute_untouched s : Preserves sales_untouched (tx_execute s).
Proof. apply preserves_modify. reflexivity. Qed.

#[local] Hint Resolve store_io_untouched store_io_cart_only uuidv4_untouched uuidv4_cart_only
  tx_execute_untouched : preserved.

Lemma getOrCreateCart_cart_only userId sessionId :
  Preserves cart_only (CartService.getOrCreateCart userId sessionId).
Proof.
  unfold CartService.getOrCreateCart.
  apply preserves_bind; [exact cart_only_trans | |].
  - destruct (truthy userId); [cart_kept|]. destruct (truthy sessionId); cart_kept.
  - intros [c|]; cart_kept.
Qed.
#[local] Hint Resolve getOrCreateCart_cart_only : preserved.

Lemma getCart_cart_only userId sessionId :
  Preserves cart_only (CartService.getCart userId sessionId).
Proof. unfold CartService.getCart. cart_kept. Qed.
#[local] Hint Resolve getCart_cart_only : preserved.

Lemma clearCart_cart_only userId sessionId :
  Preserves cart_only (CartService.clearCart userId sessionId).
Proof. unfold CartService.clearCart. cart_kept. Qed.

Lemma getCart_untouched userId sessionId :
  Preserves sales_untouched (CartService.getCart userId sessionId).
Proof. apply cart_only_untouched, getCart_cart_only. Qed.

Lemma clearCart_untouched userId sessionId :
  Preserves sales_untouched (CartService.clearCart userId sessionId).
Proof. apply cart_only_untouched, clearCart_cart_only. Qed.
#[local] Hint Resolve getCart_untouched clearCart_untouched : preserved.

Lemma validate_stock_untouched lines :
  Preserves sales_untouched (OrdersService.validate_stock lines).
Proof.
  induction lines as [|l lines IH]; cbn [OrdersService.validate_stock]; untouched.
  destruct a0 as [p|]; untouched.
  destruct (_ <? _); untouched.
Qed.

Lemma generateOrderNumber_untouched : Preserves sales_untouched OrdersService.generateOrderNumber.
Proof. unfold OrdersService.generateOrderNumber. untouched. Qed.

Lemma save_order_items_untouched oid lines :
  Preserves sales_untouched (OrdersService.save_order_items oid lines).
Proof.
  induction lines as [|l lines IH]; cbn [OrdersService.save_order_items]; untouched.
Qed.

Lemma reduce_stock_untouched lines :
  Preserves sales_untouched (OrdersService.reduce_stock lines).
Proof.
  induction lines as [|l lines IH]; cbn [OrdersService.reduce_stock]; untouched.
Qed.
#[local] Hint Resolve validate_stock_untouched generateOrderNumber_untouched
  save_order_items_untouched reduce_stock_untouched : preserved.

(** *** Runs that cannot throw *)

Lemma no_throw_ret {A} (a : A) : NoThrow (ret a).
Proof. intros w e w' H. discriminate. Qed.

Lemma no_throw_modify f : NoThrow (modify f).
Proof. intros w e w' H. discriminate. Qed.

Lemma no_throw_bind {A B} (m : Async A) (k : A -> Async B) :
  NoThrow m -> (forall a, NoThrow (k a)) -> NoThrow (bind m k).
Proof.
  intros Hm Hk w e w' H. apply bind_throw_inv in H as [H | (a & w1 & _ & H)].
  - eapply Hm, H.
  - eapply Hk, H.
Qed.

Lemma no_throw_try_catch {A} (m : Async A) handler :
  (forall e, NoThrow (handler e)) -> NoThrow (try_catch m handler).
Proof.
  intros Hh w e w' H. unfold try_catch in H.
  destruct (m w) as [[a|e0] w1]; [discriminate|]. eapply Hh, H.
Qed.

Lemma no_throw_sendOrderConfirmation e : NoThrow (OrdersService.sendOrderConfirmation e).
Proof. apply no_throw_try_catch. intros _. apply no_throw_modify. Qed.

Lemma throw_preserves_no_throw {A} R (m : Async A) : NoThrow m -> ThrowPreserves R m.
Proof. intros Hm w e w' H. exfalso. eapply Hm, H. Qed.

(** *** Inverting the steps of a checkout *)

Lemma tx_step_nil w : tx_step w [] (uuid_next w) (io_count w) = w.
Proof. destruct w. unfold tx_step. cbn. now rewrite app_nil_r. Qed.

Lemma set_io_count_tx_step w n : set_io_count n w = tx_step w [] (uuid_next w) n.
Proof. unfold tx_step, set_io_count. now rewrite app_nil_r. Qed.

Lemma tx_step_tx_step w s1 u1 n1 s2 u2 n2 :
  tx_step (tx_step w s1 u1 n1) s2 u2 n2 = tx_step w (s1 ++ s2) u2 n2.
Proof. unfold tx_step. cbn. now rewrite app_assoc. Qed.

Lemma in_stock_not_short m line : in_stock m line -> ~ short_of_stock m line.
Proof. intros (p & Hp & Hle) (p' & Hp' & Hlt). rewrite Hp in Hp'. inversion Hp'. subst. lia. Qed.

Lemma validate_stock_ok lines : forall w w',
  OrdersService.validate_stock lines w = (Ok tt, w') ->
  (exists n, w' = set_io_count n w)
  /\ Forall (in_stock (products (tx_view w))) lines.
Proof.
  induction lines as [|l lines IH]; intros w w' H; cbn [OrdersService.validate_stock] in H.
  - inversion H. subst. split; [|constructor]. exists (io_count w'). now destruct w'.
  - apply bind_ok_inv in H as ([] & w1 & Hio & H).
    apply store_io_inv in Hio. subst w1.
    unfold bind at 1, gets at 1 in H.
    change (tx_view (set_io_count (S (io_count w)) w)) with (tx_view w) in H.
    destruct (products (tx_view w) !! CartService.product_id l) as [p|] eqn:Hp; [|discriminate].
    destruct (Product.stock_quantity p <? CartService.quantity l) eqn:Hlt; [discriminate|].
    apply IH in H as [[n Hw] Hall]. subst w'. split.
    + exists n. reflexivity.
    + constructor; [|exact Hall]. exists p. split; [exact Hp|]. lia.
Qed.

Lemma generateOrderNumber_ok w number w' :
  OrdersService.generateOrderNumber w = (Ok number, w') -> exists n, w' = set_io_count n w.
Proof.
  unfold OrdersService.generateOrderNumber, bind, gets, ret, store_io.
  destruct (io_fault w (io_count w)); intros H; inversion H. eauto.
Qed.

Lemma save_order_items_ok oid lines : forall w items w',
  OrdersService.save_order_items oid lines w = (Ok items, w') ->
  (exists u n, w' = tx_step w (map InsertOrderItem items) u n)
  /\ Forall2 (snapshot_of oid) items lines.
Proof.
  induction lines as [|l lines IH]; intros w items w' H; cbn [OrdersService.save_order_items] in H.
  - inversion H. subst. split; [|constructor]. exists (uuid_next w'), (io_count w').
    now rewrite tx_step_nil.
  - apply bind_ok_inv in H as (item_id & w1 & Hid & H). inversion Hid. subst. clear Hid.
    apply bind_ok_inv in H as ([] & w2 & Hio & H). apply store_io_inv in Hio. subst w2.
    apply bind_ok_inv in H as ([] & w3 & Hq & H). inversion Hq. subst. clear Hq.
    apply bind_ok_inv in H as (saved & w4 & Hrest & H). inversion H. subst. clear H.
    apply IH in Hrest as [(u & n & Hw) Hall]. subst w'. split.
    + exists u, n. unfold tx_step. cbn. now rewrite <- app_assoc.
    + constructor; [|exact Hall]. now repeat split.
Qed.

Lemma reduce_stock_ok lines : forall w w',
  OrdersService.reduce_stock lines w = (Ok tt, w') ->
  exists n, w' = tx_step w (map stock_stmt (decrements lines)) (uuid_next w) n.
Proof.
  induction lines as [|l lines IH]; intros w w' H; cbn [OrdersService.reduce_stock] in H.
  - inversion H. subst. exists (io_count w'). now rewrite tx_step_nil.
  - apply bind_ok_inv in H as ([] & w1 & Hio & H). apply store_io_inv in Hio. subst w1.
    apply bind_ok_inv in H as ([] & w2 & Hq & H). inversion Hq. subst. clear Hq.
    apply IH in H as (n & Hw). subst w'.
    exists n. unfold tx_step. cbn. now rewrite <- app_assoc.
Qed.

(** *** The transaction of createOrder *)

Lemma createOrder_body_throw userId dto userEmail cart :
  ThrowPreserves sales_untouched (OrdersService.createOrder_body userId dto userEmail cart).
Proof.
  unfold OrdersService.createOrder_body.
  repeat (apply throw_preserves_bind; [exact sales_untouched_trans | solve [untouched] | intros ?]).
  apply throw_preserves_no_throw.
  repeat (apply no_throw_bind; [|intros ?]);
    first [apply no_throw_modify | apply no_throw_sendOrderConfirmation | apply no_throw_ret].
Qed.

Lemma sendOrderConfirmation_inv e w r w' :
  OrdersService.sendOrderConfirmation e w = (r, w') ->
  db w' = db w /\ journal w' = journal w /\ pending w' = pending w.
Proof.
  unfold OrdersService.sendOrderConfirmation, try_catch, sendOrderConfirmationEmail, console_log, modify.
  destruct (mail_fault w e); intros H; inversion H; now repeat split.
Qed.

Lemma createOrder_body_ok userId dto userEmail cart w oid w' :
  OrdersService.createOrder_body userId dto userEmail cart w = (Ok oid, w') ->
  exists number created items a wc,
    let o := Order.mk userId number PENDING PAY_PENDING (or_else (dto_payment_method dto) "cod")
               (CartService.subtotal cart) 0 0 0 (CartService.subtotal cart + 0 + 0 - 0)
               "USD" (or_null (dto_notes dto)) created in
    let stmts := pending w ++ checkout_stmts oid o items a (CartService.response_items cart) in
    sales_untouched w wc
    /\ db w' = apply_stmts stmts (db wc)
    /\ journal w' = journal wc ++ stmts
    /\ Forall (in_stock (products (tx_view w))) (CartService.response_items cart)
    /\ Forall2 (snapshot_of oid) items (CartService.response_items cart).
Proof.
  unfold OrdersService.createOrder_body. intros H.
  apply bind_ok_inv in H as ([] & w1 & Hval & H).
  apply validate_stock_ok in Hval as [[n1 ->] Hstock].
  apply bind_ok_inv in H as (number & w2 & Hnum & H).
  apply generateOrderNumber_ok in Hnum as [n2 ->].
  apply bind_ok_inv in H as (created & w3 & Hnow & H). inversion Hnow. subst. clear Hnow.
  apply bind_ok_inv in H as (oid' & w4 & Hid & H). inversion Hid. subst. clear Hid.
  apply bind_ok_inv in H as ([] & w5 & Hio & H). apply store_io_inv in Hio. subst.
  apply bind_ok_inv in H as ([] & w6 & Hq & H). inversion Hq. subst. clear Hq.
  apply bind_ok_inv in H as (items & w7 & Hitems & H).
  apply save_order_items_ok in Hitems as [(u7 & n7 & ->) Hsnap].
  apply bind_ok_inv in H as (aid & w8 & Hid & H). inversion Hid. subst. clear Hid.
  apply bind_ok_inv in H as ([] & w9 & Hio & H). apply store_io_inv in Hio. subst.
  apply bind_ok_inv in H as ([] & w10 & Hq & H). inversion Hq. subst. clear Hq.
  apply bind_ok_inv in H as ([] & w11 & Hred & H).
  apply reduce_stock_ok in Hred as [n11 ->].
  apply bind_ok_inv in H as (cleared & wc & Hclear & H).
  apply clearCart_cart_only in Hclear as [Hsales Hpending].
  apply bind_ok_inv in H as ([] & w13 & Hio & H). apply store_io_inv in Hio. subst.
  apply bind_ok_inv in H as ([] & w14 & Hcommit & H). inversion Hcommit. subst. clear Hcommit.
  apply bind_ok_inv in H as ([] & w15 & Hsend & H). inversion H. subst. clear H.
  apply sendOrderConfirmation_inv in Hsend as (Hdb & Hj & _).
  cbn in Hsales, Hpending, Hdb, Hj.
  eexists number, _, items, _, wc. cbv zeta.
  split; [exact Hsales|].
  rewrite Hdb, Hj, Hpending. unfold checkout_stmts.
  rewrite <- !app_assoc. cbn [app].
  split; [reflexivity|]. split; [reflexivity|]. split; assumption.
Qed.

(** *** What the queued statements do to the tables *)

Lemma apply_stmts_app s1 s2 d : apply_stmts (s1 ++ s2) d = apply_stmts s2 (apply_stmts s1 d).
Proof. unfold apply_stmts. apply foldl_app. Qed.

Lemma apply_order_items items : forall d,
  apply_stmts (map InsertOrderItem items) d
  = mkDb (users d) (products d) (carts d) (cart_items d) (orders d)
         (order_items d ++ items) (shipping_addresses d).
Proof.
  induction items as [|i items IH]; intros d.
  - cbn. rewrite app_nil_r. now destruct d.
  - change (apply_stmts (map InsertOrderItem (i :: items)) d)
      with (apply_stmts (map InsertOrderItem items) (apply_stmt (InsertOrderItem i) d)).
    rewrite IH. cbn. now rewrite <- app_assoc.
Qed.

Lemma apply_stock_stmts deltas : forall d,
  apply_stmts (map stock_stmt deltas) d = with_products (adjust_all deltas) d.
Proof.
  induction deltas as [|kd deltas IH]; intros d.
  - cbn. now destruct d.
  - change (apply_stmts (map stock_stmt (kd :: deltas)) d)
      with (apply_stmts (map stock_stmt deltas) (apply_stmt (stock_stmt kd) d)).
    rewrite IH. reflexivity.
Qed.

Lemma apply_checkout_stmts oid o items a lines d :
  apply_stmts (checkout_stmts oid o items a lines) d
  = mkDb (users d) (adjust_all (decrements lines) (products d)) (carts d) (cart_items d)
         (<[oid := o]> (orders d)) (order_items d ++ items) (shipping_addresses d ++ [a]).
Proof.
  unfold checkout_stmts. rewrite !apply_stmts_app.
  rewrite apply_stock_stmts. cbn [apply_stmts foldl apply_stmt].
  rewrite apply_order_items. reflexivity.
Qed.

Lemma total_delta_cons pid k delta deltas :
  total_delta pid ((k, delta) :: deltas)
  = if bool_decide (k = pid) then delta + total_delta pid deltas else total_delta pid deltas.
Proof. reflexivity. Qed.

Lemma adjust_all_lookup deltas : forall (m : gmap string Product.t) pid,
  adjust_all deltas m !! pid = adjust_stock (total_delta pid deltas) <$> m !! pid.
Proof.
  induction deltas as [|[k delta] deltas IH]; intros m pid.
  - cbn. destruct (m !! pid) as [p|]; cbn; [now rewrite adjust_stock_0 | reflexivity].
  - change (adjust_all ((k, delta) :: deltas) m)
      with (adjust_all deltas (alter (adjust_stock delta) k m)).
    rewrite IH, lookup_alter, total_delta_cons.
    case_decide as Hd; case_bool_decide as Hb; try congruence.
    subst. destruct (m !! pid) as [p|]; cbn; [|reflexivity].
    now rewrite adjust_stock_add.
Qed.

Lemma total_delta_absent pid deltas :
  pid ∉ map fst deltas -> total_delta pid deltas = 0.
Proof.
  induction deltas as [|[k delta] deltas IH]; intros Hnotin; [reflexivity|].
  rewrite total_delta_cons. cbn in Hnotin.
  rewrite not_elem_of_cons in Hnotin. destruct Hnotin as [Hne Hrest].
  rewrite bool_decide_eq_false_2 by congruence. now apply IH.
Qed.

Lemma total_delta_unique pid delta deltas :
  NoDup (map fst deltas) -> (pid, delta) ∈ deltas -> total_delta pid deltas = delta.
Proof.
  induction deltas as [|[k d0] deltas IH]; intros Hnd Hin.
  - inversion Hin.
  - cbn in Hnd. apply NoDup_cons in Hnd as [Hnotin Hnd].
    rewrite total_delta_cons.
    apply elem_of_cons in Hin as [Heq | Hin].
    + inversion Heq. subst. rewrite bool_decide_eq_true_2 by reflexivity.
      rewrite total_delta_absent by exact Hnotin. lia.
    + rewrite bool_decide_eq_false_2.
      * now apply IH.
      * intros ->. apply Hnotin. apply list_elem_of_fmap. now exists (pid, delta).
Qed.

(** *** createOrder as a whole *)

Lemma getCart_lines userId w cart w1 :
  CartService.getCart (Some userId) None w = (Ok cart, w1) ->
  CartService.response_items cart <> [] ->
  exists c,
    CartService.find_cart (db w) (fun c => CartService.owned_by userId (Cart.user_id c)) = Some c
    /\ cart = CartService.formatCartResponse c.
Proof.
  unfold CartService.getCart. intros H Hne.
  apply bind_ok_inv in H as (c & w2 & Hget & H). inversion H. subst. clear H.
  unfold CartService.getOrCreateCart in Hget.
  apply bind_ok_inv in Hget as (found & w3 & Hfound & Hget).
  destruct found as [c'|].
  - inversion Hget. subst. clear Hget. exists c. split; [|reflexivity].
    destruct (truthy (Some userId)); [|discriminate].
    apply bind_ok_inv in Hfound as ([] & w4 & Hio & Hfound).
    apply store_io_inv in Hio. subst. inversion Hfound. reflexivity.
  - exfalso. apply Hne.
    apply bind_ok_inv in Hget as (new_id & w4 & _ & Hget).
    apply bind_ok_inv in Hget as ([] & w5 & _ & Hget).
    apply bind_ok_inv in Hget as ([] & w6 & _ & Hget).
    inversion Hget. reflexivity.
Qed.

Lemma findOne_inv oid userId w r w' :
  OrdersService.findOne oid userId w = (r, w') ->
  db w' = db w /\ journal w' = journal w
  /\ forall lo, r = Ok lo ->
       exists o, orders (db w) !! oid = Some o /\ lo = OrdersService.load_order (db w) oid o.
Proof.
  unfold OrdersService.findOne, bind, gets, store_io.
  destruct (io_fault w (io_count w)).
  - intros H. inversion H. subst. repeat split. discriminate.
  - cbn [db set_io_count]. destruct (orders (db w) !! oid) as [o|].
    + destruct (_ && _); intros H; inversion H; subst; repeat split; try discriminate.
      intros lo Hlo. inversion Hlo. eauto.
    + intros H; inversion H; subst; repeat split; discriminate.
Qed.

Lemma createOrder_inv userId dto userEmail userName w r w' :
  OrdersService.createOrder userId dto userEmail userName w = (r, w') ->
  (exists e, r = Throw e /\ sales_untouched w w')
  \/ (exists c w0 oid w1,
        CartService.find_cart (db w) (fun c => CartService.owned_by userId (Cart.user_id c)) = Some c
        /\ CartService.response_items (CartService.formatCartResponse c) <> []
        /\ sales_untouched w w0 /\ pending w0 = []
        /\ OrdersService.createOrder_body userId dto userEmail (CartService.formatCartResponse c) w0
           = (Ok oid, w1)
        /\ OrdersService.findOne oid (Some userId) w1 = (r, w')).
Proof.
  unfold OrdersService.createOrder, bind at 1. intros H.
  destruct (CartService.getCart (Some userId) None w) as [[cart|e] wa] eqn:Hcart.
  2:{ left. inversion H. subst. exists e. split; [reflexivity|].
      eapply getCart_untouched, Hcart. }
  assert (Hsales : sales_untouched w wa) by (eapply getCart_untouched, Hcart).
  destruct (CartService.response_items cart) as [|l ls] eqn:Hitems.
  { left. inversion H. subst. eauto. }
  destruct (getCart_lines userId w cart wa Hcart) as (c & Hc & ->).
  { rewrite Hitems. discriminate. }
  unfold bind at 1 in H.
  destruct (store_io wa) as [[[]|e] wb] eqn:Hio1; apply store_io_inv in Hio1; subst wb.
  2:{ left. inversion H. subst. eauto. }
  unfold bind at 1 in H.
  destruct (store_io _) as [[[]|e] wb] eqn:Hio2; apply store_io_inv in Hio2; subst wb.
  2:{ left. inversion H. subst. eauto. }
  unfold bind at 1, startTransaction at 1, modify at 1 in H.
  unfold bind at 1, try_catch at 1 in H.
  match type of H with context [OrdersService.createOrder_body _ _ _ _ ?start] =>
    set (w0 := start) in *
  end.
  destruct (OrdersService.createOrder_body userId dto userEmail
              (CartService.formatCartResponse c) w0) as [[oid|e] w1] eqn:Hbody.
  - right. exists c, w0, oid, w1. rewrite Hitems. repeat split; try assumption. discriminate.
  - left. apply createOrder_body_throw in Hbody.
    unfold bind, rollbackTransaction, modify, throw in H. inversion H. subst.
    exists e. split; [reflexivity|].
    unfold sales_untouched in *. cbn. rewrite Hbody. exact Hsales.
Qed.

Lemma sales_untouched_fields w w' :
  sales_untouched w w' ->
  users (db w') = users (db w) /\ products (db w') = products (db w)
  /\ orders (db w') = orders (db w) /\ order_items (db w') = order_items (db w)
  /\ shipping_addresses (db w') = shipping_addresses (db w).
Proof. unfold sales_untouched, sales_tables. intros H. inversion H. now repeat split. Qed.

(** A successful checkout, table by table. *)
Lemma createOrder_ok userId dto userEmail userName w lo w' :
  OrdersService.createOrder userId dto userEmail userName w = (Ok lo, w') ->
  exists c number created items a journal_before,
    let cart := CartService.formatCartResponse c in
    let lines := CartService.response_items cart in
    let o := Order.mk userId number PENDING PAY_PENDING (or_else (dto_payment_method dto) "cod")
               (CartService.subtotal cart) 0 0 0 (CartService.subtotal cart + 0 + 0 - 0)
               "USD" (or_null (dto_notes dto)) created in
    cart_lines (db w) userId = lines
    /\ lines <> []
    /\ Forall (in_stock (products (db w))) lines
    /\ Forall2 (snapshot_of (OrdersService.id lo)) items lines
    /\ products (db w') = adjust_all (decrements lines) (products (db w))
    /\ orders (db w') = <[OrdersService.id lo := o]> (orders (db w))
    /\ order_items (db w') = order_items (db w) ++ items
    /\ journal w' = journal_before ++ checkout_stmts (OrdersService.id lo) o items a lines
    /\ lo = OrdersService.load_order (db w') (OrdersService.id lo) o.
Proof.
  intros H. apply createOrder_inv in H as [(e & He & _) | H]; [discriminate|].
  destruct H as (c & w0 & oid & w1 & Hc & Hne & Hsales0 & Hpend & Hbody & Hfind).
  apply createOrder_body_ok in Hbody
    as (number & created & items & a & wc & Hsales & Hdb & Hj & Hstock & Hsnap).
  cbv zeta in Hdb, Hj. rewrite Hpend in Hdb, Hj. cbn [app] in Hdb, Hj.
  rewrite apply_checkout_stmts in Hdb.
  apply findOne_inv in Hfind as (Hdb' & Hj' & Hlo).
  destruct (Hlo lo eq_refl) as (o1 & Ho1 & Hload).
  apply sales_untouched_fields in Hsales0 as (Hu0 & Hp0 & Ho0 & Hi0 & Ha0).
  apply sales_untouched_fields in Hsales as (Hu & Hp & Ho & Hi & Ha).
  assert (Hview : products (tx_view w0) = products (db w)).
  { unfold tx_view. rewrite Hpend. cbn. exact Hp0. }
  rewrite Hview in Hstock.
  assert (Hid : OrdersService.id lo = oid) by (rewrite Hload; reflexivity).
  rewrite Hdb in Ho1. cbn [orders] in Ho1. rewrite lookup_insert_eq in Ho1.
  inversion Ho1. subst o1. clear Ho1.
  exists c, number, created, items, a, (journal wc). cbv zeta.
  rewrite Hid, Hdb', Hj', Hdb, Hj. cbn [products orders order_items].
  rewrite Hp, Hp0, Ho, Ho0, Hi, Hi0.
  unfold cart_lines. rewrite Hc.
  repeat split; try assumption.
  rewrite <- Hp0, <- Hp, <- Ho0, <- Ho, <- Hi0, <- Hi, <- Hdb. exact Hload.
Qed.

Lemma decrements_keys lines : map fst (decrements lines) = map CartService.product_id lines.
Proof. unfold decrements. rewrite map_map. reflexivity. Qed.

Lemma stock_stmt_in_checkout oid o items a lines line :
  line ∈ lines ->
  AdjustStock (CartService.product_id line) (- CartService.quantity line)
  ∈ checkout_stmts oid o items a lines.
Proof.
  intros Hin. unfold checkout_stmts. rewrite !elem_of_app. do 3 right.
  apply list_elem_of_fmap.
  exists (CartService.product_id line, - CartService.quantity line). split; [reflexivity|].
  apply list_elem_of_fmap. now exists line.
Qed.


Lemma filter_all {A} (P : A -> Prop) `{forall x, Decision (P x)} (l : list A) :
  Forall P l -> filter P l = l.
Proof.
  induction 1 as [|x l Hx _ IH]; [reflexivity|].
  rewrite filter_cons, decide_True by exact Hx. now rewrite IH.
Qed.

Lemma filter_none {A} (P : A -> Prop) `{forall x, Decision (P x)} (l : list A) :
  Forall (fun x => ~ P x) l -> filter P l = [].
Proof.
  induction 1 as [|x l Hx _ IH]; [reflexivity|].
  rewrite filter_cons, decide_False by exact Hx. exact IH.
Qed.

Lemma foldl_line_totals (lines : list CartService.FormattedItem) : forall acc,
  foldl (fun sum item => sum + CartService.line_total item) acc lines
  = acc + foldr (fun item rest => CartService.line_total item + rest) 0 lines.
Proof.
  induction lines as [|l lines IH]; intros acc; cbn; [lia|]. rewrite IH. lia.
Qed.

Lemma snapshot_subtotals oid items lines :
  Forall2 (snapshot_of oid) items lines ->
  sum_subtotals items = foldr (fun item rest => CartService.line_total item + rest) 0 lines.
Proof.
  induction 1 as [|i l items lines Hs _ IH]; [reflexivity|].
  unfold sum_subtotals in *. cbn [foldr]. rewrite IH.
  destruct Hs as (_ & _ & _ & _ & ->). reflexivity.
Qed.

Lemma formatted_line_totals c :
  Forall (fun l => CartService.line_total l = CartService.price l * CartService.quantity l)
         (CartService.response_items (CartService.formatCartResponse c)).
Proof.
  unfold CartService.formatCartResponse. cbn [CartService.response_items].
  apply Forall_forall. intros l Hin. apply list_elem_of_fmap in Hin as ([i p] & -> & _).
  reflexivity.
Qed.

(** C8.  A successful [createOrder] on a non-empty cart of N lines (N
    distinct products under the cart's one-line-per-product rule) stores
    exactly N order items for the new order, one snapshot per cart line in
    cart order, each with [subtotal = price * quantity]; their subtotals add
    up to the order's [subtotal]; [shipping_fee], [tax] and [discount] are
    zero and [total = subtotal + shipping_fee + tax - discount]. *)
Theorem checkout_items_and_totals (userId : string) (dto : CreateOrderDto)
    (userEmail userName : string) (w : World) (lo : OrdersService.LoadedOrder) (w' : World) :
  OrdersService.createOrder userId dto userEmail userName w = (Ok lo, w') ->
  (forall i, i ∈ order_items (db w) -> OrderItem.order_id i <> OrdersService.id lo) ->
  cart_lines (db w) userId <> []
  /\ orders (db w') !! OrdersService.id lo = Some (OrdersService.order lo)
  /\ OrdersService.items lo = lines_of (db w') (OrdersService.id lo)
  /\ length (OrdersService.items lo) = length (cart_lines (db w) userId)
  /\ Forall2 (snapshot_of (OrdersService.id lo)) (OrdersService.items lo) (cart_lines (db w) userId)
  /\ Forall (fun i => OrderItem.subtotal i = OrderItem.price i * OrderItem.quantity i)
            (OrdersService.items lo)
  /\ sum_subtotals (OrdersService.items lo) = Order.subtotal (OrdersService.order lo)
  /\ Order.shipping_fee (OrdersService.order lo) = 0
  /\ Order.tax (OrdersService.order lo) = 0
  /\ Order.discount (OrdersService.order lo) = 0
  /\ Order.total (OrdersService.order lo)
     = Order.subtotal (OrdersService.order lo) + Order.shipping_fee (OrdersService.order lo)
       + Order.tax (OrdersService.order lo) - Order.discount (OrdersService.order lo).
Proof.
  intros Hrun Hfresh.
  apply createOrder_ok in Hrun
    as (c & number & created & items & a & jb & Hlines & Hne & _ & Hsnap & _ & Hord & Hitems & _ & Hlo).
  cbv zeta in *. rewrite Hlines.
  assert (Hmine : OrdersService.items lo = items).
  { rewrite Hlo. cbn [OrdersService.items OrdersService.load_order].
    rewrite Hitems, filter_app.
    rewrite filter_none by (apply Forall_forall; exact Hfresh).
    rewrite filter_all; [reflexivity|].
    apply Forall_forall. intros i Hin.
    clear - Hsnap Hin. induction Hsnap as [|i0 l0 items lines Hs _ IH]; [inversion Hin|].
    apply elem_of_cons in Hin as [-> | Hin]; [apply Hs | now apply IH]. }
  assert (Horder : OrdersService.order lo
                   = Order.mk userId number PENDING PAY_PENDING
                       (or_else (dto_payment_method dto) "cod")
                       (CartService.subtotal (CartService.formatCartResponse c)) 0 0 0
                       (CartService.subtotal (CartService.formatCartResponse c) + 0 + 0 - 0)
                       "USD" (or_null (dto_notes dto)) created).
  { rewrite Hlo. reflexivity. }
  split; [exact Hne|]. split.
  { rewrite Hord, lookup_insert_eq, Horder. reflexivity. }
  split.
  { rewrite Hlo at 1. reflexivity. }
  rewrite Hmine, Horder. cbn [Order.subtotal Order.shipping_fee Order.tax Order.discount Order.total].
  split; [eapply Forall2_length, Hsnap|].
  split; [exact Hsnap|]. split.
  { pose proof (formatted_line_totals c) as Hlt. clear - Hsnap Hlt.
    induction Hsnap as [|i l items lines Hs _ IH]; constructor.
    - destruct Hs as (_ & _ & Hq & Hp & Hsub). inversion Hlt; subst. congruence.
    - apply IH. now inversion Hlt. }
  split.
  { rewrite (snapshot_subtotals _ _ _ Hsnap).
    unfold CartService.formatCartResponse at 2. cbn [CartService.subtotal].
    rewrite foldl_line_totals. reflexivity. }
  repeat split; lia.
Qed.


Example checkout_scenario :
  (OrdersService.createOrder "u1" Sample.checkout "ann@example.com" "Ann"
     (Sample.world Sample.basket Sample.reliable)).1 = Ok Sample.first_order
  /\ Product.stock_quantity
       <$> products (db (OrdersService.createOrder "u1" Sample.checkout "ann@example.com" "Ann"
                           (Sample.world Sample.basket Sample.reliable)).2) !! "A"
     = Some 3
  /\ cart_items (db (OrdersService.createOrder "u1" Sample.checkout "ann@example.com" "Ann"
                       (Sample.world Sample.basket Sample.reliable)).2) = [].
Proof. vm_compute. repeat split. Qed.

Lemma checkout_items_and_totals_witness :
  cart_lines Sample.basket "u1" <> []
  /\ orders (db (OrdersService.createOrder "u1" Sample.checkout "ann@example.com" "Ann"
                   (Sample.world Sample.basket Sample.reliable)).2) !! "uuid-0"
     = Some (OrdersService.order Sample.first_order)
  /\ OrdersService.items Sample.first_order
     = lines_of (db (OrdersService.createOrder "u1" Sample.checkout "ann@example.com" "Ann"
                       (Sample.world Sample.basket Sample.reliable)).2) "uuid-0"
  /\ length (OrdersService.items Sample.first_order) = length (cart_lines Sample.basket "u1")
  /\ Forall2 (snapshot_of "uuid-0") (OrdersService.items Sample.first_order)
       (cart_lines Sample.basket "u1")
  /\ Forall (fun i => OrderItem.subtotal i = OrderItem.price i * OrderItem.quantity i)
            (OrdersService.items Sample.first_order)
  /\ sum_subtotals (OrdersService.items Sample.first_order) = 2000
  /\ 0 = 0 /\ 0 = 0 /\ 0 = 0 /\ 2000 = 2000 + 0 + 0 - 0.
Proof.
  apply (checkout_items_and_totals "u1" Sample.checkout "ann@example.com" "Ann"
           (Sample.world Sample.basket Sample.reliable) Sample.first_order
           (OrdersService.createOrder "u1" Sample.checkout "ann@example.com" "Ann"
              (Sample.world Sample.basket Sample.reliable)).2).
  - vm_compute. reflexivity.
  - intros i Hin. inversion Hin.
Defined.

(** A failed checkout leaves the users, products, orders, order items and
    shipping addresses as they were, unless the order was committed and only
    the read that returns it failed. *)
Lemma createOrder_failure_rolls_back userId dto userEmail userName w e w' :
  OrdersService.createOrder userId dto userEmail userName w = (Throw e, w') ->
  sales_tables (db w') = sales_tables (db w)
  \/ exists oid w1, OrdersService.findOne oid (Some userId) w1 = (Throw e, w').
Proof.
  intros H. apply createOrder_inv in H as [(e' & _ & Hsales) | H].
  - left. exact Hsales.
  - right. destruct H as (_ & _ & oid & w1 & _ & _ & _ & _ & _ & Hfind). eauto.
Qed.

(** C1 (the failing execution).  The cart of Ann holds one line; the store
    rejects the read with which [clearCart] returns the emptied cart.  Step
    6 fails, [createOrder] throws and the transaction is rolled back: no
    order, order item or shipping address is stored and the stock is as it
    was.  The cart line is gone all the same: [clearCart] deleted it through
    its own repository, outside the transaction. *)
Theorem createOrder_failure_loses_cart :
  (OrdersService.createOrder "u1" Sample.checkout "ann@example.com" "Ann"
     (Sample.world Sample.basket Sample.reload_outage)).1 = Throw (QueryFailedError 11)
  /\ sales_tables
       (db (OrdersService.createOrder "u1" Sample.checkout "ann@example.com" "Ann"
              (Sample.world Sample.basket Sample.reload_outage)).2)
     = sales_tables Sample.basket
  /\ cart_items Sample.basket = [CartItem.mk "ci1" "c1" "A" 2 1000]
  /\ cart_items
       (db (OrdersService.createOrder "u1" Sample.checkout "ann@example.com" "Ann"
              (Sample.world Sample.basket Sample.reload_outage)).2) = []
  /\ journal (OrdersService.createOrder "u1" Sample.checkout "ann@example.com" "Ann"
                (Sample.world Sample.basket Sample.reload_outage)).2
     = [DeleteCartItems "c1"].
Proof. vm_compute. repeat split. Qed.

(** ** Order numbers *)

(** *** Strings *)

Lemma append_cons c a b : String c a +:+ b = String c (a +:+ b).
Proof. reflexivity. Qed.

Lemma append_nil b : "" +:+ b = b.
Proof. reflexivity. Qed.

Lemma append_length a b : String.length (a +:+ b) = (String.length a + String.length b)%nat.
Proof.
  induction a as [|c a IH]; [reflexivity|].
  rewrite append_cons. cbn [String.length]. now rewrite IH.
Qed.

Lemma append_all_digits a b :
  Js.all_digits (a +:+ b) = Js.all_digits a && Js.all_digits b.
Proof.
  induction a as [|c a IH]; [reflexivity|].
  rewrite append_cons. cbn [Js.all_digits]. now rewrite IH, andb_assoc.
Qed.

Lemma append_numeric_value a : forall acc b,
  Js.numeric_value acc (a +:+ b) = Js.numeric_value (Js.numeric_value acc a) b.
Proof.
  induction a as [|c a IH]; intros acc b; [reflexivity|].
  rewrite append_cons. cbn [Js.numeric_value]. apply IH.
Qed.

Lemma substring_prefix p : forall r, String.substring 0 (String.length p) (p +:+ r) = p.
Proof.
  induction p as [|c p IH]; intros r.
  - rewrite append_nil. now destruct r.
  - rewrite append_cons. cbn [String.length String.substring]. now rewrite IH.
Qed.

Lemma strip_dashes_append a b :
  Js.strip_dashes (a +:+ b) = Js.strip_dashes a +:+ Js.strip_dashes b.
Proof.
  induction a as [|c a IH]; [reflexivity|].
  rewrite append_cons. cbn [Js.strip_dashes].
  destruct (Ascii.eqb c "-"); [exact IH|]. now rewrite append_cons, IH.
Qed.

Lemma is_digit_not_dash c : Js.is_digit c = true -> Ascii.eqb c "-" = false.
Proof.
  intros H. destruct (Ascii.eqb_spec c "-") as [->|]; [discriminate H | reflexivity].
Qed.

Lemma strip_dashes_digits s : Js.all_digits s = true -> Js.strip_dashes s = s.
Proof.
  induction s as [|c s IH]; cbn; [reflexivity|].
  intros H. apply andb_prop in H as [Hc Hs].
  rewrite (is_digit_not_dash c Hc). now rewrite IH.
Qed.

(** *** Decimal printing *)

Lemma digit_spec d :
  0 <= d <= 9 -> Js.is_digit (Js.digit d) = true /\ Z.of_nat (nat_of_ascii (Js.digit d)) - 48 = d.
Proof.
  intros H. assert (Hd : d = 0 \/ d = 1 \/ d = 2 \/ d = 3 \/ d = 4 \/ d = 5 \/ d = 6
                         \/ d = 7 \/ d = 8 \/ d = 9) by lia.
  repeat (destruct Hd as [-> | Hd]; [split; reflexivity|]). subst. split; reflexivity.
Qed.

Lemma decimal_all_digits fuel : forall n acc,
  0 <= n -> Js.all_digits acc = true -> Js.all_digits (Js.decimal fuel n acc) = true.
Proof.
  induction fuel as [|fuel IH]; intros n acc Hn Hacc; cbn [Js.decimal]; [exact Hacc|].
  assert (Hd : Js.all_digits (String (Js.digit (n mod 10)) acc) = true).
  { cbn [Js.all_digits]. rewrite Hacc.
    destruct (digit_spec (n mod 10)) as [-> _]; [|reflexivity].
    pose proof (Z.mod_pos_bound n 10). lia. }
  destruct (n <? 10); [exact Hd|].
  apply IH; [|exact Hd]. apply Z.div_pos; lia.
Qed.

Lemma decimal_length_min fuel : forall n acc,
  (String.length acc <= String.length (Js.decimal fuel n acc))%nat.
Proof.
  induction fuel as [|fuel IH]; intros n acc; cbn [Js.decimal]; [lia|].
  destruct (n <? 10); cbn [String.length]; [lia|].
  etransitivity; [|apply IH]. cbn. lia.
Qed.

Lemma decimal_length_le fuel : forall n acc (k : nat),
  0 <= n < 10 ^ Z.of_nat (S k) ->
  (String.length (Js.decimal fuel n acc) <= String.length acc + S k)%nat.
Proof.
  induction fuel as [|fuel IH]; intros n acc k Hn; cbn [Js.decimal]; [lia|].
  destruct (n <? 10) eqn:Hlt; cbn [String.length]; [lia|].
  apply Z.ltb_ge in Hlt.
  destruct k as [|k].
  - cbn in Hn. lia.
  - etransitivity; [apply (IH _ _ k)|cbn; lia].
    split; [apply Z.div_pos; lia|].
    apply Z.div_lt_upper_bound; [lia|].
    replace (10 ^ Z.of_nat (S (S k))) with (10 * 10 ^ Z.of_nat (S k)) in Hn; [lia|].
    rewrite (Nat2Z.inj_succ (S k)), Z.pow_succ_r by lia. reflexivity.
Qed.

Lemma decimal_length_ge fuel : forall n acc (k : nat),
  10 ^ Z.of_nat k <= n -> (k < fuel)%nat ->
  (String.length acc + S k <= String.length (Js.decimal fuel n acc))%nat.
Proof.
  induction fuel as [|fuel IH]; intros n acc k Hn Hk; [lia|]. cbn [Js.decimal].
  destruct (n <? 10) eqn:Hlt.
  - apply Z.ltb_lt in Hlt. destruct k as [|k]; [cbn; lia|].
    exfalso. rewrite Nat2Z.inj_succ, Z.pow_succ_r in Hn by lia.
    assert (0 < 10 ^ Z.of_nat k) by (apply Z.pow_pos_nonneg; lia). lia.
  - apply Z.ltb_ge in Hlt. destruct k as [|k].
    + pose proof (decimal_length_min fuel (n / 10) (String (Js.digit (n mod 10)) acc)) as H.
      cbn in H. lia.
    + etransitivity; [|apply (IH _ _ k)]; [cbn; lia| |lia].
      apply Z.div_le_lower_bound; [lia|].
      rewrite Nat2Z.inj_succ, Z.pow_succ_r in Hn by lia. exact Hn.
Qed.

Lemma decimal_value fuel : forall n acc,
  0 <= n < 10 ^ Z.of_nat fuel ->
  exists k : nat, forall a,
    Js.numeric_value a (Js.decimal fuel n acc) = Js.numeric_value (a * 10 ^ Z.of_nat k + n) acc.
Proof.
  induction fuel as [|fuel IH]; intros n acc Hn.
  - exists 0%nat. intros a. cbn in *. f_equal; lia.
  - cbn [Js.decimal]. destruct (n <? 10) eqn:Hlt.
    + apply Z.ltb_lt in Hlt. exists 1%nat. intros a. cbn [Js.numeric_value].
      destruct (digit_spec (n mod 10)) as [_ ->].
      { pose proof (Z.mod_pos_bound n 10). lia. }
      rewrite Z.mod_small by lia. f_equal; lia.
    + apply Z.ltb_ge in Hlt.
      destruct (IH (n / 10) (String (Js.digit (n mod 10)) acc)) as [k Hk].
      { split; [apply Z.div_pos; lia|]. apply Z.div_lt_upper_bound; [lia|].
        rewrite Nat2Z.inj_succ, Z.pow_succ_r in Hn by lia. lia. }
      exists (S k). intros a. rewrite Hk. cbn [Js.numeric_value].
      destruct (digit_spec (n mod 10)) as [_ ->].
      { pose proof (Z.mod_pos_bound n 10). lia. }
      f_equal. rewrite Nat2Z.inj_succ, Z.pow_succ_r by lia.
      pose proof (Z.div_mod n 10 ltac:(lia)). lia.
Qed.

Lemma append_assoc a b c : (a +:+ b) +:+ c = a +:+ (b +:+ c).
Proof.
  induction a as [|x a IH]; [reflexivity|]. rewrite !append_cons. now rewrite IH.
Qed.

Lemma toString_fuel n : 0 <= n -> n < 10 ^ Z.of_nat (S (Z.to_nat (Z.log2 n))).
Proof.
  intros Hn. destruct (Z.eq_dec n 0) as [->|Hne]; [reflexivity|].
  pose proof (Z.log2_nonneg n) as Hl.
  destruct (Z.log2_spec n ltac:(lia)) as [_ Hlt].
  rewrite Nat2Z.inj_succ, Z2Nat.id by lia.
  eapply Z.lt_le_trans; [exact Hlt|].
  apply Z.pow_le_mono_l. lia.
Qed.

Lemma toString_spec n :
  0 <= n ->
  Js.all_digits (Js.toString n) = true /\ Js.numeric_value 0 (Js.toString n) = n.
Proof.
  intros Hn. unfold Js.toString. rewrite (proj2 (Z.ltb_ge n 0)) by lia. split.
  - now apply decimal_all_digits.
  - destruct (decimal_value _ n "" (conj Hn (toString_fuel n Hn))) as [k Hk].
    rewrite Hk. cbn. lia.
Qed.

Lemma toString_length_le n (k : nat) :
  0 <= n < 10 ^ Z.of_nat (S k) -> (String.length (Js.toString n) <= S k)%nat.
Proof.
  intros Hn. unfold Js.toString. rewrite (proj2 (Z.ltb_ge n 0)) by lia.
  apply (decimal_length_le _ n "" k Hn).
Qed.

Lemma toString_length_ge n (k : nat) :
  10 ^ Z.of_nat k <= n -> (S k <= String.length (Js.toString n))%nat.
Proof.
  intros Hn.
  assert (Hpos : 0 < 10 ^ Z.of_nat k) by (apply Z.pow_pos_nonneg; lia).
  unfold Js.toString. rewrite (proj2 (Z.ltb_ge n 0)) by lia.
  apply (decimal_length_ge _ n "" k Hn).
  assert (Z.of_nat k <= Z.log2 n); [|lia].
  apply Z.log2_le_pow2; [lia|].
  etransitivity; [|exact Hn]. apply Z.pow_le_mono_l. lia.
Qed.

Lemma repeat_char_length c n : String.length (Js.repeat_char c n) = n.
Proof. induction n as [|n IH]; cbn; [reflexivity | now rewrite IH]. Qed.

Lemma repeat_zero_digits n : Js.all_digits (Js.repeat_char "0" n) = true.
Proof. induction n as [|n IH]; cbn; [reflexivity | exact IH]. Qed.

Lemma repeat_zero_value n : Js.numeric_value 0 (Js.repeat_char "0" n) = 0.
Proof. induction n as [|n IH]; cbn; [reflexivity | exact IH]. Qed.

Lemma padStart_length t c s :
  String.length (Js.padStart t c s) = Nat.max t (String.length s).
Proof. unfold Js.padStart. rewrite append_length, repeat_char_length. lia. Qed.

Lemma padStart_zero_digits t s :
  Js.all_digits s = true -> Js.all_digits (Js.padStart t "0" s) = true.
Proof.
  intros Hs. unfold Js.padStart. now rewrite append_all_digits, repeat_zero_digits, Hs.
Qed.

Lemma padStart_zero_value t s :
  Js.numeric_value 0 (Js.padStart t "0" s) = Js.numeric_value 0 s.
Proof. unfold Js.padStart. now rewrite append_numeric_value, repeat_zero_value. Qed.

Lemma padStart_long t c s : (t <= String.length s)%nat -> Js.padStart t c s = s.
Proof.
  intros H. unfold Js.padStart. replace (t - String.length s)%nat with 0%nat by lia. reflexivity.
Qed.

Lemma pad_spec (k : nat) n :
  0 <= n < 10 ^ Z.of_nat (S k) ->
  String.length (Js.pad (S k) n) = S k
  /\ Js.all_digits (Js.pad (S k) n) = true
  /\ Js.numeric_value 0 (Js.pad (S k) n) = n.
Proof.
  intros Hn. unfold Js.pad. destruct (toString_spec n ltac:(lia)) as [Hd Hv].
  pose proof (toString_length_le n k Hn).
  rewrite padStart_length, padStart_zero_value, (padStart_zero_digits _ _ Hd).
  repeat split; [lia | exact Hv].
Qed.

(** *** The date part *)

Lemma civil_from_days_bounds z y m d :
  Js.civil_from_days z = (y, m, d) -> 1 <= m <= 12 /\ 1 <= d <= 31.
Proof.
  unfold Js.civil_from_days. cbv zeta.
  set (z1 := z + 719468).
  set (era := z1 / 146097).
  set (doe := z1 - era * 146097).
  assert (Hdoe : 0 <= doe <= 146096).
  { subst doe era. pose proof (Z.div_mod z1 146097 ltac:(lia)).
    pose proof (Z.mod_pos_bound z1 146097 ltac:(lia)). lia. }
  clearbody doe. clearbody era.
  set (yoe := (doe - doe / 1460 + doe / 36524 - doe / 146096) / 365).
  set (doy := doe - (365 * yoe + yoe / 4 - yoe / 100)).
  assert (Hdoy : 0 <= doy <= 365).
  { subst doy yoe. Z.to_euclidean_division_equations; lia. }
  clearbody doy.
  set (mp := (5 * doy + 2) / 153).
  assert (Hmp : 0 <= mp <= 11) by (subst mp; Z.to_euclidean_division_equations; lia).
  assert (Hd : 1 <= doy - (153 * mp + 2) / 5 + 1 <= 31)
    by (subst mp; Z.to_euclidean_division_equations; lia).
  intros H. inversion H. subst. split; [|lia].
  destruct (mp <? 10) eqn:E; lia.
Qed.

Lemma iso_date_prefix t y m d :
  Js.civil_from_days (t / Js.msPerDay) = (y, m, d) ->
  0 <= y <= 9999 ->
  Js.strip_dashes (Js.slice0 10 (Js.toISOString t)) = Js.pad 4 y +:+ Js.pad 2 m +:+ Js.pad 2 d.
Proof.
  intros Hc Hy. destruct (civil_from_days_bounds _ _ _ _ Hc) as [Hm Hd].
  unfold Js.toISOString. rewrite Hc.
  rewrite (proj2 (Z.leb_le 0 y)), (proj2 (Z.leb_le y 9999)) by lia. cbn [andb].
  destruct (pad_spec 3 y ltac:(cbn; lia)) as (Ly & Dy & _).
  destruct (pad_spec 1 m ltac:(cbn; lia)) as (Lm & Dm & _).
  destruct (pad_spec 1 d ltac:(cbn; lia)) as (Ld & Dd & _).
  set (rest := "T" +:+ _).
  replace (Js.pad 4 y +:+ "-" +:+ Js.pad 2 m +:+ "-" +:+ Js.pad 2 d +:+ rest)
    with ((Js.pad 4 y +:+ "-" +:+ Js.pad 2 m +:+ "-" +:+ Js.pad 2 d) +:+ rest)
    by (now rewrite !append_assoc).
  unfold Js.slice0.
  replace 10%nat with (String.length (Js.pad 4 y +:+ "-" +:+ Js.pad 2 m +:+ "-" +:+ Js.pad 2 d))
    by (rewrite !append_length, Ly, Lm, Ld; reflexivity).
  rewrite substring_prefix, !strip_dashes_append.
  rewrite (strip_dashes_digits _ Dy), (strip_dashes_digits _ Dm), (strip_dashes_digits _ Dd).
  reflexivity.
Qed.

(** *** generateOrderNumber *)

Lemma startOfLocalDay_le offset t : Js.startOfLocalDay offset t <= t.
Proof.
  unfold Js.startOfLocalDay, Js.msPerDay.
  pose proof (Z.mul_div_le (t + offset) 86400000 ltac:(lia)). lia.
Qed.

Lemma count_orders_since_insert d t oid o :
  orders d !! oid = None ->
  t <= Order.created_at o ->
  OrdersService.count_orders_since (with_orders (insert oid o) d) t
  = S (OrdersService.count_orders_since d t).
Proof.
  intros Hfresh Hle. unfold OrdersService.count_orders_since. cbn [with_orders orders].
  rewrite map_filter_insert_True by exact Hle.
  apply map_size_insert_None. apply map_lookup_filter_None. left. exact Hfresh.
Qed.

Lemma generateOrderNumber_run w y m d :
  io_fault w (io_count w) = false ->
  Js.civil_from_days (now w / Js.msPerDay) = (y, m, d) ->
  0 <= y <= 9999 ->
  OrdersService.generateOrderNumber w
  = (Ok ("ORD-" +:+ (Js.pad 4 y +:+ Js.pad 2 m +:+ Js.pad 2 d) +:+ "-"
         +:+ Js.padStart 4 "0" (Js.toString (Z.of_nat (orders_today w) + 1))),
     set_io_count (S (io_count w)) w).
Proof.
  intros Hio Hc Hy. unfold OrdersService.generateOrderNumber.
  eapply bind_run_to; [reflexivity|].
  eapply bind_run_to; [reflexivity|].
  eapply bind_run_to; [apply store_io_ok, Hio|].
  eapply bind_run_to; [reflexivity|].
  unfold ret. rewrite (iso_date_prefix _ _ _ _ Hc Hy). reflexivity.
Qed.

(** C9 (as the code has it).  While the clock's UTC year is within 0..9999,
    a generated order number is "ORD-", the eight digits YYYYMMDD of the
    clock's date, "-", and a sequence; the sequence is the decimal form of
    the number of stored orders created since the current day began, plus
    one, padded with zeros to at least four digits: it has exactly four
    digits as long as that number is at most 9999 and more beyond.  Storing
    an order created now raises the count for the same day by one, so
    same-day orders placed one after the other get consecutive sequences. *)
Theorem order_number_form (w : World) (y m d : Z) :
  io_fault w (io_count w) = false ->
  Js.civil_from_days (now w / Js.msPerDay) = (y, m, d) ->
  0 <= y <= 9999 ->
  exists date sequence w',
    OrdersService.generateOrderNumber w = (Ok ("ORD-" +:+ date +:+ "-" +:+ sequence), w')
    /\ db w' = db w
    /\ date = Js.pad 4 y +:+ Js.pad 2 m +:+ Js.pad 2 d
    /\ String.length date = 8%nat
    /\ Js.all_digits date = true
    /\ sequence = Js.padStart 4 "0" (Js.toString (Z.of_nat (orders_today w) + 1))
    /\ Js.all_digits sequence = true
    /\ Js.numeric_value 0 sequence = Z.of_nat (orders_today w) + 1
    /\ (4 <= String.length sequence)%nat
    /\ (String.length sequence = 4%nat <-> Z.of_nat (orders_today w) + 1 <= 9999)
    /\ forall oid o,
         orders (db w) !! oid = None ->
         Order.created_at o = now w ->
         OrdersService.count_orders_since (with_orders (insert oid o) (db w)) (todayStart w)
         = S (orders_today w).
Proof.
  intros Hio Hc Hy.
  destruct (civil_from_days_bounds _ _ _ _ Hc) as [Hm Hd].
  destruct (pad_spec 3 y ltac:(cbn; lia)) as (Ly & Dy & _).
  destruct (pad_spec 1 m ltac:(cbn; lia)) as (Lm & Dm & _).
  destruct (pad_spec 1 d ltac:(cbn; lia)) as (Ld & Dd & _).
  set (n := Z.of_nat (orders_today w) + 1).
  destruct (toString_spec n ltac:(lia)) as [Dn Vn].
  exists (Js.pad 4 y +:+ Js.pad 2 m +:+ Js.pad 2 d), (Js.padStart 4 "0" (Js.toString n)),
         (set_io_count (S (io_count w)) w).
  split; [exact (generateOrderNumber_run w y m d Hio Hc Hy)|].
  split; [reflexivity|]. split; [reflexivity|].
  split; [rewrite !append_length, Ly, Lm, Ld; reflexivity|].
  split; [rewrite !append_all_digits, Dy, Dm, Dd; reflexivity|].
  split; [reflexivity|].
  split; [exact (padStart_zero_digits 4 _ Dn)|].
  split; [rewrite padStart_zero_value; exact Vn|].
  rewrite padStart_length.
  split; [lia|]. split.
  - split.
    + intros Hlen. destruct (Z_le_dec n 9999) as [|Hbig]; [assumption|].
      pose proof (toString_length_ge n 4 ltac:(cbn; lia)). lia.
    + intros Hsmall. pose proof (toString_length_le n 3 ltac:(cbn; lia)). lia.
  - intros oid o Hfresh Hcreated. apply count_orders_since_insert; [exact Hfresh|].
    rewrite Hcreated. apply startOfLocalDay_le.
Qed.

Lemma order_number_form_witness :
  exists date sequence w',
    OrdersService.generateOrderNumber Sample.awaiting_payment
    = (Ok ("ORD-" +:+ date +:+ "-" +:+ sequence), w')
    /\ db w' = db Sample.awaiting_payment
    /\ date = Js.pad 4 2025 +:+ Js.pad 2 1 +:+ Js.pad 2 1
    /\ String.length date = 8%nat
    /\ Js.all_digits date = true
    /\ sequence
       = Js.padStart 4 "0" (Js.toString (Z.of_nat (orders_today Sample.awaiting_payment) + 1))
    /\ Js.all_digits sequence = true
    /\ Js.numeric_value 0 sequence = Z.of_nat (orders_today Sample.awaiting_payment) + 1
    /\ (4 <= String.length sequence)%nat
    /\ (String.length sequence = 4%nat
        <-> Z.of_nat (orders_today Sample.awaiting_payment) + 1 <= 9999)
    /\ forall oid o,
         orders (db Sample.awaiting_payment) !! oid = None ->
         Order.created_at o = now Sample.awaiting_payment ->
         OrdersService.count_orders_since
           (with_orders (insert oid o) (db Sample.awaiting_payment))
           (todayStart Sample.awaiting_payment)
         = S (orders_today Sample.awaiting_payment).
Proof.
  apply (order_number_form Sample.awaiting_payment 2025 1 1).
  - reflexivity.
  - vm_compute. reflexivity.
  - lia.
Defined.

(** The scenario of C9: the first two orders of 2025-01-01. *)
Example order_numbers_of_new_year :
  (OrdersService.generateOrderNumber (Sample.world Sample.basket Sample.reliable)).1
  = Ok "ORD-20250101-0001"
  /\ (OrdersService.generateOrderNumber Sample.awaiting_payment).1 = Ok "ORD-20250101-0002".
Proof. vm_compute. split; reflexivity. Qed.

Lemma toString_of_nat_inj (i j : nat) :
  Js.toString (Z.of_nat i) = Js.toString (Z.of_nat j) -> i = j.
Proof.
  intros H.
  destruct (toString_spec (Z.of_nat i) ltac:(lia)) as [_ Hi].
  destruct (toString_spec (Z.of_nat j) ltac:(lia)) as [_ Hj].
  rewrite H in Hi. lia.
Qed.

Lemma orders_of_busy_day :
  orders_today (Sample.world Sample.busy_day Sample.reliable) = Z.to_nat 9999.
Proof.
  unfold orders_today, OrdersService.count_orders_since.
  cbn [db Sample.world Sample.busy_day orders].
  rewrite map_filter_id.
  - rewrite map_size_list_to_map; [now rewrite !length_map, length_seq|].
    rewrite <- list_fmap_compose. apply NoDup_fmap_2_strong; [|apply NoDup_seq].
    intros i j _ _. apply toString_of_nat_inj.
  - intros k o Hk. apply elem_of_list_to_map_2, list_elem_of_fmap in Hk as (n & Heq & _).
    inversion Heq. subst.
    change (Js.startOfLocalDay 0 Sample.new_year <= Sample.new_year).
    apply startOfLocalDay_le.
Qed.

(** C9, as stated, fails on the ten-thousandth order of a day: its sequence
    has five digits. *)
Lemma order_number_five_digits :
  (OrdersService.generateOrderNumber (Sample.world Sample.busy_day Sample.reliable)).1
  = Ok "ORD-20250101-10000".
Proof.
  rewrite (generateOrderNumber_run _ 2025 1 1); [|reflexivity|reflexivity|lia].
  rewrite orders_of_busy_day. reflexivity.
Qed.

(** The date of an order number is the UTC date while the day counted is
    the server's local day: seven hours east of UTC, the first order after
    local midnight repeats the number of the first order of the UTC day. *)
Example order_number_repeats_after_local_midnight :
  Order.order_number <$> orders (db Sample.after_local_midnight) !! "o1"
  = Some "ORD-20250101-0001"
  /\ (OrdersService.generateOrderNumber Sample.after_local_midnight).1
     = Ok "ORD-20250101-0001".
Proof. vm_compute. split; reflexivity. Qed.

(** ** The VNPay signature *)

(** *** Objects *)

Lemma has_keys {V} k (o : JsObject.t V) : JsObject.has k o = true <-> k ∈ JsObject.keys o.
Proof.
  induction o as [|[k' v] o IH]; cbn.
  - split; [discriminate | intros H; inversion H].
  - rewrite orb_true_iff, IH, elem_of_cons, bool_decide_eq_true. cbn. intuition congruence.
Qed.

Lemma has_false_keys {V} k (o : JsObject.t V) : JsObject.has k o = false <-> k ∉ JsObject.keys o.
Proof. rewrite <- has_keys. destruct (JsObject.has k o); intuition congruence. Qed.

Lemma get_None_keys {V} k (o : JsObject.t V) : JsObject.get k o = None <-> k ∉ JsObject.keys o.
Proof.
  induction o as [|[k' v] o IH]; cbn.
  - split; [intros _ H; inversion H | reflexivity].
  - rewrite not_elem_of_cons. case_bool_decide; [|rewrite IH]; intuition congruence.
Qed.

Lemma get_Some_keys {V} k (o : JsObject.t V) v : JsObject.get k o = Some v -> k ∈ JsObject.keys o.
Proof.
  intros H. destruct (decide (k ∈ JsObject.keys o)) as [|Hn]; [assumption|].
  apply get_None_keys in Hn. congruence.
Qed.

Lemma get_elem_of {V} k v (o : JsObject.t V) :
  NoDup (JsObject.keys o) -> (JsObject.get k o = Some v <-> (k, v) ∈ o).
Proof.
  induction o as [|[k' v'] o IH]; cbn; intros Hnd.
  - split; [discriminate | intros H; inversion H].
  - apply NoDup_cons in Hnd as [Hnotin Hnd]. rewrite elem_of_cons.
    case_bool_decide as Hk.
    + subst. split; [intros H; inversion H; now left|].
      intros [H | H]; [now inversion H|].
      exfalso. apply Hnotin. apply list_elem_of_fmap. now exists (k, v).
    + rewrite (IH Hnd). split; [now right|]. intros [H | H]; [inversion H; congruence | exact H].
Qed.

Lemma replace_cons {V} k (x : V) k0 v0 o :
  JsObject.replace k x ((k0, v0) :: o)
  = (if bool_decide (k0 = k) then (k0, x) else (k0, v0)) :: JsObject.replace k x o.
Proof. reflexivity. Qed.

Lemma get_replace {V} k k' (x : V) o :
  JsObject.get k' (JsObject.replace k x o)
  = if bool_decide (k' = k) then (if JsObject.has k o then Some x else None)
    else JsObject.get k' o.
Proof.
  induction o as [|[k0 v0] o IH].
  - cbn. now case_bool_decide.
  - rewrite replace_cons. cbn [JsObject.has existsb fst JsObject.get].
    destruct (decide (k0 = k)) as [->|Hk0].
    + rewrite (bool_decide_eq_true_2 (k = k)) by reflexivity. cbn [JsObject.get orb].
      destruct (decide (k' = k)) as [->|Hk'].
      * now rewrite !(bool_decide_eq_true_2 (k = k)) by reflexivity.
      * rewrite (bool_decide_eq_false_2 (k = k')) by congruence.
        rewrite IH. now rewrite (bool_decide_eq_false_2 (k' = k)) by congruence.
    + rewrite (bool_decide_eq_false_2 (k0 = k)) by congruence. cbn [JsObject.get orb].
      destruct (decide (k' = k)) as [->|Hk'].
      * rewrite (bool_decide_eq_false_2 (k0 = k)) by congruence.
        rewrite IH. now rewrite (bool_decide_eq_true_2 (k = k)) by reflexivity.
      * rewrite IH. now rewrite (bool_decide_eq_false_2 (k' = k)) by congruence.
Qed.

Lemma keys_replace {V} k (x : V) o : JsObject.keys (JsObject.replace k x o) = JsObject.keys o.
Proof.
  unfold JsObject.keys, JsObject.replace. rewrite map_map. apply map_ext.
  intros [k' v]. cbn. now case_bool_decide.
Qed.

Lemma get_insert_index {V} n k k' (x : V) o :
  JsObject.get k o = None ->
  JsObject.get k' (JsObject.insert_index n k x o)
  = if bool_decide (k' = k) then Some x else JsObject.get k' o.
Proof.
  induction o as [|[k0 v0] o IH]; cbn; intros Hnone.
  - case_bool_decide; case_bool_decide; congruence.
  - case_bool_decide as Hk0; [discriminate|].
    destruct (JsObject.array_index k0) as [n0|]; [destruct (n0 <? n)|]; cbn.
    + rewrite (IH Hnone). repeat case_bool_decide; congruence.
    + repeat case_bool_decide; congruence.
    + repeat case_bool_decide; congruence.
Qed.

Lemma keys_insert_index {V} n k (x : V) o :
  JsObject.keys (JsObject.insert_index n k x o) ≡ₚ k :: JsObject.keys o.
Proof.
  induction o as [|[k0 v0] o IH]; cbn; [reflexivity|].
  destruct (JsObject.array_index k0) as [n0|]; [destruct (n0 <? n)|]; cbn; try reflexivity.
  change (k0 :: JsObject.keys (JsObject.insert_index n k x o) ≡ₚ k :: k0 :: JsObject.keys o).
  rewrite IH. apply Permutation_swap.
Qed.

Lemma get_app_new {V} k k' (x : V) o :
  JsObject.get k o = None ->
  JsObject.get k' (o ++ [(k, x)])
  = if bool_decide (k' = k) then Some x else JsObject.get k' o.
Proof.
  induction o as [|[k0 v0] o IH]; cbn; intros Hnone.
  - case_bool_decide; case_bool_decide; congruence.
  - case_bool_decide as Hk0; [discriminate|].
    rewrite (IH Hnone). repeat case_bool_decide; congruence.
Qed.

Lemma get_set {V} k k' (x : V) o :
  JsObject.get k' (JsObject.set k x o)
  = if bool_decide (k' = k) then Some x else JsObject.get k' o.
Proof.
  unfold JsObject.set. destruct (JsObject.has k o) eqn:Hhas.
  - rewrite get_replace, Hhas. reflexivity.
  - assert (Hnone : JsObject.get k o = None) by (apply get_None_keys, has_false_keys, Hhas).
    destruct (JsObject.array_index k) as [n|].
    + now apply get_insert_index.
    + now apply get_app_new.
Qed.

Lemma keys_set_NoDup {V} k (x : V) o :
  NoDup (JsObject.keys o) -> NoDup (JsObject.keys (JsObject.set k x o)).
Proof.
  intros Hnd. unfold JsObject.set. destruct (JsObject.has k o) eqn:Hhas.
  - now rewrite keys_replace.
  - apply has_false_keys in Hhas.
    assert (Hk : NoDup (k :: JsObject.keys o)) by (now apply NoDup_cons).
    destruct (JsObject.array_index k) as [n|].
    + now rewrite keys_insert_index.
    + unfold JsObject.keys. rewrite map_app. cbn.
      rewrite <- (Permutation_cons_append (map fst o) k). exact Hk.
Qed.

(** *** The serialisation is injective *)

Lemma code_of_bounded c : 0 <= Z.of_nat (nat_of_ascii c) < 256.
Proof. pose proof (nat_ascii_bounded c). lia. Qed.

Lemma code_of_inj c c' : Z.of_nat (nat_of_ascii c) = Z.of_nat (nat_of_ascii c') -> c = c'.
Proof.
  intros H. apply Nat2Z.inj in H.
  rewrite <- (ascii_nat_embedding c), <- (ascii_nat_embedding c'). now rewrite H.
Qed.

Lemma upper_hex_code d :
  0 <= d < 16 ->
  Z.of_nat (nat_of_ascii (URLSearchParams.upper_hex d)) = if d <? 10 then 48 + d else 55 + d.
Proof.
  intros Hd. unfold URLSearchParams.upper_hex.
  rewrite nat_ascii_embedding.
  - rewrite Z2Nat.id; [reflexivity|]. destruct (d <? 10); lia.
  - destruct (d <? 10) eqn:E; [apply Z.ltb_lt in E | apply Z.ltb_ge in E]; lia.
Qed.

Lemma upper_hex_inj d d' :
  0 <= d < 16 -> 0 <= d' < 16 ->
  URLSearchParams.upper_hex d = URLSearchParams.upper_hex d' -> d = d'.
Proof.
  intros Hd Hd' H.
  apply (f_equal (fun c => Z.of_nat (nat_of_ascii c))) in H.
  rewrite !upper_hex_code in H by assumption.
  destruct (d <? 10) eqn:E; destruct (d' <? 10) eqn:E';
    try apply Z.ltb_lt in E; try apply Z.ltb_ge in E;
    try apply Z.ltb_lt in E'; try apply Z.ltb_ge in E'; lia.
Qed.

Lemma encode_byte_shape c : EncodedByte c (URLSearchParams.encode_byte c).
Proof.
  unfold URLSearchParams.encode_byte.
  destruct (URLSearchParams.unreserved c) eqn:Hu; [now constructor|].
  destruct (Ascii.eqb_spec c " ") as [->|Hsp]; [now constructor|].
  now econstructor.
Qed.

Lemma unreserved_not_special c :
  URLSearchParams.unreserved c = true ->
  c <> "+"%char /\ c <> "%"%char /\ c <> "&"%char /\ c <> "="%char.
Proof. intros H. repeat split; intros ->; discriminate H. Qed.

(** No encoded byte is a prefix of another one's code. *)
Lemma encode_byte_prefix_free c c' x y :
  URLSearchParams.encode_byte c +:+ x = URLSearchParams.encode_byte c' +:+ y ->
  c = c' /\ x = y.
Proof.
  destruct (encode_byte_shape c) as [Hu | -> | h l Hu -> ->];
    destruct (encode_byte_shape c') as [Hu' | -> | h' l' Hu' -> ->];
    rewrite ?append_cons, ?append_nil; intros H; inversion H; subst; try (split; reflexivity).
  - apply unreserved_not_special in Hu. tauto.
  - apply unreserved_not_special in Hu. tauto.
  - apply unreserved_not_special in Hu'. tauto.
  - apply unreserved_not_special in Hu'. tauto.
  - pose proof (code_of_bounded c) as Hb. pose proof (code_of_bounded c') as Hb'.
    match goal with
    | H1 : URLSearchParams.upper_hex _ = URLSearchParams.upper_hex _,
      H2 : URLSearchParams.upper_hex _ = URLSearchParams.upper_hex _ |- _ =>
        apply upper_hex_inj in H1; [|Z.to_euclidean_division_equations; lia ..];
        apply upper_hex_inj in H2; [|Z.to_euclidean_division_equations; lia ..]
    end.
    split; [|reflexivity]. apply code_of_inj.
    Z.to_euclidean_division_equations; lia.
Qed.

Lemma encode_byte_not_stop c x : ~ Stop (URLSearchParams.encode_byte c +:+ x).
Proof.
  intros [H | [rest [H | H]]];
    destruct (encode_byte_shape c) as [Hu | -> | h l Hu -> ->];
    rewrite ?append_cons, ?append_nil in H; inversion H; subst;
    apply unreserved_not_special in Hu; tauto.
Qed.

Lemma encode_cons c s :
  URLSearchParams.encode (String c s) = URLSearchParams.encode_byte c +:+ URLSearchParams.encode s.
Proof. reflexivity. Qed.

Lemma encode_split a : forall a' x y,
  URLSearchParams.encode a +:+ x = URLSearchParams.encode a' +:+ y ->
  Stop x -> Stop y -> a = a' /\ x = y.
Proof.
  induction a as [|c a IH]; intros [|c' a'] x y H Hx Hy.
  - now split.
  - exfalso. rewrite encode_cons, append_assoc in H. cbn [URLSearchParams.encode] in H.
    rewrite append_nil in H. subst x. now apply encode_byte_not_stop in Hx.
  - exfalso. rewrite encode_cons, append_assoc in H. cbn [URLSearchParams.encode] in H.
    rewrite append_nil in H. subst y. now apply encode_byte_not_stop in Hy.
  - rewrite !encode_cons, !append_assoc in H.
    apply encode_byte_prefix_free in H as [-> H].
    apply IH in H as [-> ->]; [now split | assumption | assumption].
Qed.

Lemma toString_cons k v rest :
  URLSearchParams.toString ((k, v) :: rest)
  = URLSearchParams.encode k
    +:+ String "=" (URLSearchParams.encode v
                    +:+ match rest with
                        | [] => ""
                        | _ :: _ => String "&" (URLSearchParams.toString rest)
                        end).
Proof. cbn [URLSearchParams.toString]. now destruct rest. Qed.

Lemma toString_inj l : forall l',
  URLSearchParams.toString l = URLSearchParams.toString l' -> l = l'.
Proof.
  induction l as [|[k v] l IH]; intros [|[k' v'] l'] H.
  - reflexivity.
  - exfalso. rewrite toString_cons in H. cbn [URLSearchParams.toString] in H.
    destruct k'; discriminate H || (rewrite encode_cons in H;
      destruct (encode_byte_shape a); discriminate H).
  - exfalso. rewrite toString_cons in H. cbn [URLSearchParams.toString] in H.
    destruct k; discriminate H || (rewrite encode_cons in H;
      destruct (encode_byte_shape a); discriminate H).
  - rewrite !toString_cons in H.
    apply encode_split in H as [-> H]; [|right; eexists; right; reflexivity ..].
    inversion H as [H']. clear H.
    apply encode_split in H' as [-> H].
    + destruct l as [|p l], l' as [|p' l']; try discriminate H; [reflexivity|].
      inversion H as [H']. f_equal. now apply IH.
    + destruct l; [now left | right; eexists; left; reflexivity].
    + destruct l'; [now left | right; eexists; left; reflexivity].
Qed.

(** *** What validateReturn signs *)

Lemma keys_some (p : JsObject.t string) :
  JsObject.keys (map (fun kv : string * string => (kv.1, Some kv.2)) p) = JsObject.keys p.
Proof. unfold JsObject.keys. rewrite map_map. reflexivity. Qed.

Lemma get_some k (p : JsObject.t string) :
  JsObject.get k (map (fun kv : string * string => (kv.1, Some kv.2)) p)
  = Some <$> JsObject.get k p.
Proof.
  induction p as [|[k0 v0] p IH]; [reflexivity|].
  cbn. case_bool_decide; [reflexivity | exact IH].
Qed.

Lemma get_fold_defined k (entries : JsObject.t (option string)) : forall acc,
  NoDup (JsObject.keys entries) ->
  JsObject.get k
    (foldl (fun acc (kv : string * option string) =>
              match kv.2 with
              | Some value => JsObject.set kv.1 value acc
              | None => acc
              end) acc entries)
  = match JsObject.get k entries with
    | Some (Some x) => Some x
    | _ => JsObject.get k acc
    end.
Proof.
  induction entries as [|[k0 v0] entries IH]; intros acc Hnd; [reflexivity|].
  cbn in Hnd. apply NoDup_cons in Hnd as [Hnotin Hnd].
  cbn [foldl JsObject.get fst snd]. rewrite (IH _ Hnd).
  case_bool_decide as Hk.
  - subst k0. apply get_None_keys in Hnotin. rewrite Hnotin.
    destruct v0 as [x|]; [|reflexivity].
    rewrite get_set. now rewrite bool_decide_eq_true_2.
  - destruct (JsObject.get k entries) as [[x|]|]; try reflexivity;
      (destruct v0 as [x0|]; [|reflexivity]);
      rewrite get_set; now rewrite bool_decide_eq_false_2 by congruence.
Qed.

Lemma insert_sorted_elem k x l : k ∈ JsObject.insert_sorted x l <-> k = x \/ k ∈ l.
Proof.
  induction l as [|y l IH]; cbn.
  - rewrite list_elem_of_singleton. split; [now left | intros [|H]; [assumption | inversion H]].
  - destruct (String.leb x y); rewrite !elem_of_cons; [reflexivity|].
    rewrite IH. tauto.
Qed.

Lemma sorted_keys_elem {V} k (o : JsObject.t V) :
  k ∈ JsObject.sorted_keys o <-> k ∈ JsObject.keys o.
Proof.
  unfold JsObject.sorted_keys. induction (JsObject.keys o) as [|x l IH]; cbn; [reflexivity|].
  rewrite insert_sorted_elem, IH, elem_of_cons. reflexivity.
Qed.

Lemma get_fold_sorted k (obj : JsObject.t string) ks : forall acc,
  JsObject.get k
    (foldl (fun sorted key =>
              match JsObject.get key obj with
              | Some v => if bool_decide (v = "") then sorted else JsObject.set key v sorted
              | None => sorted
              end) acc ks)
  = if bool_decide (k ∈ ks)
    then match JsObject.get k obj with
         | Some v => if bool_decide (v = "") then JsObject.get k acc else Some v
         | None => JsObject.get k acc
         end
    else JsObject.get k acc.
Proof.
  induction ks as [|k0 ks IH]; intros acc; [reflexivity|].
  cbn [foldl]. rewrite IH.
  destruct (decide (k = k0)) as [->|Hne].
  - rewrite (bool_decide_eq_true_2 (k0 ∈ k0 :: ks)) by constructor.
    destruct (JsObject.get k0 obj) as [v|] eqn:Hv.
    + destruct (decide (v = "")) as [->|Hempty].
      * rewrite !(bool_decide_eq_true_2 ("" = "")) by reflexivity.
        now destruct (bool_decide (k0 ∈ ks)).
      * rewrite !(bool_decide_eq_false_2 (v = "")) by assumption.
        destruct (bool_decide (k0 ∈ ks)); [reflexivity|].
        now rewrite get_set, (bool_decide_eq_true_2 (k0 = k0)) by reflexivity.
    + now destruct (bool_decide (k0 ∈ ks)).
  - assert (Hsame : bool_decide (k ∈ k0 :: ks) = bool_decide (k ∈ ks)).
    { apply bool_decide_ext. rewrite elem_of_cons. tauto. }
    rewrite Hsame.
    assert (Hacc : JsObject.get k
                     match JsObject.get k0 obj with
                     | Some v => if bool_decide (v = "") then acc else JsObject.set k0 v acc
                     | None => acc
                     end = JsObject.get k acc).
    { destruct (JsObject.get k0 obj) as [v|]; [|reflexivity].
      destruct (bool_decide (v = "")); [reflexivity|].
      rewrite get_set. now rewrite bool_decide_eq_false_2. }
    now rewrite Hacc.
Qed.

Lemma get_sortObject k obj :
  JsObject.get k (VNPayService.sortObject obj)
  = match JsObject.get k obj with
    | Some v => if bool_decide (v = "") then None else Some v
    | None => None
    end.
Proof.
  unfold VNPayService.sortObject. rewrite get_fold_sorted. cbn [JsObject.get].
  case_bool_decide as Hin; [reflexivity|].
  rewrite sorted_keys_elem in Hin. apply get_None_keys in Hin. now rewrite Hin.
Qed.

Lemma signData_signed_object params :
  VNPayService.signData params = URLSearchParams.toString (signed_object params).
Proof. reflexivity. Qed.

Lemma get_signed_object k params :
  NoDup (JsObject.keys params) ->
  JsObject.get k (signed_object params)
  = if bool_decide (k = "vnp_SecureHashType") then None
    else if bool_decide (k = "vnp_SecureHash") then None
    else match JsObject.get k params with
         | Some v => if bool_decide (v = "") then None else Some v
         | None => None
         end.
Proof.
  intros Hnd. unfold signed_object, received_fields. rewrite get_sortObject, get_fold_defined.
  - rewrite !get_set, get_some. cbn [JsObject.get].
    repeat case_bool_decide; try reflexivity.
    destruct (JsObject.get k params) as [v|]; reflexivity.
  - apply keys_set_NoDup, keys_set_NoDup. now rewrite keys_some.
Qed.

Lemma fold_set_NoDup (entries : JsObject.t (option string)) : forall acc,
  NoDup (JsObject.keys acc) ->
  NoDup (JsObject.keys
           (foldl (fun acc (kv : string * option string) =>
                     match kv.2 with
                     | Some value => JsObject.set kv.1 value acc
                     | None => acc
                     end) acc entries)).
Proof.
  induction entries as [|[k [v|]] entries IH]; intros acc Hnd; cbn; [assumption| |].
  - apply IH. now apply keys_set_NoDup.
  - now apply IH.
Qed.

Lemma sortObject_NoDup obj : NoDup (JsObject.keys (VNPayService.sortObject obj)).
Proof.
  unfold VNPayService.sortObject.
  assert (H : forall ks acc,
             NoDup (JsObject.keys acc) ->
             NoDup (JsObject.keys
                      (foldl (fun sorted key =>
                                match JsObject.get key obj with
                                | Some v => if bool_decide (v = "") then sorted
                                            else JsObject.set key v sorted
                                | None => sorted
                                end) acc ks))).
  { induction ks as [|k ks IH]; intros acc Hnd; cbn; [assumption|].
    apply IH. destruct (JsObject.get k obj) as [v|]; [|assumption].
    destruct (bool_decide (v = "")); [assumption | now apply keys_set_NoDup]. }
  apply H. constructor.
Qed.

Lemma NoDup_entries {V} (o : JsObject.t V) : NoDup (JsObject.keys o) -> NoDup o.
Proof. apply NoDup_fmap_1. Qed.

Lemma signed_object_entries params :
  NoDup (JsObject.keys params) ->
  signed_object params ≡ₚ filter is_signed params.
Proof.
  intros Hnd. apply NoDup_Permutation.
  - apply NoDup_entries, sortObject_NoDup.
  - apply NoDup_filter, NoDup_entries, Hnd.
  - intros [k v]. rewrite list_elem_of_filter.
    rewrite <- (get_elem_of k v params Hnd).
    rewrite <- (get_elem_of k v (signed_object params)) by apply sortObject_NoDup.
    rewrite (get_signed_object k params Hnd). unfold is_signed. cbn [fst snd].
    destruct (decide (k = "vnp_SecureHashType")) as [->|H1].
    { rewrite bool_decide_eq_true_2 by reflexivity.
      split; [discriminate | intros [(_ & Hn & _) _]; now contradiction Hn]. }
    rewrite (bool_decide_eq_false_2 (k = "vnp_SecureHashType")) by assumption.
    destruct (decide (k = "vnp_SecureHash")) as [->|H2].
    { rewrite bool_decide_eq_true_2 by reflexivity.
      split; [discriminate | intros [(Hn & _) _]; now contradiction Hn]. }
    rewrite (bool_decide_eq_false_2 (k = "vnp_SecureHash")) by assumption.
    destruct (JsObject.get k params) as [x|];
      [|split; [discriminate | intros [_ Heq]; discriminate Heq]].
    destruct (decide (x = "")) as [->|Hx].
    + rewrite bool_decide_eq_true_2 by reflexivity. split; [discriminate|].
      intros [(_ & _ & Hv) Heq]. inversion Heq. subst. now contradiction Hv.
    + rewrite bool_decide_eq_false_2 by assumption. split.
      * intros Heq. inversion Heq. subst. now repeat split.
      * intros [_ Heq]. exact Heq.
Qed.

(** *** The signed parameters are in key order *)

Lemma ascii_compare_lt_trans a b c :
  Ascii.compare a b = Lt -> Ascii.compare b c = Lt -> Ascii.compare a c = Lt.
Proof. unfold Ascii.compare. rewrite !N.compare_lt_iff. lia. Qed.

Lemma leb_trans a : forall b c,
  String.leb a b = true -> String.leb b c = true -> String.leb a c = true.
Proof.
  unfold String.leb.
  induction a as [|x a IH]; intros [|y b] [|z c]; cbn; try (intros; congruence || reflexivity).
  destruct (Ascii.compare x y) eqn:Hxy; [| |discriminate].
  - apply Ascii.compare_eq_iff in Hxy. subst y.
    destruct (Ascii.compare x z) eqn:Hxz; [apply IH | reflexivity | discriminate].
  - destruct (Ascii.compare y z) eqn:Hyz; [| |discriminate].
    + apply Ascii.compare_eq_iff in Hyz. subst z. now rewrite Hxy.
    + now rewrite (ascii_compare_lt_trans x y z Hxy Hyz).
Qed.

Lemma insert_sorted_sorted x l :
  StronglySorted key_le l -> StronglySorted key_le (JsObject.insert_sorted x l).
Proof.
  induction 1 as [|y l Hs IH Hall]; cbn.
  - repeat constructor.
  - destruct (String.leb x y) eqn:Hxy.
    + constructor; [now constructor|]. constructor; [exact Hxy|].
      eapply Forall_impl; [exact Hall|]. intros z Hz. eapply leb_trans; eassumption.
    + constructor; [exact IH|].
      apply Forall_forall. intros z Hz. apply insert_sorted_elem in Hz as [->|Hz].
      * destruct (String.leb_total x y) as [H|H]; [congruence | exact H].
      * rewrite Forall_forall in Hall. now apply Hall.
Qed.

Lemma sorted_keys_sorted {V} (o : JsObject.t V) : StronglySorted key_le (JsObject.sorted_keys o).
Proof.
  unfold JsObject.sorted_keys. induction (JsObject.keys o) as [|x l IH]; cbn.
  - constructor.
  - now apply insert_sorted_sorted.
Qed.

Lemma insert_sorted_perm x l : JsObject.insert_sorted x l ≡ₚ x :: l.
Proof.
  induction l as [|y l IH]; cbn; [reflexivity|].
  destruct (String.leb x y); [reflexivity|]. rewrite IH. apply Permutation_swap.
Qed.

Lemma sorted_keys_perm {V} (o : JsObject.t V) : JsObject.sorted_keys o ≡ₚ JsObject.keys o.
Proof.
  unfold JsObject.sorted_keys. induction (JsObject.keys o) as [|x l IH]; cbn; [reflexivity|].
  now rewrite insert_sorted_perm, IH.
Qed.

Lemma StronglySorted_filter {A} (R : A -> A -> Prop) (P : A -> Prop)
    `{forall x, Decision (P x)} l :
  StronglySorted R l -> StronglySorted R (filter P l).
Proof.
  induction 1 as [|x l Hs IH Hall]; [constructor|].
  rewrite filter_cons. destruct (decide (P x)); [|exact IH].
  constructor; [exact IH|].
  apply Forall_forall. intros y Hy. apply list_elem_of_filter in Hy as [_ Hy].
  rewrite Forall_forall in Hall. now apply Hall.
Qed.

Lemma set_plain_new {V} k (x : V) o :
  JsObject.array_index k = None -> k ∉ JsObject.keys o ->
  JsObject.set k x o = o ++ [(k, x)].
Proof.
  intros Hidx Hnew. unfold JsObject.set.
  rewrite (proj2 (has_false_keys k o) Hnew), Hidx. reflexivity.
Qed.

Lemma keys_fold_plain obj ks : forall acc,
  NoDup ks ->
  Forall (fun k => JsObject.array_index k = None) ks ->
  Forall (fun k => k ∉ JsObject.keys acc) ks ->
  JsObject.keys
    (foldl (fun sorted key =>
              match JsObject.get key obj with
              | Some v => if bool_decide (v = "") then sorted else JsObject.set key v sorted
              | None => sorted
              end) acc ks)
  = JsObject.keys acc ++ filter (fun k => kept obj k = true) ks.
Proof.
  induction ks as [|k ks IH]; intros acc Hnd Hidx Hnew.
  - cbn. now rewrite app_nil_r.
  - apply NoDup_cons in Hnd as [Hk Hnd].
    apply Forall_cons in Hidx as [Hidx0 Hidx]. apply Forall_cons in Hnew as [Hnew0 Hnew].
    cbn [foldl]. rewrite filter_cons.
    destruct (kept obj k) eqn:Hkept; unfold kept in Hkept.
    + destruct (JsObject.get k obj) as [v|]; [|discriminate].
      destruct (bool_decide (v = "")); [discriminate|].
      rewrite decide_True by reflexivity.
      rewrite IH; [| assumption | assumption |].
      * rewrite (set_plain_new _ _ _ Hidx0 Hnew0). unfold JsObject.keys.
        rewrite map_app. cbn. now rewrite <- app_assoc.
      * rewrite (set_plain_new _ _ _ Hidx0 Hnew0). unfold JsObject.keys.
        rewrite map_app. cbn.
        apply Forall_forall. intros z Hz. rewrite elem_of_app, list_elem_of_singleton.
        rewrite Forall_forall in Hnew. intros [Hin | ->]; [now apply (Hnew z Hz) | contradiction].
    + rewrite decide_False by discriminate.
      destruct (JsObject.get k obj) as [v|]; [|now apply IH].
      destruct (bool_decide (v = "")); [now apply IH | discriminate].
Qed.

Lemma received_fields_keys k params :
  NoDup (JsObject.keys params) ->
  k ∈ JsObject.keys (received_fields params) -> k ∈ JsObject.keys params.
Proof.
  intros Hnd Hin.
  destruct (JsObject.get k params) as [x|] eqn:Hget; [eapply get_Some_keys, Hget|].
  exfalso. revert Hin. apply get_None_keys. unfold received_fields.
  rewrite get_fold_defined by (apply keys_set_NoDup, keys_set_NoDup; now rewrite keys_some).
  rewrite !get_set, get_some, Hget. cbn.
  now repeat case_bool_decide.
Qed.

Lemma signed_object_sorted params :
  NoDup (JsObject.keys params) ->
  Forall (fun k => JsObject.array_index k = None) (JsObject.keys params) ->
  StronglySorted key_le (JsObject.keys (signed_object params)).
Proof.
  intros Hnd Hidx. unfold signed_object, VNPayService.sortObject.
  rewrite keys_fold_plain.
  - cbn [JsObject.keys map app]. apply StronglySorted_filter, sorted_keys_sorted.
  - rewrite sorted_keys_perm. unfold received_fields. apply fold_set_NoDup. constructor.
  - apply Forall_forall. intros k Hk. rewrite sorted_keys_elem in Hk.
    rewrite Forall_forall in Hidx. apply Hidx.
    now apply received_fields_keys.
  - apply Forall_forall. intros k _ Hin. inversion Hin.
Qed.

(** *** What [sortObject] depends on *)

#[global] Instance key_le_antisym : AntiSymm (=) key_le.
Proof. intros a b Hab Hba. now apply String.leb_antisym. Qed.

Lemma kept_nonempty obj k : kept obj k = true <-> nonempty (JsObject.get k obj) <> None.
Proof.
  unfold kept, nonempty. destruct (JsObject.get k obj) as [v|]; [|easy].
  destruct (bool_decide (v = "")); cbn; easy.
Qed.

Lemma fold_sorted_skip obj ks : forall acc,
  foldl (fun sorted key =>
           match JsObject.get key obj with
           | Some v => if bool_decide (v = "") then sorted else JsObject.set key v sorted
           | None => sorted
           end) acc ks
  = foldl (fun sorted key =>
             match nonempty (JsObject.get key obj) with
             | Some v => JsObject.set key v sorted
             | None => sorted
             end) acc (filter (fun k => kept obj k = true) ks).
Proof.
  induction ks as [|k ks IH]; intros acc; [reflexivity|].
  cbn [foldl]. rewrite filter_cons.
  destruct (kept obj k) eqn:Hkept; unfold kept in Hkept.
  - rewrite decide_True by reflexivity. cbn [foldl]. rewrite IH.
    destruct (JsObject.get k obj) as [v|]; [|discriminate]. cbn [nonempty].
    destruct (bool_decide (v = "")); [discriminate | reflexivity].
  - rewrite decide_False by discriminate. rewrite IH.
    destruct (JsObject.get k obj) as [v|]; [|reflexivity].
    destruct (bool_decide (v = "")); [reflexivity | discriminate].
Qed.

Lemma fold_sorted_ext (f g : string -> option string) ks : forall acc,
  (forall k, k ∈ ks -> f k = g k) ->
  foldl (fun sorted key => match f key with
                           | Some v => JsObject.set key v sorted
                           | None => sorted
                           end) acc ks
  = foldl (fun sorted key => match g key with
                             | Some v => JsObject.set key v sorted
                             | None => sorted
                             end) acc ks.
Proof.
  induction ks as [|k ks IH]; intros acc Hfg; [reflexivity|].
  cbn [foldl]. rewrite (Hfg k) by constructor.
  apply IH. intros k' Hk'. apply Hfg. now constructor.
Qed.

Lemma kept_keys_sorted obj :
  StronglySorted key_le (filter (fun k => kept obj k = true) (JsObject.sorted_keys obj)).
Proof. apply StronglySorted_filter, sorted_keys_sorted. Qed.

Lemma kept_keys_elem obj k :
  k ∈ filter (fun k => kept obj k = true) (JsObject.sorted_keys obj)
  <-> nonempty (JsObject.get k obj) <> None.
Proof.
  rewrite list_elem_of_filter, sorted_keys_elem, kept_nonempty. split; [tauto|].
  intros H. split; [exact H|].
  destruct (JsObject.get k obj) as [v|] eqn:Hget; [|contradiction].
  eapply get_Some_keys, Hget.
Qed.

(** [sortObject] is a function of the non-empty values of the object. *)
Lemma sortObject_ext obj obj' :
  NoDup (JsObject.keys obj) -> NoDup (JsObject.keys obj') ->
  (forall k, nonempty (JsObject.get k obj) = nonempty (JsObject.get k obj')) ->
  VNPayService.sortObject obj = VNPayService.sortObject obj'.
Proof.
  intros Hnd Hnd' Hget. unfold VNPayService.sortObject.
  rewrite !fold_sorted_skip.
  assert (Hks : filter (fun k => kept obj k = true) (JsObject.sorted_keys obj)
                = filter (fun k => kept obj' k = true) (JsObject.sorted_keys obj')).
  { apply (StronglySorted_unique key_le); [apply kept_keys_sorted .. |].
    apply NoDup_Permutation.
    - apply NoDup_filter. now rewrite sorted_keys_perm.
    - apply NoDup_filter. now rewrite sorted_keys_perm.
    - intros k. rewrite !kept_keys_elem. now rewrite Hget. }
  rewrite Hks. apply fold_sorted_ext. intros k _. apply Hget.
Qed.

Lemma nonempty_idem v : nonempty (nonempty v) = nonempty v.
Proof.
  destruct v as [x|]; [|reflexivity]. cbn.
  destruct (bool_decide (x = "")) eqn:H; [reflexivity|]. cbn. now rewrite H.
Qed.

Lemma get_sortObject_nonempty k obj :
  JsObject.get k (VNPayService.sortObject obj) = nonempty (JsObject.get k obj).
Proof. apply get_sortObject. Qed.

Lemma sortObject_idem obj :
  NoDup (JsObject.keys obj) ->
  VNPayService.sortObject (VNPayService.sortObject obj) = VNPayService.sortObject obj.
Proof.
  intros Hnd. apply sortObject_ext; [apply sortObject_NoDup | exact Hnd |].
  intros k. rewrite get_sortObject_nonempty. apply nonempty_idem.
Qed.

Lemma received_fields_NoDup params : NoDup (JsObject.keys (received_fields params)).
Proof. unfold received_fields. apply fold_set_NoDup. constructor. Qed.

Lemma get_signed_field k params :
  NoDup (JsObject.keys params) ->
  JsObject.get k (signed_object params) = signed_field k params.
Proof. apply get_signed_object. Qed.

Lemma signed_object_ext params params' :
  NoDup (JsObject.keys params) -> NoDup (JsObject.keys params') ->
  (forall k, signed_field k params = signed_field k params') ->
  signed_object params = signed_object params'.
Proof.
  intros Hnd Hnd' Hf. unfold signed_object.
  apply sortObject_ext; [apply received_fields_NoDup .. |].
  intros k. rewrite <- !get_sortObject_nonempty.
  fold (signed_object params) (signed_object params').
  rewrite !get_signed_field by assumption. apply Hf.
Qed.

Lemma signData_same_fields params params' :
  NoDup (JsObject.keys params) -> NoDup (JsObject.keys params') ->
  VNPayService.signData params = VNPayService.signData params'
  <-> forall k, signed_field k params = signed_field k params'.
Proof.
  intros Hnd Hnd'. rewrite !signData_signed_object. split.
  - intros H%toString_inj k. rewrite <- !get_signed_field by assumption. now rewrite H.
  - intros H. now rewrite (signed_object_ext params params').
Qed.

(** *** Signing a payment request and verifying it *)

Lemma createPaymentUrl_query config offset date order ipAddr :
  VNPayService.createPaymentUrl config offset date order ipAddr
  = url config +:+ "?" +:+ URLSearchParams.toString (payment_query config offset date order ipAddr).
Proof. unfold VNPayService.createPaymentUrl, payment_query, payment_params. cbv zeta. apply eq_refl. Qed.

Lemma signData_signed params h :
  NoDup (JsObject.keys params) ->
  JsObject.get "vnp_SecureHash" params = None ->
  JsObject.get "vnp_SecureHashType" params = None ->
  VNPayService.signData (JsObject.set "vnp_SecureHash" h (VNPayService.sortObject params))
  = URLSearchParams.toString (VNPayService.sortObject params).
Proof.
  intros Hnd Hh Ht. rewrite signData_signed_object. f_equal.
  unfold signed_object. apply sortObject_ext; [apply received_fields_NoDup | exact Hnd |].
  intros k. rewrite <- get_sortObject_nonempty.
  match goal with |- JsObject.get k (VNPayService.sortObject (received_fields ?q)) = _ =>
    change (JsObject.get k (signed_object q) = nonempty (JsObject.get k params)) end.
  rewrite get_signed_field by apply keys_set_NoDup, sortObject_NoDup.
  unfold signed_field.
  destruct (decide (k = "vnp_SecureHashType")) as [->|H1].
  { rewrite bool_decide_eq_true_2 by reflexivity. now rewrite Ht. }
  rewrite (bool_decide_eq_false_2 (k = "vnp_SecureHashType")) by assumption.
  destruct (decide (k = "vnp_SecureHash")) as [->|H2].
  { rewrite bool_decide_eq_true_2 by reflexivity. now rewrite Hh. }
  rewrite (bool_decide_eq_false_2 (k = "vnp_SecureHash")) by assumption.
  rewrite get_set, bool_decide_eq_false_2 by assumption.
  rewrite get_sortObject_nonempty. apply nonempty_idem.
Qed.

Lemma payment_params_keys config offset date order ipAddr :
  JsObject.keys (payment_params config offset date order ipAddr)
  = ["vnp_Version"; "vnp_Command"; "vnp_TmnCode"; "vnp_Locale"; "vnp_CurrCode"; "vnp_TxnRef";
     "vnp_OrderInfo"; "vnp_OrderType"; "vnp_Amount"; "vnp_ReturnUrl"; "vnp_IpAddr";
     "vnp_CreateDate"; "vnp_ExpireDate"].
Proof. reflexivity. Qed.

Lemma payment_params_unsigned config offset date order ipAddr :
  NoDup (JsObject.keys (payment_params config offset date order ipAddr))
  /\ JsObject.get "vnp_SecureHash" (payment_params config offset date order ipAddr) = None
  /\ JsObject.get "vnp_SecureHashType" (payment_params config offset date order ipAddr) = None.
Proof.
  split.
  - rewrite payment_params_keys. apply (bool_decide_unpack _); vm_compute; exact I.
  - split; reflexivity.
Qed.

(** X5.  The query [createPaymentUrl] appends to the gateway address
    carries a signature that [validateReturn] accepts under the same
    configuration, whatever the configuration, the order, the client address
    and the clock; the order number read back from it is the order's (none
    when the order number is empty). *)
Theorem payment_url_verifies config offset date order ipAddr :
  let query := payment_query config offset date order ipAddr in
  let result := VNPayService.validateReturn config query in
  VNPayService.createPaymentUrl config offset date order ipAddr
  = url config +:+ "?" +:+ URLSearchParams.toString query
  /\ VNPayService.isValid result = true
  /\ VNPayService.orderId result = nonempty (Some (Order.order_number order)).
Proof.
  intros query result. split; [apply createPaymentUrl_query|].
  destruct (payment_params_unsigned config offset date order ipAddr) as (Hnd & Hh & Ht).
  subst result query. unfold VNPayService.validateReturn, payment_query.
  cbn [VNPayService.isValid VNPayService.orderId]. split.
  - apply bool_decide_eq_true_2.
    rewrite get_set, bool_decide_eq_true_2 by reflexivity. f_equal. f_equal.
    symmetry. apply signData_signed; assumption.
  - rewrite get_set, bool_decide_eq_false_2 by discriminate.
    rewrite get_sortObject_nonempty. reflexivity.
Qed.

Lemma civil_from_days_year z y m d :
  Js.civil_from_days z = (y, m, d) -> 0 <= z <= 2932896 -> 1970 <= y <= 9999.
Proof.
  unfold Js.civil_from_days. cbv zeta.
  set (z1 := z + 719468).
  set (era := z1 / 146097).
  set (doe := z1 - era * 146097).
  intros H Hz.
  assert (Hera : 4 <= era <= 24) by (subst era z1; Z.to_euclidean_division_equations; lia).
  assert (Hdoe : 0 <= doe <= 146096).
  { subst doe era. pose proof (Z.div_mod z1 146097 ltac:(lia)).
    pose proof (Z.mod_pos_bound z1 146097 ltac:(lia)). lia. }
  assert (Hlo : era = 4 -> 135080 <= doe) by (subst doe z1; lia).
  assert (Hhi : era = 24 -> doe <= 146036) by (subst doe z1; lia).
  clearbody doe. clearbody era. clear z1 Hz.
  set (yoe := (doe - doe / 1460 + doe / 36524 - doe / 146096) / 365) in *.
  assert (Hyoe : 0 <= yoe <= 399) by (subst yoe; Z.to_euclidean_division_equations; lia).
  assert (Hyoe_lo : era = 4 -> 369 <= yoe).
  { intros E. specialize (Hlo E). subst yoe.
    assert (doe / 1460 <= 100) by (Z.to_euclidean_division_equations; lia).
    assert (3 <= doe / 36524) by (Z.to_euclidean_division_equations; lia).
    assert (doe / 146096 <= 1) by (Z.to_euclidean_division_equations; lia).
    Z.to_euclidean_division_equations; lia. }
  set (doy := doe - (365 * yoe + yoe / 4 - yoe / 100)) in *.
  assert (Hdoy : 0 <= doy <= 365) by (subst doy yoe; Z.to_euclidean_division_equations; lia).
  clearbody yoe.
  assert (Hdoy_lo : era = 4 -> yoe = 369 -> 306 <= doy)
    by (intros E1 E2; specialize (Hlo E1); subst doy yoe;
        change (369 / 4) with 92; change (369 / 100) with 3; lia).
  assert (Hdoy_hi : era = 24 -> yoe = 399 -> doy <= 305)
    by (intros E1 E2; specialize (Hhi E1); subst doy yoe;
        change (399 / 4) with 99; change (399 / 100) with 3; lia).
  clearbody doy.
  set (mp := (5 * doy + 2) / 153) in *.
  assert (Hmp : 0 <= mp <= 11) by (subst mp; Z.to_euclidean_division_equations; lia).
  assert (Hmp_lo : 306 <= doy -> 10 <= mp) by (subst mp; Z.to_euclidean_division_equations; lia).
  assert (Hmp_hi : doy <= 305 -> mp <= 9) by (subst mp; Z.to_euclidean_division_equations; lia).
  clearbody mp.
  inversion H as [[Hy Hm Hd]]. clear H Hm Hd.
  destruct (mp <? 10) eqn:E; [apply Z.ltb_lt in E | apply Z.ltb_ge in E].
  - rewrite (proj2 (Z.leb_gt (mp + 3) 2)) by lia. lia.
  - rewrite (proj2 (Z.leb_le (mp - 9) 2)) by lia. lia.
Qed.

Lemma toString_four_digits y : 1000 <= y <= 9999 -> String.length (Js.toString y) = 4%nat.
Proof.
  intros Hy.
  pose proof (toString_length_le y 3 ltac:(cbn; lia)).
  pose proof (toString_length_ge y 3 ltac:(cbn; lia)). lia.
Qed.

(** X6.  For an instant whose local time lies between 1970-01-01 and
    9999-12-31, [formatDate] returns 14 decimal digits: the local year
    unpadded (four digits in that range), then month, day, hours, minutes
    and seconds padded to two digits each. *)
Theorem formatDate_shape (offset t : Z) :
  0 <= t + offset < 253402300800000 ->
  String.length (VNPayService.formatDate offset t) = 14%nat
  /\ Js.all_digits (VNPayService.formatDate offset t) = true
  /\ exists y m d,
       Js.civil_from_days ((t + offset) / Js.msPerDay) = (y, m, d)
       /\ VNPayService.formatDate offset t
          = Js.toString y +:+ Js.pad 2 m +:+ Js.pad 2 d
            +:+ Js.pad 2 ((t + offset) mod Js.msPerDay / 3600000)
            +:+ Js.pad 2 ((t + offset) mod Js.msPerDay / 60000 mod 60)
            +:+ Js.pad 2 ((t + offset) mod Js.msPerDay / 1000 mod 60)
       /\ 1970 <= y <= 9999 /\ 1 <= m <= 12 /\ 1 <= d <= 31
       /\ 0 <= (t + offset) mod Js.msPerDay / 3600000 <= 23.
Proof.
  intros Ht. unfold VNPayService.formatDate. cbv zeta.
  set (local := t + offset) in *.
  destruct (Js.civil_from_days (local / Js.msPerDay)) as [[y m] d] eqn:Hc.
  assert (Hday : 0 <= local / Js.msPerDay <= 2932896)
    by (unfold Js.msPerDay; Z.to_euclidean_division_equations; lia).
  pose proof (civil_from_days_year _ _ _ _ Hc Hday) as Hy.
  destruct (civil_from_days_bounds _ _ _ _ Hc) as [Hm Hd].
  set (ms := local mod Js.msPerDay).
  assert (Hms : 0 <= ms < 86400000) by (subst ms; apply Z.mod_pos_bound; reflexivity).
  clearbody ms.
  assert (Hh : 0 <= ms / 3600000 <= 23) by (Z.to_euclidean_division_equations; lia).
  assert (Hmi : 0 <= ms / 60000 mod 60 < 60) by (apply Z.mod_pos_bound; lia).
  assert (Hs : 0 <= ms / 1000 mod 60 < 60) by (apply Z.mod_pos_bound; lia).
  destruct (toString_spec y ltac:(lia)) as [Dy _].
  pose proof (toString_four_digits y ltac:(lia)) as Ly.
  destruct (pad_spec 1 m ltac:(cbn; lia)) as (L1 & D1 & _).
  destruct (pad_spec 1 d ltac:(cbn; lia)) as (L2 & D2 & _).
  destruct (pad_spec 1 (ms / 3600000) ltac:(cbn; lia)) as (L3 & D3 & _).
  destruct (pad_spec 1 (ms / 60000 mod 60) ltac:(cbn; lia)) as (L4 & D4 & _).
  destruct (pad_spec 1 (ms / 1000 mod 60) ltac:(cbn; lia)) as (L5 & D5 & _).
  split; [|split].
  - rewrite !append_length, Ly, L1, L2, L3, L4, L5. reflexivity.
  - rewrite !append_all_digits, Dy, D1, D2, D3, D4, D5. reflexivity.
  - exists y, m, d. repeat split; try lia.
Qed.

Lemma formatDate_shape_witness :
  String.length (VNPayService.formatDate 25200000 Sample.new_year) = 14%nat
  /\ Js.all_digits (VNPayService.formatDate 25200000 Sample.new_year) = true
  /\ exists y m d,
       Js.civil_from_days ((Sample.new_year + 25200000) / Js.msPerDay) = (y, m, d)
       /\ VNPayService.formatDate 25200000 Sample.new_year
          = Js.toString y +:+ Js.pad 2 m +:+ Js.pad 2 d
            +:+ Js.pad 2 ((Sample.new_year + 25200000) mod Js.msPerDay / 3600000)
            +:+ Js.pad 2 ((Sample.new_year + 25200000) mod Js.msPerDay / 60000 mod 60)
            +:+ Js.pad 2 ((Sample.new_year + 25200000) mod Js.msPerDay / 1000 mod 60)
       /\ 1970 <= y <= 9999 /\ 1 <= m <= 12 /\ 1 <= d <= 31
       /\ 0 <= (Sample.new_year + 25200000) mod Js.msPerDay / 3600000 <= 23.
Proof.
  apply (formatDate_shape 25200000 Sample.new_year). unfold Sample.new_year. lia.
Defined.

(** Midnight UTC of the first of January 2025 on a server seven hours east. *)
Example formatDate_new_year :
  VNPayService.formatDate 25200000 Sample.new_year = "20250101070000".
Proof. vm_compute. reflexivity. Qed.

(** X. The answer of [handleVNPayReturn] is consistent with the response code. *)
Lemma getResponseMessage_success code :
  VNPayService.getResponseMessage code = "Transaction successful"
  <-> VNPayService.isPaymentSuccessful code = true.
Proof.
  unfold VNPayService.isPaymentSuccessful. destruct code as [c|]; cbn.
  2:{ split; [discriminate|]. intros H. apply bool_decide_eq_true_1 in H. discriminate. }
  split.
  - intros H. apply bool_decide_eq_true_2. f_equal.
    unfold VNPayService.messages in H. cbn [JsObject.get] in H.
    repeat (case_bool_decide; [subst; try reflexivity; cbn in H; discriminate H|]).
    cbn in H. discriminate H.
  - intros H. apply bool_decide_eq_true_1 in H. inversion H. reflexivity.
Qed.

Lemma handleVNPayReturn_ok env params w r w' :
  PaymentsService.handleVNPayReturn env params w = (Ok r, w') ->
  VNPayService.isValid (VNPayService.validateReturn (vnpay_config env) params) = true
  /\ PaymentsService.success r
     = VNPayService.isPaymentSuccessful (JsObject.get "vnp_ResponseCode" params)
  /\ PaymentsService.message r
     = VNPayService.getResponseMessage (JsObject.get "vnp_ResponseCode" params)
  /\ exists oid o,
       orders (db w) !! oid = Some o
       /\ JsObject.get "vnp_TxnRef" params = Some (Order.order_number o)
       /\ PaymentsService.orderId r = oid
       /\ PaymentsService.orderNumber r = Order.order_number o.
Proof.
  unfold PaymentsService.handleVNPayReturn.
  destruct (VNPayService.isValid _) eqn:Hvalid; cbn [negb]; [|discriminate].
  intros H. apply bind_ok_inv in H as ([] & w1 & Hio & H).
  apply store_io_inv in Hio. subst w1.
  apply bind_ok_inv in H as (found & w2 & Hfound & H).
  inversion Hfound. subst. clear Hfound. cbn [db set_io_count] in H.
  destruct (PaymentsService.find_by_order_number _ _) as [lo|] eqn:Hlo; [|discriminate].
  apply bind_ok_inv in H as ([] & w3 & _ & H). inversion H. subst. clear H.
  cbn [PaymentsService.success PaymentsService.message PaymentsService.orderId
       PaymentsService.orderNumber VNPayService.responseCode VNPayService.validateReturn].
  repeat split.
  destruct lo as [oid o items a u].
  assert (Hsome := Hlo). unfold PaymentsService.find_by_order_number in Hsome.
  cbn [VNPayService.orderId VNPayService.validateReturn] in Hsome.
  destruct (JsObject.get "vnp_TxnRef" params) as [ref|]; [|discriminate].
  destruct (List.find _ _) as [[oid' o']|] eqn:Hf; [|discriminate].
  inversion Hsome. subst. clear Hsome.
  apply find_some in Hf as [Hin Hp].
  apply list_elem_of_In, elem_of_map_to_list in Hin.
  apply bool_decide_eq_true_1 in Hp. cbn in Hp.
  exists oid, o. cbn [OrdersService.id OrdersService.order]. rewrite Hp. now repeat split.
Qed.



(** *** sortObject and the signed string *)

Lemma sortObject_sorted obj :
  NoDup (JsObject.keys obj) ->
  Forall (fun k => JsObject.array_index k = None) (JsObject.keys obj) ->
  StronglySorted key_le (JsObject.keys (VNPayService.sortObject obj)).
Proof.
  intros Hnd Hidx. unfold VNPayService.sortObject.
  rewrite keys_fold_plain.
  - cbn [JsObject.keys map app]. apply StronglySorted_filter, sorted_keys_sorted.
  - now rewrite sorted_keys_perm.
  - apply Forall_forall. intros k Hk. rewrite sorted_keys_elem in Hk.
    rewrite Forall_forall in Hidx. now apply Hidx.
  - apply Forall_forall. intros k _ Hin. inversion Hin.
Qed.

Lemma sortObject_entries obj :
  NoDup (JsObject.keys obj) ->
  VNPayService.sortObject obj ≡ₚ filter (fun kv : string * string => kv.2 <> "") obj.
Proof.
  intros Hnd. apply NoDup_Permutation.
  - apply NoDup_entries, sortObject_NoDup.
  - apply NoDup_filter, NoDup_entries, Hnd.
  - intros [k v]. rewrite list_elem_of_filter.
    rewrite <- (get_elem_of k v obj Hnd).
    rewrite <- (get_elem_of k v (VNPayService.sortObject obj)) by apply sortObject_NoDup.
    rewrite get_sortObject. cbn [snd].
    destruct (JsObject.get k obj) as [x|]; [|split; [discriminate | intros [_ H]; discriminate H]].
    case_bool_decide as Hx; split.
    + discriminate.
    + intros [Hv H]. inversion H. subst. contradiction.
    + intros H. inversion H. subst. now split.
    + intros [_ H]. exact H.
Qed.




(** Array-index keys come first whatever their place in the sorted list. *)
Example sortObject_array_index_keys :
  VNPayService.sortObject [("b", "1"); ("10", "x"); ("9", "y")]
  = [("9", "y"); ("10", "x"); ("b", "1")]
  /\ JsObject.sorted_keys [("b", "1"); ("10", "x"); ("9", "y")] = ["10"; "9"; "b"].
Proof. vm_compute. split; reflexivity. Qed.





(** The same fields laid out otherwise, with a hash type added, are signed
    as the same string and verify under the same hash. *)
Example resent_notification_verifies :
  VNPayService.signData Sample.resent_notification = VNPayService.signData Sample.paid_notification
  /\ VNPayService.isValid
       (VNPayService.validateReturn (vnpay_config Sample.env) Sample.resent_notification) = true.
Proof. vm_compute. split; reflexivity. Qed.

(** ** Order administration *)

Lemma findOne_admin_run w oid o :
  io_fault w (io_count w) = false ->
  orders (db w) !! oid = Some o ->
  OrdersService.findOne oid None w
  = (Ok (OrdersService.load_order (db w) oid o), set_io_count (S (io_count w)) w).
Proof.
  intros Hio Ho. unfold OrdersService.findOne.
  erewrite bind_run by (apply store_io_ok, Hio).
  unfold bind, gets. cbn [db set_io_count]. now rewrite Ho.
Qed.

(** X13.  On a store without faults, [updateStatus] sets the status and the
    payment status of a stored order to the ones given, whatever they were
    before, and keeps the ones not given; no other order, no stock, no order
    item changes and no mail is sent: setting an order to cancelled this way
    restores no stock. *)
Theorem updateStatus_overrides (w : World) (oid : string) (dto : OrdersService.UpdateOrderStatusDto)
    (o : Order.t) :
  no_faults w ->
  orders (db w) !! oid = Some o ->
  exists lo w',
    OrdersService.updateStatus oid dto w = (Ok lo, w')
    /\ orders (db w') !! oid = Some (OrdersService.order lo)
    /\ Order.status (OrdersService.order lo)
       = default (Order.status o) (OrdersService.dto_status dto)
    /\ Order.payment_status (OrdersService.order lo)
       = default (Order.payment_status o) (OrdersService.dto_payment_status dto)
    /\ (forall oid', oid' <> oid -> orders (db w') !! oid' = orders (db w) !! oid')
    /\ products (db w') = products (db w)
    /\ order_items (db w') = order_items (db w)
    /\ outbox w' = outbox w.
Proof.
  intros Hnf Ho. unfold OrdersService.updateStatus.
  erewrite bind_run by (apply findOne_admin_run; [apply Hnf | exact Ho]).
  cbv zeta.
  erewrite bind_run by (apply store_io_no_faults, Hnf).
  eexists _, _. split; [reflexivity|].
  cbn [db set_db set_journal set_io_count apply_stmt with_orders orders products order_items
       outbox OrdersService.order OrdersService.load_order].
  repeat split.
  - rewrite lookup_alter, decide_True by reflexivity. now rewrite Ho.
  - intros oid' Hne. rewrite lookup_alter, decide_False by congruence. reflexivity.
Qed.

Lemma updateStatus_overrides_witness :
  exists lo w',
    OrdersService.updateStatus "o1" (OrdersService.mkStatusDto (Some DELIVERED) None)
      Sample.awaiting_payment = (Ok lo, w')
    /\ orders (db w') !! "o1" = Some (OrdersService.order lo)
    /\ Order.status (OrdersService.order lo) = DELIVERED
    /\ Order.payment_status (OrdersService.order lo) = PAY_PENDING
    /\ (forall oid', oid' <> "o1" ->
        orders (db w') !! oid' = orders (db Sample.awaiting_payment) !! oid')
    /\ products (db w') = products (db Sample.awaiting_payment)
    /\ order_items (db w') = order_items (db Sample.awaiting_payment)
    /\ outbox w' = outbox Sample.awaiting_payment.
Proof.
  apply (updateStatus_overrides Sample.awaiting_payment "o1"
           (OrdersService.mkStatusDto (Some DELIVERED) None) (Sample.order1 PENDING PAY_PENDING)).
  - intros k. reflexivity.
  - reflexivity.
Defined.

(** *** Cancelling after checkout, and again *)

Lemma cancelOrder_run w oid userId o :
  no_faults w ->
  orders (db w) !! oid = Some o ->
  Order.user_id o = userId ->
  Order.status o = PENDING ->
  exists w',
    OrdersService.cancelOrder oid userId w
    = (Ok (OrdersService.with_status CANCELLED (OrdersService.load_order (db w) oid o)), w')
    /\ db w' = with_orders (alter cancelled oid)
                 (with_products (restored (lines_of (db w) oid)) (db w))
    /\ no_faults w'.
Proof.
  intros Hnf Ho Hu Hst.
  assert (Hfind := findOne_run w oid userId o (Hnf _) Ho Hu).
  unfold OrdersService.cancelOrder.
  erewrite bind_run by exact Hfind.
  cbn [OrdersService.order OrdersService.load_order OrdersService.items].
  rewrite Hst. cbn [OrderStatus_eqb negb].
  destruct (restore_stock_run (lines_of (db w) oid) (set_io_count (S (io_count w)) w))
    as (w1 & Hrun & Hdb & Hj & Hout & Hnf1); [exact Hnf|].
  unfold lines_of in *.
  erewrite bind_run by exact Hrun.
  erewrite bind_run by (apply store_io_no_faults, Hnf1).
  unfold execute, modify, bind, ret.
  eexists. split; [reflexivity|].
  cbn [db set_db set_journal set_io_count apply_stmt io_fault] in *.
  rewrite Hdb. split; [reflexivity|]. exact Hnf1.
Qed.

Lemma snapshot_quantities oid items lines pid :
  Forall2 (snapshot_of oid) items lines ->
  ordered_quantity pid items + total_delta pid (decrements lines) = 0.
Proof.
  induction 1 as [|i l items lines Hs _ IH]; [reflexivity|].
  destruct Hs as (_ & Hp & Hq & _).
  cbn [ordered_quantity foldr decrements map]. rewrite total_delta_cons.
  fold (ordered_quantity pid items). fold (decrements lines).
  rewrite Hp, Hq. case_bool_decide; lia.
Qed.

Lemma snapshot_order_ids oid items lines :
  Forall2 (snapshot_of oid) items lines -> Forall (fun i => OrderItem.order_id i = oid) items.
Proof. induction 1 as [|i l items lines Hs _ IH]; constructor; [apply Hs | exact IH]. Qed.

(** X15.  Cancelling an order right after the checkout that created it
    (the new order id not being used by an older order item, the store
    without faults) gives every product the stock it had before the
    checkout and marks the order cancelled; the cart lines the checkout
    removed are not put back. *)
Theorem checkout_then_cancel (userId : string) (dto : CreateOrderDto) (userEmail userName : string)
    (w : World) (lo : OrdersService.LoadedOrder) (w1 : World) :
  OrdersService.createOrder userId dto userEmail userName w = (Ok lo, w1) ->
  (forall i, i ∈ order_items (db w) -> OrderItem.order_id i <> OrdersService.id lo) ->
  no_faults w1 ->
  exists lo' w2,
    OrdersService.cancelOrder (OrdersService.id lo) userId w1 = (Ok lo', w2)
    /\ products (db w2) = products (db w)
    /\ orders (db w2) !! OrdersService.id lo = Some (cancelled (OrdersService.order lo))
    /\ cart_items (db w2) = cart_items (db w1).
Proof.
  intros Hrun Hfresh Hnf.
  apply createOrder_ok in Hrun
    as (c & number & created & items & a & jb & Hlines & Hne & _ & Hsnap & Hprod & Hord & Hitems & _ & Hlo).
  cbv zeta in *.
  set (o := Order.mk userId number PENDING PAY_PENDING _ _ 0 0 0 _ "USD" _ created) in *.
  assert (Ho : orders (db w1) !! OrdersService.id lo = Some o)
    by (rewrite Hord; apply lookup_insert_eq).
  assert (Hmine : lines_of (db w1) (OrdersService.id lo) = items).
  { unfold lines_of. rewrite Hitems, filter_app.
    rewrite filter_none by (apply Forall_forall; exact Hfresh).
    rewrite filter_all; [reflexivity|]. eapply snapshot_order_ids, Hsnap. }
  destruct (cancelOrder_run w1 (OrdersService.id lo) userId o Hnf Ho eq_refl eq_refl)
    as (w2 & Hcancel & Hdb & _).
  eexists _, w2. split; [exact Hcancel|]. rewrite Hdb.
  cbn [with_orders with_products products orders cart_items]. split; [|split].
  - apply map_eq. intros pid. rewrite restored_lookup, Hmine, Hprod, adjust_all_lookup.
    destruct (products (db w) !! pid) as [p|]; [|reflexivity].
    cbn [fmap option_fmap option_map]. rewrite adjust_stock_add.
    pose proof (snapshot_quantities _ _ _ pid Hsnap) as Hq.
    match goal with |- Some (adjust_stock ?q p) = _ => replace q with 0 by lia end.
    now rewrite adjust_stock_0.
  - rewrite lookup_alter, decide_True by reflexivity. rewrite Ho. cbn. f_equal.
    rewrite Hlo. reflexivity.
  - reflexivity.
Qed.

Lemma checkout_then_cancel_witness :
  exists lo' w2,
    OrdersService.cancelOrder "uuid-0" "u1"
      (OrdersService.createOrder "u1" Sample.checkout "ann@example.com" "Ann"
         (Sample.world Sample.basket Sample.reliable)).2 = (Ok lo', w2)
    /\ products (db w2) = products Sample.basket
    /\ orders (db w2) !! "uuid-0" = Some (cancelled (OrdersService.order Sample.first_order))
    /\ cart_items (db w2)
       = cart_items (db (OrdersService.createOrder "u1" Sample.checkout "ann@example.com" "Ann"
                           (Sample.world Sample.basket Sample.reliable)).2).
Proof.
  apply (checkout_then_cancel "u1" Sample.checkout "ann@example.com" "Ann"
           (Sample.world Sample.basket Sample.reliable) Sample.first_order).
  - vm_compute. reflexivity.
  - intros i Hin. inversion Hin.
  - intros k. reflexivity.
Defined.

(** X14.  [cancelOrder] looks at the status only: once an administrator
    has set a cancelled order back to pending, cancelling it again restores
    the stock of its lines a second time, so that every product ends with
    its stock raised by twice the ordered quantity. *)
Theorem reopened_order_restores_stock_again (w : World) (oid userId : string) (o : Order.t) :
  no_faults w ->
  orders (db w) !! oid = Some o ->
  Order.user_id o = userId ->
  Order.status o = PENDING ->
  exists lo1 w1 lo2 w2 lo3 w3,
    OrdersService.cancelOrder oid userId w = (Ok lo1, w1)
    /\ OrdersService.updateStatus oid (OrdersService.mkStatusDto (Some PENDING) None) w1
       = (Ok lo2, w2)
    /\ OrdersService.cancelOrder oid userId w2 = (Ok lo3, w3)
    /\ forall pid,
         products (db w3) !! pid
         = adjust_stock (2 * ordered_quantity pid (lines_of (db w) oid))
             <$> products (db w) !! pid.
Proof.
  intros Hnf Ho Hu Hst.
  destruct (cancelOrder_run w oid userId o Hnf Ho Hu Hst) as (w1 & Hrun1 & Hdb1 & Hnf1).
  assert (Ho1 : orders (db w1) !! oid = Some (cancelled o)).
  { rewrite Hdb1. cbn [with_orders with_products orders].
    rewrite lookup_alter, decide_True by reflexivity. now rewrite Ho. }
  assert (Hrun2 : exists lo2 w2,
             OrdersService.updateStatus oid (OrdersService.mkStatusDto (Some PENDING) None) w1
             = (Ok lo2, w2)
             /\ db w2 = with_orders (alter (patch_order (mkPatch (Some PENDING) None None)) oid) (db w1)
             /\ no_faults w2).
  { unfold OrdersService.updateStatus.
    erewrite bind_run by (apply findOne_admin_run; [apply Hnf1 | exact Ho1]).
    cbv zeta. erewrite bind_run by (apply store_io_no_faults, Hnf1).
    eexists _, _. split; [reflexivity|]. split; [reflexivity | exact Hnf1]. }
  destruct Hrun2 as (lo2 & w2 & Hrun2 & Hdb2 & Hnf2).
  assert (Ho2 : orders (db w2) !! oid = Some (patch_order (mkPatch (Some PENDING) None None) (cancelled o))).
  { rewrite Hdb2. cbn [with_orders orders].
    rewrite lookup_alter, decide_True by reflexivity. now rewrite Ho1. }
  destruct (cancelOrder_run w2 oid userId _ Hnf2 Ho2 Hu eq_refl) as (w3 & Hrun3 & Hdb3 & _).
  eexists _, w1, lo2, w2, _, w3. repeat split; [exact Hrun1 | exact Hrun2 | exact Hrun3 |].
  intros pid. rewrite Hdb3. cbn [with_orders with_products products].
  rewrite restored_lookup.
  assert (Hlines : lines_of (db w2) oid = lines_of (db w) oid).
  { unfold lines_of. rewrite Hdb2, Hdb1. reflexivity. }
  rewrite Hlines, Hdb2. cbn [with_orders products]. rewrite Hdb1.
  cbn [with_orders with_products products]. rewrite restored_lookup.
  destruct (products (db w) !! pid) as [p|]; [|reflexivity]. cbn.
  rewrite adjust_stock_add. do 2 f_equal. lia.
Qed.

Lemma reopened_order_restores_stock_again_witness :
  exists lo1 w1 lo2 w2 lo3 w3,
    OrdersService.cancelOrder "o1" "u1" Sample.awaiting_payment = (Ok lo1, w1)
    /\ OrdersService.updateStatus "o1" (OrdersService.mkStatusDto (Some PENDING) None) w1
       = (Ok lo2, w2)
    /\ OrdersService.cancelOrder "o1" "u1" w2 = (Ok lo3, w3)
    /\ forall pid,
         products (db w3) !! pid
         = adjust_stock (2 * ordered_quantity pid (lines_of (db Sample.awaiting_payment) "o1"))
             <$> products (db Sample.awaiting_payment) !! pid.
Proof.
  apply (reopened_order_restores_stock_again Sample.awaiting_payment "o1" "u1"
           (Sample.order1 PENDING PAY_PENDING)).
  - intros k. reflexivity.
  - reflexivity.
  - reflexivity.
  - reflexivity.
Defined.

(** Three widgets in stock, two in the order: after cancel, reopen and
    cancel there are seven. *)
Example reopened_order_inflates_stock :
  Product.stock_quantity <$> products (db Sample.awaiting_payment) !! "A" = Some 3
  /\ Product.stock_quantity
       <$> products
             (db (OrdersService.cancelOrder "o1" "u1"
                    (OrdersService.updateStatus "o1"
                       (OrdersService.mkStatusDto (Some PENDING) None)
                       (OrdersService.cancelOrder "o1" "u1" Sample.awaiting_payment).2).2).2)
           !! "A"
     = Some 7.
Proof. vm_compute. split; reflexivity. Qed.

(** *** Order statistics *)

Lemma count_status_insert d oid o s :
  orders d !! oid = None ->
  OrdersService.count_status (with_orders (insert oid o) d) s
  = (if OrderStatus_eqb (Order.status o) s
     then S (OrdersService.count_status d s) else OrdersService.count_status d s).
Proof.
  intros Hfresh. unfold OrdersService.count_status. cbn [with_orders orders].
  destruct (OrderStatus_eqb (Order.status o) s) eqn:E.
  - rewrite map_filter_insert_True by exact E.
    apply map_size_insert_None. apply map_lookup_filter_None. left. exact Hfresh.
  - rewrite map_filter_insert_False by (cbn; congruence).
    now rewrite delete_id by exact Hfresh.
Qed.

(** Every order is in one of the five states. *)
Lemma count_status_total (m : gmap string Order.t) : forall d,
  orders d = m ->
  size m
  = (OrdersService.count_status d PENDING + OrdersService.count_status d PROCESSING
     + OrdersService.count_status d SHIPPED + OrdersService.count_status d DELIVERED
     + OrdersService.count_status d CANCELLED)%nat.
Proof.
  induction m as [|oid o m Hfresh IH] using map_ind; intros d Hd.
  - unfold OrdersService.count_status. rewrite Hd, map_filter_empty. reflexivity.
  - assert (Hd' : d = with_orders (insert oid o) (with_orders (fun _ => m) d))
      by (destruct d; cbn in *; now subst).
    rewrite Hd'. rewrite !count_status_insert by exact Hfresh.
    rewrite map_size_insert_None by exact Hfresh.
    rewrite (IH (with_orders (fun _ => m) d) eq_refl).
    destruct (Order.status o); cbn [OrderStatus_eqb]; lia.
Qed.

Lemma getOrderStats_run w :
  no_faults w ->
  OrdersService.getOrderStats w
  = (Ok (OrdersService.mkStats (size (orders (db w)))
           (OrdersService.count_status (db w) PENDING)
           (OrdersService.count_status (db w) PROCESSING)
           (OrdersService.count_status (db w) DELIVERED)
           (OrdersService.count_status (db w) CANCELLED)
           (OrdersService.paid_total (db w))),
     set_io_count (6 + io_count w) w).
Proof.
  intros Hnf. unfold OrdersService.getOrderStats.
  do 6 (eapply bind_run_to; [apply store_io_no_faults, Hnf|];
        eapply bind_run_to; [reflexivity|]).
  reflexivity.
Qed.

(** X16.  On a store without faults [getOrderStats] changes nothing, and
    its total exceeds the sum of its four status counts by the number of
    shipped orders, which it does not report; its revenue is the sum of the
    totals of the orders whose payment status is paid. *)
Theorem getOrderStats_counts (w : World) :
  no_faults w ->
  exists stats w',
    OrdersService.getOrderStats w = (Ok stats, w')
    /\ db w' = db w
    /\ OrdersService.totalOrders stats
       = (OrdersService.pendingOrders stats + OrdersService.processingOrders stats
          + OrdersService.deliveredOrders stats + OrdersService.cancelledOrders stats
          + OrdersService.count_status (db w) SHIPPED)%nat
    /\ OrdersService.totalRevenue stats = OrdersService.paid_total (db w).
Proof.
  intros Hnf. eexists _, _. split; [apply getOrderStats_run, Hnf|].
  cbn [OrdersService.totalOrders OrdersService.pendingOrders OrdersService.processingOrders
       OrdersService.deliveredOrders OrdersService.cancelledOrders OrdersService.totalRevenue
       db set_io_count].
  repeat split. rewrite (count_status_total (orders (db w)) (db w) eq_refl). lia.
Qed.

Lemma getOrderStats_counts_witness :
  exists stats w',
    OrdersService.getOrderStats Sample.shipped_unpaid = (Ok stats, w')
    /\ db w' = db Sample.shipped_unpaid
    /\ OrdersService.totalOrders stats
       = (OrdersService.pendingOrders stats + OrdersService.processingOrders stats
          + OrdersService.deliveredOrders stats + OrdersService.cancelledOrders stats
          + OrdersService.count_status (db Sample.shipped_unpaid) SHIPPED)%nat
    /\ OrdersService.totalRevenue stats = OrdersService.paid_total (db Sample.shipped_unpaid).
Proof.
  apply (getOrderStats_counts Sample.shipped_unpaid). intros k. reflexivity.
Defined.

(** One stored order, shipped: the total is 1 and every other figure 0. *)
Example shipped_order_is_in_no_count :
  (OrdersService.getOrderStats Sample.shipped_unpaid).1
  = Ok (OrdersService.mkStats 1 0 0 0 0 0).
Proof. vm_compute. reflexivity. Qed.

(** *** Revenue *)

Lemma paid_total_insert d oid o :
  orders d !! oid = None ->
  OrdersService.paid_total (with_orders (insert oid o) d)
  = revenue_of o + OrdersService.paid_total d.
Proof.
  intros Hfresh. unfold OrdersService.paid_total. cbn [with_orders orders].
  rewrite map_fold_insert_L.
  - unfold revenue_of. destruct (PaymentStatus_eqb _ _); lia.
  - intros j1 j2 z1 z2 y _ _ _.
    destruct (PaymentStatus_eqb (Order.payment_status z1) PAID),
             (PaymentStatus_eqb (Order.payment_status z2) PAID); lia.
  - exact Hfresh.
Qed.

Lemma paid_total_alter (f : Order.t -> Order.t) d oid o :
  orders d !! oid = Some o ->
  OrdersService.paid_total (with_orders (alter f oid) d)
  = OrdersService.paid_total d - revenue_of o + revenue_of (f o).
Proof.
  intros Ho.
  set (d0 := with_orders (delete oid) d).
  assert (Hfresh : orders d0 !! oid = None) by apply lookup_delete_eq.
  assert (H1 : d = with_orders (insert oid o) d0).
  { subst d0. destruct d. unfold with_orders. cbn in *. f_equal. symmetry.
    now apply insert_delete_id. }
  assert (H2 : with_orders (alter f oid) d = with_orders (insert oid (f o)) d0).
  { subst d0. destruct d. unfold with_orders. cbn in *. f_equal. apply map_eq. intros j.
    rewrite lookup_alter. destruct (decide (j = oid)) as [->|Hne].
    - rewrite decide_True by reflexivity. now rewrite lookup_insert_eq, Ho.
    - rewrite decide_False by congruence.
      now rewrite lookup_insert_ne, lookup_delete_ne by congruence. }
  clearbody d0. rewrite H2, (paid_total_insert d0 oid (f o) Hfresh).
  rewrite H1, (paid_total_insert d0 oid o Hfresh). lia.
Qed.

(** X17.  Marking a stored order paid raises the revenue figure that
    [getOrderStats] reports next by the order's total, or leaves it as it
    was when the order was paid already. *)
Theorem revenue_follows_payment (lo : OrdersService.LoadedOrder) (tx : option string)
    (w : World) (o : Order.t) :
  no_faults w ->
  orders (db w) !! OrdersService.id lo = Some o ->
  exists w1 stats w2,
    PaymentsService.markOrderPaid lo tx w = (Ok tt, w1)
    /\ OrdersService.getOrderStats w1 = (Ok stats, w2)
    /\ OrdersService.totalRevenue stats
       = OrdersService.paid_total (db w)
         + (if PaymentStatus_eqb (Order.payment_status o) PAID then 0 else Order.total o).
Proof.
  intros Hnf Ho.
  destruct (markOrderPaid_run lo tx w Hnf) as (w1 & Hrun & Hdb & _ & _ & Hnf1 & _).
  eexists w1, _, _. split; [exact Hrun|]. split; [apply getOrderStats_run, Hnf1|].
  cbn [OrdersService.totalRevenue].
  rewrite Hdb, (paid_total_alter paid _ _ o Ho).
  unfold revenue_of. cbn [paid patch_order Order.payment_status Order.total set_payment_status].
  unfold default, id. cbn [PaymentStatus_eqb].
  destruct (PaymentStatus_eqb (Order.payment_status o) PAID); lia.
Qed.

Lemma revenue_follows_payment_witness :
  exists w1 stats w2,
    PaymentsService.markOrderPaid (Sample.loaded Sample.awaiting_payment PENDING PAY_PENDING)
      (Some "14226112") Sample.awaiting_payment = (Ok tt, w1)
    /\ OrdersService.getOrderStats w1 = (Ok stats, w2)
    /\ OrdersService.totalRevenue stats
       = OrdersService.paid_total (db Sample.awaiting_payment) + 2000.
Proof.
  apply (revenue_follows_payment (Sample.loaded Sample.awaiting_payment PENDING PAY_PENDING)
           (Some "14226112") Sample.awaiting_payment (Sample.order1 PENDING PAY_PENDING)).
  - intros k. reflexivity.
  - reflexivity.
Defined.

(** ** Payment notifications *)

Lemma bind_ret_world {A B} (m : Async A) (f : A -> B) w :
  (bind m (fun a => ret (f a)) w).2 = (m w).2.
Proof. unfold bind, ret. now destruct (m w) as [[a|e] w1]. Qed.

Lemma find_by_order_number_some d ref lo :
  PaymentsService.find_by_order_number d ref = Some lo ->
  orders d !! OrdersService.id lo = Some (OrdersService.order lo)
  /\ ref = Some (Order.order_number (OrdersService.order lo)).
Proof.
  unfold PaymentsService.find_by_order_number. destruct ref as [r|]; [|discriminate].
  destruct (List.find _ (map_to_list (orders d))) as [[oid o]|] eqn:Hf; [|discriminate].
  intros H. inversion H. subst. clear H. cbn [OrdersService.id OrdersService.order OrdersService.load_order].
  apply find_some in Hf as [Hin Hp].
  apply list_elem_of_In, elem_of_map_to_list in Hin.
  apply bool_decide_eq_true_1 in Hp. cbn in Hp. split; [exact Hin | now rewrite Hp].
Qed.

Lemma markOrderPaid_db lo tx w :
  db (PaymentsService.markOrderPaid lo tx w).2 = db w
  \/ db (PaymentsService.markOrderPaid lo tx w).2
     = with_orders (alter paid (OrdersService.id lo)) (db w).
Proof.
  unfold PaymentsService.markOrderPaid, bind, store_io, execute, modify, try_catch,
    sendOrderConfirmationEmail, console_log, ret.
  destruct (io_fault w (io_count w)); [now left|]. right.
  destruct (OrdersService.user lo) as [u|]; [|reflexivity].
  destruct (truthy (Some (User.email u))); [|reflexivity].
  cbn [mail_fault set_journal set_db set_io_count].
  destruct (mail_fault w _); reflexivity.
Qed.

Lemma markOrderPaymentFailed_db lo w :
  db (PaymentsService.markOrderPaymentFailed lo w).2 = db w
  \/ db (PaymentsService.markOrderPaymentFailed lo w).2
     = with_orders (alter payment_failed (OrdersService.id lo)) (db w).
Proof.
  unfold PaymentsService.markOrderPaymentFailed, bind, store_io, execute, modify, console_log.
  destruct (io_fault w (io_count w)); [now left | now right].
Qed.

Lemma unsettled_with_orders f d : unsettled_tables (with_orders f d) = unsettled_tables d.
Proof. reflexivity. Qed.

(** What an update of one order by [f] looks like from any order id. *)
Lemma alter_scope (f : Order.t -> Order.t) (m : gmap string Order.t) oid0 o0 oid :
  m !! oid0 = Some o0 ->
  match m !! oid with
  | None => alter f oid0 m !! oid = None
  | Some o => alter f oid0 m !! oid = Some o \/ (oid = oid0 /\ o = o0 /\ alter f oid0 m !! oid = Some (f o))
  end.
Proof.
  intros H0. rewrite lookup_alter. case_decide as Hd.
  - subst. rewrite H0. cbn. right. now repeat split.
  - destruct (m !! oid); [now left | reflexivity].
Qed.

Lemma handleVNPayReturn_db env params w :
  db (PaymentsService.handleVNPayReturn env params w).2 = db w
  \/ exists lo,
       VNPayService.isValid (VNPayService.validateReturn (vnpay_config env) params) = true
       /\ orders (db w) !! OrdersService.id lo = Some (OrdersService.order lo)
       /\ JsObject.get "vnp_TxnRef" params = Some (Order.order_number (OrdersService.order lo))
       /\ db (PaymentsService.handleVNPayReturn env params w).2
          = with_orders (alter (settled params) (OrdersService.id lo)) (db w).
Proof.
  remember (PaymentsService.handleVNPayReturn env params w).2 as w' eqn:Hw'.
  unfold PaymentsService.handleVNPayReturn in Hw'.
  destruct (VNPayService.isValid _) eqn:Hvalid; cbn [negb] in Hw'; [|subst; now left].
  unfold bind at 1, store_io at 1 in Hw'.
  destruct (io_fault w (io_count w)); cbv beta iota in Hw'; [subst; now left|].
  unfold bind at 1, gets at 1 in Hw'. cbn [db set_io_count] in Hw'.
  destruct (PaymentsService.find_by_order_number (db w) _) as [lo|] eqn:Hfound;
    [|subst; now left].
  apply find_by_order_number_some in Hfound as [Hlo Href].
  cbn [VNPayService.orderId VNPayService.validateReturn] in Href.
  cbn [VNPayService.responseCode VNPayService.validateReturn VNPayService.transactionNo] in Hw'.
  rewrite bind_ret_world in Hw'.
  unfold VNPayService.isPaymentSuccessful in Hw'. unfold settled.
  destruct (bool_decide (JsObject.get "vnp_ResponseCode" params = Some "00")); subst w'.
  - destruct (markOrderPaid_db lo (JsObject.get "vnp_TransactionNo" params)
                (set_io_count (S (io_count w)) w)) as [H|H];
      [left; exact H | right]. exists lo. repeat split; assumption.
  - destruct (markOrderPaymentFailed_db lo (set_io_count (S (io_count w)) w)) as [H|H];
      [left; exact H | right].
    exists lo. repeat split; assumption.
Qed.


Lemma constructWebhookEvent_world env payload signature w :
  (StripeService.constructWebhookEvent env payload signature w).2 = w.
Proof.
  unfold StripeService.constructWebhookEvent.
  destruct (truthy _); [|reflexivity].
  now destruct (webhooks_constructEvent _ _ _ _).
Qed.

Lemma truthy_default s : truthy s = true -> s = Some (default "" s).
Proof. destruct s as [[|c s]|]; cbn; congruence. Qed.

Lemma handlePaymentSuccess_db paymentData method w :
  db (PaymentsService.handlePaymentSuccess paymentData method w).2 = db w
  \/ exists oid o,
       metadata_order_id paymentData = Some oid
       /\ orders (db w) !! oid = Some o
       /\ db (PaymentsService.handlePaymentSuccess paymentData method w).2
          = with_orders (alter paid oid) (db w).
Proof.
  remember (PaymentsService.handlePaymentSuccess paymentData method w).2 as w' eqn:Hw'.
  unfold PaymentsService.handlePaymentSuccess in Hw'.
  destruct (truthy (metadata_order_id paymentData)) eqn:Ht; cbn [negb] in Hw';
    [|subst; now left].
  apply truthy_default in Ht. cbv zeta in Hw'.
  set (oid := default "" (metadata_order_id paymentData)) in *.
  unfold bind at 1, store_io at 1 in Hw'.
  destruct (io_fault w (io_count w)); cbv beta iota in Hw'; [subst; now left|].
  unfold bind at 1, gets at 1 in Hw'. cbn [db set_io_count] in Hw'.
  destruct (orders (db w) !! oid) as [o|] eqn:Ho; [|subst; now left].
  subst w'.
  destruct (markOrderPaid_db (OrdersService.load_order (db w) oid o)
              (Some (payment_id paymentData)) (set_io_count (S (io_count w)) w)) as [H|H];
    [left; exact H | right].
  exists oid, o. repeat split; assumption.
Qed.

Lemma handlePaymentFailed_db paymentData method w :
  db (PaymentsService.handlePaymentFailed paymentData method w).2 = db w
  \/ exists oid o,
       metadata_order_id paymentData = Some oid
       /\ orders (db w) !! oid = Some o
       /\ db (PaymentsService.handlePaymentFailed paymentData method w).2
          = with_orders (alter payment_failed oid) (db w).
Proof.
  remember (PaymentsService.handlePaymentFailed paymentData method w).2 as w' eqn:Hw'.
  unfold PaymentsService.handlePaymentFailed in Hw'.
  destruct (truthy (metadata_order_id paymentData)) eqn:Ht; cbn [negb] in Hw';
    [|subst; now left].
  apply truthy_default in Ht. cbv zeta in Hw'.
  set (oid := default "" (metadata_order_id paymentData)) in *.
  unfold bind at 1, store_io at 1 in Hw'.
  destruct (io_fault w (io_count w)); cbv beta iota in Hw'; [subst; now left|].
  unfold bind at 1, gets at 1 in Hw'. cbn [db set_io_count] in Hw'.
  destruct (orders (db w) !! oid) as [o|] eqn:Ho; [|subst; now left].
  subst w'.
  destruct (markOrderPaymentFailed_db (OrdersService.load_order (db w) oid o)
              (set_io_count (S (io_count w)) w)) as [H|H];
    [left; exact H | right].
  exists oid, o. repeat split; assumption.
Qed.

Lemma handleStripeWebhook_db env payload signature w :
  db (PaymentsService.handleStripeWebhook env payload signature w).2 = db w
  \/ exists event oid o,
       StripeService.constructWebhookEvent env payload signature w = (Ok event, w)
       /\ metadata_order_id (data_object event) = Some oid
       /\ orders (db w) !! oid = Some o
       /\ db (PaymentsService.handleStripeWebhook env payload signature w).2
          = with_orders (alter (stripe_settled (event_type event)) oid) (db w).
Proof.
  remember (PaymentsService.handleStripeWebhook env payload signature w).2 as w' eqn:Hw'.
  unfold PaymentsService.handleStripeWebhook in Hw'.
  unfold bind at 1 in Hw'.
  pose proof (constructWebhookEvent_world env payload signature w) as Hsame.
  destruct (StripeService.constructWebhookEvent env payload signature w) as [[event|e] w0] eqn:Hev;
    cbn [snd] in Hsame; subst w0; [|subst; now left].
  rewrite bind_ret_world in Hw'.
  destruct (bool_decide (event_type event = "payment_intent.succeeded")) eqn:Hs.
  - assert (Hf : stripe_settled (event_type event) = paid)
      by (unfold stripe_settled; now rewrite Hs).
    subst w'. destruct (handlePaymentSuccess_db (data_object event) "stripe" w)
      as [H | (oid & o & Hm & Ho & H)]; [left; exact H | right].
    exists event, oid, o. rewrite Hf. repeat split; assumption.
  - destruct (bool_decide (event_type event = "payment_intent.payment_failed")) eqn:Hf'.
    + assert (Hf : stripe_settled (event_type event) = payment_failed)
        by (unfold stripe_settled; now rewrite Hs, Hf').
      subst w'. destruct (handlePaymentFailed_db (data_object event) "stripe" w)
        as [H | (oid & o & Hm & Ho & H)]; [left; exact H | right].
      exists event, oid, o. rewrite Hf. repeat split; assumption.
    + subst w'. now left.
Qed.

(** X9.  Whatever the payload, the signature, the faults of the store and
    the outcome, [handleStripeWebhook] creates and deletes no order and
    leaves every other table as it was; an order that changes is the one
    named by [metadata.order_id] of the event the Stripe SDK verified, and
    the change follows the event type: paid and processing for
    payment_intent.succeeded, payment failed for
    payment_intent.payment_failed, none for any other type. *)
Theorem handleStripeWebhook_scope (env : PaymentsEnv) (payload signature : string) (w : World) :
  let w' := (PaymentsService.handleStripeWebhook env payload signature w).2 in
  unsettled_tables (db w') = unsettled_tables (db w)
  /\ forall oid,
       match orders (db w) !! oid with
       | None => orders (db w') !! oid = None
       | Some o =>
           orders (db w') !! oid = Some o
           \/ exists event,
                StripeService.constructWebhookEvent env payload signature w = (Ok event, w)
                /\ metadata_order_id (data_object event) = Some oid
                /\ orders (db w') !! oid = Some (stripe_settled (event_type event) o)
       end.
Proof.
  cbv zeta.
  destruct (handleStripeWebhook_db env payload signature w)
    as [H | (event & oid0 & o0 & Hev & Hmeta & Ho0 & H)]; rewrite H.
  - split; [reflexivity|]. intros oid. destruct (orders (db w) !! oid); [now left | reflexivity].
  - split; [reflexivity|]. intros oid. cbn [with_orders orders].
    pose proof (alter_scope (stripe_settled (event_type event)) (orders (db w)) _ _ oid Ho0) as Hs.
    destruct (orders (db w) !! oid) as [o|]; [|exact Hs].
    destruct Hs as [Hs | (-> & -> & Hs)]; [now left | right]. exists event. now repeat split.
Qed.

(** ** Refunds *)

Lemma processRefund_run w orderId amount o :
  no_faults w ->
  orders (db w) !! orderId = Some o ->
  Order.payment_status o = PAID ->
  Order.payment_method o <> "stripe" ->
  PaymentsService.processRefund orderId amount w
  = (Ok (PaymentsService.mkRefundResponse true orderId (amount_or_total amount o)),
     set_journal (journal w ++ [UpdateOrder orderId (mkPatch None (Some REFUNDED) None)])
       (set_db (with_orders (alter refunded orderId) (db w))
          (set_io_count (S (S (io_count w))) w))).
Proof.
  intros Hnf Ho Hpaid Hmethod. unfold PaymentsService.processRefund.
  eapply bind_run_to; [apply store_io_no_faults, Hnf|].
  eapply bind_run_to; [reflexivity|].
  cbn [db set_io_count]. rewrite Ho, Hpaid. cbn [PaymentStatus_eqb negb].
  rewrite bool_decide_eq_false_2 by exact Hmethod.
  eapply bind_run_to; [apply store_io_no_faults, Hnf|].
  reflexivity.
Qed.

Lemma processRefund_refused w orderId amount o :
  no_faults w ->
  orders (db w) !! orderId = Some o ->
  negb (PaymentStatus_eqb (Order.payment_status o) PAID)
  || bool_decide (Order.payment_method o = "stripe") = true ->
  PaymentsService.processRefund orderId amount w
  = (Throw (BadRequestException
              (if negb (PaymentStatus_eqb (Order.payment_status o) PAID)
               then "Order has not been paid"
               else "Stripe refund requires payment intent ID")),
     set_io_count (S (io_count w)) w).
Proof.
  intros Hnf Ho Hrefuse. unfold PaymentsService.processRefund.
  erewrite bind_run by (apply store_io_no_faults, Hnf).
  unfold bind, gets. cbn [db set_io_count]. rewrite Ho.
  destruct (negb (PaymentStatus_eqb (Order.payment_status o) PAID)); [reflexivity|].
  cbn [orb] in Hrefuse. now rewrite Hrefuse.
Qed.

(** X10.  On a store without faults, [processRefund] of a stored order
    fails with Order has not been paid unless the order's payment status is
    paid, fails with Stripe refund requires payment intent ID when the order
    was paid through Stripe, and otherwise sets the payment status to
    refunded, leaving the order status, the stock and every other table as
    they were, and reports [amount || order.total] as the refunded amount;
    a refused refund changes nothing. *)
Theorem processRefund_gate (w : World) (orderId : string) (amount : option Z) (o : Order.t) :
  no_faults w ->
  orders (db w) !! orderId = Some o ->
  let run := PaymentsService.processRefund orderId amount w in
  if negb (PaymentStatus_eqb (Order.payment_status o) PAID)
  then run.1 = Throw (BadRequestException "Order has not been paid") /\ db run.2 = db w
  else if bool_decide (Order.payment_method o = "stripe")
  then run.1 = Throw (BadRequestException "Stripe refund requires payment intent ID")
       /\ db run.2 = db w
  else run.1 = Ok (PaymentsService.mkRefundResponse true orderId (amount_or_total amount o))
       /\ orders (db run.2) = alter refunded orderId (orders (db w))
       /\ Order.payment_status (refunded o) = REFUNDED
       /\ Order.status (refunded o) = Order.status o
       /\ unsettled_tables (db run.2) = unsettled_tables (db w).
Proof.
  intros Hnf Ho. cbv zeta.
  destruct (negb (PaymentStatus_eqb (Order.payment_status o) PAID)) eqn:Hpaid.
  - rewrite (processRefund_refused w orderId amount o Hnf Ho) by now rewrite Hpaid.
    rewrite Hpaid. now split.
  - assert (Hp : Order.payment_status o = PAID)
      by (destruct (Order.payment_status o); cbn in Hpaid; congruence).
    case_bool_decide as Hm.
    + rewrite (processRefund_refused w orderId amount o Hnf Ho)
        by (rewrite Hpaid; now apply bool_decide_eq_true_2).
      rewrite Hpaid. now split.
    + rewrite (processRefund_run w orderId amount o Hnf Ho Hp Hm). now repeat split.
Qed.

Lemma processRefund_gate_witness :
  (PaymentsService.processRefund "o1" None Sample.paid_by_vnpay).1
  = Ok (PaymentsService.mkRefundResponse true "o1"
          (amount_or_total None (Sample.order1 PROCESSING PAID)))
  /\ orders (db (PaymentsService.processRefund "o1" None Sample.paid_by_vnpay).2)
     = alter refunded "o1" (orders (db Sample.paid_by_vnpay))
  /\ Order.payment_status (refunded (Sample.order1 PROCESSING PAID)) = REFUNDED
  /\ Order.status (refunded (Sample.order1 PROCESSING PAID)) = PROCESSING
  /\ unsettled_tables (db (PaymentsService.processRefund "o1" None Sample.paid_by_vnpay).2)
     = unsettled_tables (db Sample.paid_by_vnpay).
Proof.
  apply (processRefund_gate Sample.paid_by_vnpay "o1" None (Sample.order1 PROCESSING PAID)).
  - intros k. reflexivity.
  - reflexivity.
Defined.

(** X11.  After a successful refund the revenue figure of the statistics is
    lower by the order's whole total, whatever amount was asked for; a
    second [processRefund] of the same order fails with Order has not been
    paid and changes nothing, and the payment entry points reject the order
    with Order has been refunded. *)
Theorem processRefund_once (w : World) (orderId : string) (amount : option Z) (o : Order.t) :
  no_faults w ->
  orders (db w) !! orderId = Some o ->
  Order.payment_status o = PAID ->
  Order.payment_method o <> "stripe" ->
  exists r w1,
    PaymentsService.processRefund orderId amount w = (Ok r, w1)
    /\ OrdersService.paid_total (db w1) = OrdersService.paid_total (db w) - Order.total o
    /\ (PaymentsService.processRefund orderId amount w1).1
       = Throw (BadRequestException "Order has not been paid")
    /\ db (PaymentsService.processRefund orderId amount w1).2 = db w1
    /\ (PaymentsService.findOrderForPayment orderId (Order.user_id o) w1).1
       = Throw (BadRequestException "Order has been refunded").
Proof.
  intros Hnf Ho Hpaid Hmethod.
  eexists _, _. split; [apply (processRefund_run w orderId amount o Hnf Ho Hpaid Hmethod)|].
  set (w1 := set_journal _ _).
  assert (Hnf1 : no_faults w1) by exact Hnf.
  assert (Ho1 : orders (db w1) !! orderId = Some (refunded o)).
  { subst w1. cbn [db set_journal set_db with_orders orders].
    rewrite lookup_alter, decide_True by reflexivity. now rewrite Ho. }
  split.
  { subst w1. cbn [db set_journal set_db set_io_count].
    rewrite (paid_total_alter refunded _ _ o Ho).
    unfold revenue_of, refunded.
    cbn [patch_order Order.payment_status Order.total set_payment_status].
    unfold default, id. rewrite Hpaid. cbn [PaymentStatus_eqb]. lia. }
  rewrite (processRefund_refused w1 orderId amount (refunded o) Hnf1 Ho1) by reflexivity.
  split; [reflexivity|]. split; [reflexivity|].
  rewrite (findOrderForPayment_run w1 orderId (Order.user_id o) (refunded o) (Hnf1 _) Ho1 eq_refl).
  reflexivity.
Qed.

Lemma processRefund_once_witness :
  exists r w1,
    PaymentsService.processRefund "o1" (Some 500) Sample.paid_by_vnpay = (Ok r, w1)
    /\ OrdersService.paid_total (db w1) = OrdersService.paid_total (db Sample.paid_by_vnpay) - 2000
    /\ (PaymentsService.processRefund "o1" (Some 500) w1).1
       = Throw (BadRequestException "Order has not been paid")
    /\ db (PaymentsService.processRefund "o1" (Some 500) w1).2 = db w1
    /\ (PaymentsService.findOrderForPayment "o1" "u1" w1).1
       = Throw (BadRequestException "Order has been refunded").
Proof.
  apply (processRefund_once Sample.paid_by_vnpay "o1" (Some 500) (Sample.order1 PROCESSING PAID)).
  - intros k. reflexivity.
  - reflexivity.
  - reflexivity.
  - discriminate.
Defined.

(** ** Orders of other users *)

Lemma foreign_order_denied (env : PaymentsEnv) (w : World)
    (oid userId ipAddr : string) (o : Order.t) :
  io_fault w (io_count w) = false ->
  orders (db w) !! oid = Some o ->
  Order.user_id o <> userId ->
  userId <> "" ->
  OrdersService.findOne oid (Some userId) w = order_not_found w
  /\ OrdersService.cancelOrder oid userId w = order_not_found w
  /\ PaymentsService.getPaymentStatus oid userId w = order_not_found w
  /\ PaymentsService.createStripePaymentIntent env oid userId w = order_not_found w
  /\ PaymentsService.createVNPayPaymentUrl env oid userId ipAddr w = order_not_found w.
Proof.
  intros Hio Ho Hother Hne.
  assert (Hfind : OrdersService.findOne oid (Some userId) w = order_not_found w).
  { unfold OrdersService.findOne.
    erewrite bind_run by (apply store_io_ok, Hio).
    unfold bind, gets. cbn [db set_io_count]. rewrite Ho.
    destruct userId as [|c u]; [congruence|]. cbn [truthy default andb].
    now rewrite bool_decide_eq_false_2 by exact Hother. }
  assert (Hpay : PaymentsService.findOrderForPayment oid userId w = order_not_found w).
  { unfold PaymentsService.findOrderForPayment.
    erewrite bind_run by (apply store_io_ok, Hio).
    unfold bind, gets. cbn [db set_io_count]. rewrite Ho.
    now rewrite bool_decide_eq_false_2 by exact Hother. }
  split; [exact Hfind|]. split.
  { unfold OrdersService.cancelOrder. now erewrite bind_throw by exact Hfind. }
  split.
  { unfold PaymentsService.getPaymentStatus.
    erewrite bind_run by (apply store_io_ok, Hio).
    unfold bind, gets. cbn [db set_io_count]. rewrite Ho.
    now rewrite bool_decide_eq_false_2 by exact Hother. }
  split.
  - unfold PaymentsService.createStripePaymentIntent. now erewrite bind_throw by exact Hpay.
  - unfold PaymentsService.createVNPayPaymentUrl. now erewrite bind_throw by exact Hpay.
Qed.

(** The same calls on an order id that is not stored. *)
Lemma missing_order_denied (env : PaymentsEnv) (w : World) (oid userId ipAddr : string) :
  io_fault w (io_count w) = false ->
  orders (db w) !! oid = None ->
  OrdersService.findOne oid (Some userId) w = order_not_found w
  /\ OrdersService.cancelOrder oid userId w = order_not_found w
  /\ PaymentsService.getPaymentStatus oid userId w = order_not_found w
  /\ PaymentsService.createStripePaymentIntent env oid userId w = order_not_found w
  /\ PaymentsService.createVNPayPaymentUrl env oid userId ipAddr w = order_not_found w.
Proof.
  intros Hio Ho.
  assert (Hfind : OrdersService.findOne oid (Some userId) w = order_not_found w).
  { unfold OrdersService.findOne.
    erewrite bind_run by (apply store_io_ok, Hio).
    unfold bind, gets. cbn [db set_io_count]. now rewrite Ho. }
  assert (Hpay : PaymentsService.findOrderForPayment oid userId w = order_not_found w).
  { unfold PaymentsService.findOrderForPayment.
    erewrite bind_run by (apply store_io_ok, Hio).
    unfold bind, gets. cbn [db set_io_count]. now rewrite Ho. }
  split; [exact Hfind|]. split.
  { unfold OrdersService.cancelOrder. now erewrite bind_throw by exact Hfind. }
  split.
  { unfold PaymentsService.getPaymentStatus.
    erewrite bind_run by (apply store_io_ok, Hio).
    unfold bind, gets. cbn [db set_io_count]. now rewrite Ho. }
  split.
  - unfold PaymentsService.createStripePaymentIntent. now erewrite bind_throw by exact Hpay.
  - unfold PaymentsService.createVNPayPaymentUrl. now erewrite bind_throw by exact Hpay.
Qed.

(** X12.  An order that belongs to another user is answered exactly like an
    order that does not exist: [findOne] with a user id, [cancelOrder],
    [getPaymentStatus] and both payment entry points throw NotFoundException
    Order not found after one round trip and change nothing.  (The user id
    must not be empty: [findOne] drops its ownership filter for a falsy
    one.) *)
Theorem foreign_order_is_not_found (env : PaymentsEnv) (w : World) (oid userId ipAddr : string) :
  io_fault w (io_count w) = false ->
  userId <> "" ->
  match orders (db w) !! oid with
  | Some o => Order.user_id o <> userId
  | None => True
  end ->
  OrdersService.findOne oid (Some userId) w = order_not_found w
  /\ OrdersService.cancelOrder oid userId w = order_not_found w
  /\ PaymentsService.getPaymentStatus oid userId w = order_not_found w
  /\ PaymentsService.createStripePaymentIntent env oid userId w = order_not_found w
  /\ PaymentsService.createVNPayPaymentUrl env oid userId ipAddr w = order_not_found w.
Proof.
  intros Hio Hne Hother. destruct (orders (db w) !! oid) as [o|] eqn:Ho.
  - now apply (foreign_order_denied env w oid userId ipAddr o).
  - now apply missing_order_denied.
Qed.

Lemma foreign_order_is_not_found_witness :
  OrdersService.findOne "o1" (Some "u2") Sample.awaiting_payment
  = order_not_found Sample.awaiting_payment
  /\ OrdersService.cancelOrder "o1" "u2" Sample.awaiting_payment
     = order_not_found Sample.awaiting_payment
  /\ PaymentsService.getPaymentStatus "o1" "u2" Sample.awaiting_payment
     = order_not_found Sample.awaiting_payment
  /\ PaymentsService.createStripePaymentIntent Sample.env "o1" "u2" Sample.awaiting_payment
     = order_not_found Sample.awaiting_payment
  /\ PaymentsService.createVNPayPaymentUrl Sample.env "o1" "u2" "127.0.0.1"
       Sample.awaiting_payment
     = order_not_found Sample.awaiting_payment.
Proof.
  apply (foreign_order_is_not_found Sample.env Sample.awaiting_payment "o1" "u2" "127.0.0.1").
  - reflexivity.
  - discriminate.
  - vm_compute. discriminate.
Defined.

(** ** Carts *)

Lemma find_cart_cart d P c : CartService.find_cart d P = Some c -> List.find P (carts d) = Some (CartService.cart c).
Proof.
  unfold CartService.find_cart. destruct (List.find P (carts d)); [|discriminate].
  intros H. inversion H. reflexivity.
Qed.

Lemma find_cart_none d P : CartService.find_cart d P = None <-> List.find P (carts d) = None.
Proof. unfold CartService.find_cart. destruct (List.find P (carts d)); split; congruence. Qed.

Lemma store_io_throw w e w' : store_io w = (Throw e, w') -> e = QueryFailedError (io_count w).
Proof. unfold store_io. destruct (io_fault w (io_count w)); intros H; inversion H. reflexivity. Qed.

Lemma find_never {A} (l : list A) : List.find (fun _ => false) l = None.
Proof. induction l as [|x l IH]; [reflexivity | exact IH]. Qed.

Lemma cart_lookup_inv userId sessionId w r w' :
  cart_lookup userId sessionId w = (r, w') ->
  db w' = db w /\ uuid_next w' = uuid_next w /\ uuid_source w' = uuid_source w
  /\ io_fault w' = io_fault w
  /\ (forall found, r = Ok found ->
        found = CartService.find_cart (db w) (caller_cart userId sessionId))
  /\ (forall e, r = Throw e -> exists k, e = QueryFailedError k).
Proof.
  unfold cart_lookup, caller_cart.
  destruct (truthy userId); [|destruct (truthy sessionId)].
  - unfold bind, store_io, gets. destruct (io_fault w (io_count w)); intros H; inversion H; subst.
    + repeat split; [discriminate | intros e He; inversion He; eauto].
    + repeat split; [intros found Hf; now inversion Hf | discriminate].
  - unfold bind, store_io, gets. destruct (io_fault w (io_count w)); intros H; inversion H; subst.
    + repeat split; [discriminate | intros e He; inversion He; eauto].
    + repeat split; [intros found Hf; now inversion Hf | discriminate].
  - intros H. inversion H. subst. repeat split; [|discriminate].
    intros found Hf. inversion Hf. unfold CartService.find_cart. now rewrite find_never.
Qed.

Lemma getOrCreateCart_unfold userId sessionId :
  CartService.getOrCreateCart userId sessionId
  = (found <- cart_lookup userId sessionId ;;
     match found with
     | Some c => ret c
     | None =>
         new_id <- uuidv4 ;;
         let newCart := Cart.mk new_id userId (if truthy userId then None else sessionId) in
         store_io ;;;
         execute (InsertCart newCart) ;;;
         ret (CartService.mkLoaded newCart [])
     end).
Proof. reflexivity. Qed.

Lemma getOrCreateCart_ok userId sessionId w c w1 :
  CartService.getOrCreateCart userId sessionId w = (Ok c, w1) ->
  io_fault w1 = io_fault w /\ uuid_source w1 = uuid_source w
  /\ ((CartService.find_cart (db w) (caller_cart userId sessionId) = Some c
       /\ db w1 = db w /\ uuid_next w1 = uuid_next w)
      \/ (CartService.find_cart (db w) (caller_cart userId sessionId) = None
          /\ c = CartService.mkLoaded (new_cart userId sessionId w) []
          /\ db w1 = apply_stmt (InsertCart (new_cart userId sessionId w)) (db w)
          /\ uuid_next w1 = S (uuid_next w))).
Proof.
  rewrite getOrCreateCart_unfold. intros H.
  apply bind_ok_inv in H as (found & w0 & Hlook & H).
  apply cart_lookup_inv in Hlook as (Hdb & Hun & Hus & Hif & Hfound & _).
  specialize (Hfound found eq_refl). subst found.
  destruct (CartService.find_cart (db w) (caller_cart userId sessionId)) as [c0|] eqn:Hfind.
  - inversion H. subst. repeat split; try assumption. left. now repeat split.
  - apply bind_ok_inv in H as (new_id & wa & Hu & H).
    unfold uuidv4 in Hu. inversion Hu. subst new_id wa. clear Hu.
    apply bind_ok_inv in H as ([] & wb & Hio & H). apply store_io_inv in Hio. subst wb.
    unfold bind, execute, modify, ret in H. inversion H. subst. clear H.
    cbn [io_fault uuid_source db uuid_next set_db set_journal set_io_count set_uuid_next].
    repeat split; try assumption. right. unfold new_cart. rewrite Hun, Hus, Hdb.
    now repeat split.
Qed.

Lemma getOrCreateCart_throw userId sessionId w e w1 :
  CartService.getOrCreateCart userId sessionId w = (Throw e, w1) ->
  (exists k, e = QueryFailedError k) /\ db w1 = db w.
Proof.
  rewrite getOrCreateCart_unfold. intros H.
  apply bind_throw_inv in H as [H | (found & w0 & Hlook & H)].
  - apply cart_lookup_inv in H as (Hdb & _ & _ & _ & _ & He). split; [now apply He | exact Hdb].
  - apply cart_lookup_inv in Hlook as (Hdb & _).
    destruct found as [c0|]; [discriminate|].
    apply bind_throw_inv in H as [H | (new_id & wa & Hu & H)]; [discriminate|].
    unfold uuidv4 in Hu. inversion Hu. subst new_id wa. clear Hu.
    apply bind_throw_inv in H as [H | ([] & wb & Hio & H)].
    + pose proof (store_io_throw _ _ _ H) as He. apply store_io_inv in H. subst.
      split; [eauto | exact Hdb].
    + unfold bind, execute, modify, ret in H. discriminate.
Qed.

Lemma find_app_new {A} (P : A -> bool) l x :
  List.find P l = None -> P x = true -> List.find P (l ++ [x]) = Some x.
Proof.
  induction l as [|y l IH]; cbn; intros Hnone Hx.
  - now rewrite Hx.
  - destruct (P y); [discriminate | now apply IH].
Qed.

Lemma caller_cart_new userId sessionId w :
  truthy userId || truthy sessionId = true ->
  caller_cart userId sessionId (new_cart userId sessionId w) = true.
Proof.
  unfold caller_cart, new_cart. cbn [Cart.user_id Cart.session_id].
  destruct userId as [[|c u]|]; cbn [truthy orb default]; intros H.
  - destruct sessionId as [[|c s]|]; cbn in *; try discriminate.
    now rewrite bool_decide_eq_true_2.
  - cbn. now rewrite bool_decide_eq_true_2.
  - destruct sessionId as [[|c s]|]; cbn in *; try discriminate.
    now rewrite bool_decide_eq_true_2.
Qed.

(** Once [getOrCreateCart] has answered, it answers with the same cart as
    long as the carts table is as it left it. *)
Lemma getOrCreateCart_again userId sessionId w c w1 w2 r w3 :
  CartService.getOrCreateCart userId sessionId w = (Ok c, w1) ->
  truthy userId || truthy sessionId = true ->
  carts (db w2) = carts (db w1) ->
  CartService.getOrCreateCart userId sessionId w2 = (r, w3) ->
  db w3 = db w2
  /\ forall c2, r = Ok c2 ->
       CartService.cart c2 = CartService.cart c
       /\ CartService.items c2 = CartService.load_items (db w2) (Cart.id (CartService.cart c)).
Proof.
  intros Hfirst Htruthy Hcarts Hsecond.
  assert (Hfind : List.find (caller_cart userId sessionId) (carts (db w2))
                  = Some (CartService.cart c)).
  { rewrite Hcarts.
    apply getOrCreateCart_ok in Hfirst as (_ & _ & [(Hf & Hdb & _) | (Hf & -> & Hdb & _)]).
    - rewrite Hdb. now apply find_cart_cart.
    - rewrite Hdb. cbn [apply_stmt carts CartService.cart].
      apply find_app_new; [now apply find_cart_none | now apply caller_cart_new]. }
  destruct r as [c2|e].
  - apply getOrCreateCart_ok in Hsecond as (_ & _ & [(Hf & Hdb & _) | (Hf & _)]).
    + split; [exact Hdb|]. intros c2' Heq. inversion Heq. subst c2'.
      unfold CartService.find_cart in Hf. rewrite Hfind in Hf. inversion Hf. now split.
    + apply find_cart_none in Hf. congruence.
  - apply getOrCreateCart_throw in Hsecond as [_ Hdb]. split; [exact Hdb | discriminate].
Qed.

Lemma getCart_inv userId sessionId w r w' :
  CartService.getCart userId sessionId w = (r, w') ->
  exists rc, CartService.getOrCreateCart userId sessionId w = (rc, w')
             /\ match rc with
                | Ok c => r = Ok (CartService.formatCartResponse c)
                | Throw e => r = Throw e
                end.
Proof.
  unfold CartService.getCart, bind.
  destruct (CartService.getOrCreateCart userId sessionId w) as [[c|e] w1];
    intros H; inversion H; subst; eexists; split; reflexivity.
Qed.

Lemma getOrCreateCart_found userId sessionId w c0 :
  io_fault w (io_count w) = false ->
  truthy userId || truthy sessionId = true ->
  List.find (caller_cart userId sessionId) (carts (db w)) = Some c0 ->
  CartService.getOrCreateCart userId sessionId w
  = (Ok (CartService.mkLoaded c0 (CartService.load_items (db w) (Cart.id c0))),
     set_io_count (S (io_count w)) w).
Proof.
  intros Hio Htruthy Hfind. unfold CartService.getOrCreateCart.
  unfold caller_cart in Hfind.
  destruct (truthy userId); [|destruct (truthy sessionId); [|discriminate]].
  - eapply bind_run_to.
    + eapply bind_run_to; [apply store_io_ok, Hio | reflexivity].
    + cbn [db set_io_count]. unfold CartService.find_cart. now rewrite Hfind.
  - eapply bind_run_to.
    + eapply bind_run_to; [apply store_io_ok, Hio | reflexivity].
    + cbn [db set_io_count]. unfold CartService.find_cart. now rewrite Hfind.
Qed.

(** X18.  For a caller with a user id or a session id, the cart row that
    [getOrCreateCart] returned, found or just created, is the one its next
    call returns, without inserting anything: one cart per caller. *)
Theorem getOrCreateCart_finds_its_cart (userId sessionId : option string)
    (w : World) (c : CartService.LoadedCart) (w1 : World) :
  CartService.getOrCreateCart userId sessionId w = (Ok c, w1) ->
  truthy userId || truthy sessionId = true ->
  io_fault w1 (io_count w1) = false ->
  CartService.getOrCreateCart userId sessionId w1
  = (Ok (CartService.mkLoaded (CartService.cart c)
           (CartService.load_items (db w1) (Cart.id (CartService.cart c)))),
     set_io_count (S (io_count w1)) w1).
Proof.
  intros Hfirst Htruthy Hio.
  apply getOrCreateCart_found; [exact Hio | exact Htruthy |].
  apply getOrCreateCart_ok in Hfirst as (_ & _ & [(Hf & Hdb & _) | (Hf & -> & Hdb & _)]).
  - rewrite Hdb. now apply find_cart_cart.
  - rewrite Hdb. cbn [apply_stmt carts CartService.cart].
    apply find_app_new; [now apply find_cart_none | now apply caller_cart_new].
Qed.

Lemma getOrCreateCart_finds_its_cart_witness :
  CartService.getOrCreateCart (Some "u1") None
    (CartService.getOrCreateCart (Some "u1") None (Sample.world Sample.basket Sample.reliable)).2
  = (Ok (CartService.mkLoaded (CartService.cart Sample.anns_cart)
           (CartService.load_items
              (db (CartService.getOrCreateCart (Some "u1") None
                     (Sample.world Sample.basket Sample.reliable)).2)
              (Cart.id (CartService.cart Sample.anns_cart)))),
     set_io_count
       (S (io_count (CartService.getOrCreateCart (Some "u1") None
                       (Sample.world Sample.basket Sample.reliable)).2))
       (CartService.getOrCreateCart (Some "u1") None
          (Sample.world Sample.basket Sample.reliable)).2).
Proof.
  apply (getOrCreateCart_finds_its_cart (Some "u1") None
           (Sample.world Sample.basket Sample.reliable) Sample.anns_cart).
  - vm_compute. reflexivity.
  - reflexivity.
  - reflexivity.
Defined.

(** X19.  For a caller with neither user id nor session id,
    [getOrCreateCart] makes no lookup and inserts a new cart row on every
    call. *)
Theorem getOrCreateCart_anonymous (userId sessionId : option string) (w : World) :
  truthy userId = false ->
  truthy sessionId = false ->
  io_fault w (io_count w) = false ->
  exists w',
    CartService.getOrCreateCart userId sessionId w
    = (Ok (CartService.mkLoaded (new_cart userId sessionId w) []), w')
    /\ carts (db w') = carts (db w) ++ [new_cart userId sessionId w]
    /\ cart_items (db w') = cart_items (db w)
    /\ uuid_next w' = S (uuid_next w).
Proof.
  intros Hu Hs Hio. unfold CartService.getOrCreateCart. rewrite Hu, Hs.
  eexists. split.
  - eapply bind_run_to; [reflexivity|].
    eapply bind_run_to; [reflexivity|].
    eapply bind_run_to; [apply store_io_ok; exact Hio|].
    unfold new_cart. rewrite Hu. reflexivity.
  - unfold new_cart. rewrite Hu. repeat split; reflexivity.
Qed.

Lemma getOrCreateCart_anonymous_witness :
  exists w',
    CartService.getOrCreateCart None None (Sample.world Sample.basket Sample.reliable)
    = (Ok (CartService.mkLoaded
             (new_cart None None (Sample.world Sample.basket Sample.reliable)) []), w')
    /\ carts (db w')
       = carts (db (Sample.world Sample.basket Sample.reliable))
         ++ [new_cart None None (Sample.world Sample.basket Sample.reliable)]
    /\ cart_items (db w') = cart_items (db (Sample.world Sample.basket Sample.reliable))
    /\ uuid_next w' = S (uuid_next (Sample.world Sample.basket Sample.reliable)).
Proof.
  apply (getOrCreateCart_anonymous None None (Sample.world Sample.basket Sample.reliable));
    reflexivity.
Defined.

(** Two anonymous calls of [getCart] on a store with one cart leave three. *)
Example anonymous_carts_pile_up :
  length (carts (db (CartService.getCart None None
                       (CartService.getCart None None
                          (Sample.world Sample.basket Sample.reliable)).2).2)) = 3%nat.
Proof. vm_compute. reflexivity. Qed.

(** *** addItem *)

Lemma find_line_rows d d' cid pid :
  cart_items d' = cart_items d -> CartService.find_line d' cid pid = CartService.find_line d cid pid.
Proof. unfold CartService.find_line. now intros ->. Qed.

Lemma find_line_some d cid pid item :
  CartService.find_line d cid pid = Some item ->
  item ∈ cart_items d /\ CartItem.cart_id item = cid /\ CartItem.product_id item = pid.
Proof.
  unfold CartService.find_line. intros H. apply find_some in H as [Hin Hp].
  apply andb_true_iff in Hp as [H1 H2].
  apply bool_decide_eq_true_1 in H1. apply bool_decide_eq_true_1 in H2.
  split; [now apply list_elem_of_In | now split].
Qed.

Lemma find_line_save d cid pid item q pr :
  CartService.find_line d cid pid = Some item ->
  CartService.find_line
    (apply_cart_stmt
       (SaveCartItem (CartItem.mk (CartItem.id item) (CartItem.cart_id item)
                        (CartItem.product_id item) q pr)) d) cid pid
  = Some (CartItem.mk (CartItem.id item) (CartItem.cart_id item) (CartItem.product_id item) q pr).
Proof.
  intros Hfind. destruct (find_line_some _ _ _ _ Hfind) as (_ & Hc & Hp).
  unfold CartService.find_line in *. cbn [apply_cart_stmt with_cart_items cart_items CartItem.id].
  induction (cart_items d) as [|x rows IH]; [discriminate|].
  cbn [map List.find] in *.
  destruct (decide (CartItem.id x = CartItem.id item)) as [Hid|Hid].
  - rewrite (bool_decide_eq_true_2 (CartItem.id x = CartItem.id item)) by exact Hid.
    cbn [CartItem.cart_id CartItem.product_id].
    rewrite (bool_decide_eq_true_2 (CartItem.cart_id item = cid)) by exact Hc.
    now rewrite (bool_decide_eq_true_2 (CartItem.product_id item = pid)) by exact Hp.
  - rewrite (bool_decide_eq_false_2 (CartItem.id x = CartItem.id item)) by exact Hid.
    destruct (bool_decide (CartItem.cart_id x = cid) && bool_decide (CartItem.product_id x = pid)).
    + inversion Hfind. congruence.
    + now apply IH.
Qed.

Lemma find_line_insert d cid pid new :
  CartService.find_line d cid pid = None ->
  CartItem.cart_id new = cid -> CartItem.product_id new = pid ->
  CartService.find_line (apply_cart_stmt (InsertCartItem new) d) cid pid = Some new.
Proof.
  intros Hnone Hc Hp. unfold CartService.find_line in *.
  cbn [apply_cart_stmt with_cart_items cart_items].
  apply find_app_new; [exact Hnone|]. now rewrite !bool_decide_eq_true_2.
Qed.

(** X20.  When [addItem] succeeds for a caller with a user id or a session
    id, the product is active and stored, the cart holds a line for it whose
    quantity is the quantity the cart held before (none counting as nought)
    plus [dto.quantity || 1] and is at most the product's stock, and whose
    price is the product's current price; the products are untouched. *)
Theorem addItem_within_stock (is_active : string -> bool) (userId sessionId : option string)
    (dto : CartService.AddToCartDto) (w : World) (r : CartService.CartResponse) (w' : World) :
  CartService.addItem is_active userId sessionId dto w = (Ok r, w') ->
  truthy userId || truthy sessionId = true ->
  exists p line,
    is_active (CartService.add_product_id dto) = true
    /\ products (db w) !! CartService.add_product_id dto = Some p
    /\ products (db w') = products (db w)
    /\ CartService.find_line (db w') (CartService.cart_id r) (CartService.add_product_id dto)
       = Some line
    /\ CartItem.quantity line
       = quantity_in_cart (db w) (CartService.cart_id r) (CartService.add_product_id dto)
         + CartService.quantity_or_one (CartService.add_quantity dto)
    /\ CartItem.quantity line <= Product.stock_quantity p
    /\ CartItem.price line = Product.price p.
Proof.
  unfold CartService.addItem. intros H Htruthy.
  apply bind_ok_inv in H as (c & w1 & Hcart & H). cbv zeta in H.
  apply bind_ok_inv in H as ([] & w2 & Hio & H). apply store_io_inv in Hio. subst w2.
  apply bind_ok_inv in H as (product & w2 & Hprod & H).
  unfold gets in Hprod. inversion Hprod. subst product w2. clear Hprod.
  cbn [db set_io_count] in H.
  assert (Hsame : products (db w1) = products (db w) /\ cart_items (db w1) = cart_items (db w)).
  { apply getOrCreateCart_ok in Hcart as (_ & _ & [(_ & -> & _) | (_ & _ & -> & _)]);
      now split. }
  destruct Hsame as [Hproducts Hrows].
  destruct (is_active (CartService.add_product_id dto)) eqn:Hactive; [|discriminate].
  destruct (products (db w1) !! CartService.add_product_id dto) as [p|] eqn:Hp; [|discriminate].
  destruct (Product.stock_quantity p <? _) eqn:Hstock; [discriminate|].
  apply Z.ltb_ge in Hstock.
  apply bind_ok_inv in H as ([] & w3 & Hio & H). apply store_io_inv in Hio. subst w3.
  apply bind_ok_inv in H as (cartItem & w3 & Hline & H).
  unfold gets in Hline. inversion Hline. subst cartItem w3. clear Hline.
  cbn [db set_io_count] in H.
  set (cid := Cart.id (CartService.cart c)) in *.
  set (pid := CartService.add_product_id dto) in *.
  set (q := CartService.quantity_or_one (CartService.add_quantity dto)) in *.
  assert (Hfinish : forall w5 line,
            carts (db w5) = carts (db w1) ->
            products (db w5) = products (db w1) ->
            CartService.find_line (db w5) cid pid = Some line ->
            CartItem.quantity line = quantity_in_cart (db w1) cid pid + q ->
            CartItem.quantity line <= Product.stock_quantity p ->
            CartItem.price line = Product.price p ->
            CartService.getCart userId sessionId w5 = (Ok r, w') ->
            exists p0 line0,
              true = true
              /\ products (db w) !! pid = Some p0
              /\ products (db w') = products (db w)
              /\ CartService.find_line (db w') (CartService.cart_id r) pid = Some line0
              /\ CartItem.quantity line0 = quantity_in_cart (db w) (CartService.cart_id r) pid + q
              /\ CartItem.quantity line0 <= Product.stock_quantity p0
              /\ CartItem.price line0 = Product.price p0).
  { intros w5 line Hcarts5 Hprod5 Hfind5 Hqty Hle Hprice Hget.
    apply getCart_inv in Hget as (rc & Hget & Hrc).
    destruct (getOrCreateCart_again _ _ _ _ _ _ _ _ Hcart Htruthy Hcarts5 Hget) as [Hdb' Hc2].
    destruct rc as [c2|e]; [|discriminate]. inversion Hrc. subst r. clear Hrc.
    destruct (Hc2 c2 eq_refl) as [Hsamecart _].
    cbn [CartService.cart_id CartService.formatCartResponse]. rewrite Hsamecart. fold cid.
    exists p, line. rewrite Hdb'. rewrite <- Hproducts, Hprod5.
    repeat split; try assumption.
    rewrite Hqty. unfold quantity_in_cart.
    now rewrite (find_line_rows (db w) (db w1) cid pid Hrows). }
  destruct (CartService.find_line (db w1) cid pid) as [item|] eqn:Hfind.
  - destruct (Product.stock_quantity p <? _) eqn:Hmore; [discriminate|].
    apply Z.ltb_ge in Hmore.
    apply bind_ok_inv in H as ([] & w4 & Hio & H). apply store_io_inv in Hio. subst w4.
    apply bind_ok_inv in H as ([] & w5 & Hexec & H).
    unfold cart_execute, modify in Hexec. inversion Hexec. subst w5. clear Hexec.
    match type of H with CartService.getCart _ _ ?w5 = _ => eapply (Hfinish w5) end;
      [reflexivity | reflexivity | .. | exact H].
    + cbn [db set_db set_io_count]. apply find_line_save, Hfind.
    + cbn [CartItem.quantity]. unfold quantity_in_cart. now rewrite Hfind.
    + exact Hmore.
    + reflexivity.
  - apply bind_ok_inv in H as (new_id & w4 & Hu & H).
    unfold uuidv4 in Hu. inversion Hu. subst new_id w4. clear Hu.
    apply bind_ok_inv in H as ([] & w4 & Hio & H). apply store_io_inv in Hio. subst w4.
    apply bind_ok_inv in H as ([] & w5 & Hexec & H).
    unfold cart_execute, modify in Hexec. inversion Hexec. subst w5. clear Hexec.
    match type of H with CartService.getCart _ _ ?w5 = _ => eapply (Hfinish w5) end;
      [reflexivity | reflexivity | .. | exact H].
    + cbn [db set_db set_io_count set_uuid_next]. now apply find_line_insert.
    + cbn [CartItem.quantity]. unfold quantity_in_cart. rewrite Hfind. lia.
    + exact Hstock.
    + reflexivity.
Qed.

Lemma addItem_within_stock_witness :
  exists p line,
    Sample.catalogue "A" = true
    /\ products Sample.basket !! "A" = Some p
    /\ products (db (CartService.addItem Sample.catalogue (Some "u1") None
                       (CartService.mkAddDto "A" None)
                       (Sample.world Sample.basket Sample.reliable)).2)
       = products Sample.basket
    /\ CartService.find_line
         (db (CartService.addItem Sample.catalogue (Some "u1") None
                (CartService.mkAddDto "A" None)
                (Sample.world Sample.basket Sample.reliable)).2) "c1" "A"
       = Some line
    /\ CartItem.quantity line
       = quantity_in_cart Sample.basket "c1" "A" + CartService.quantity_or_one None
    /\ CartItem.quantity line <= Product.stock_quantity p
    /\ CartItem.price line = Product.price p.
Proof.
  apply (addItem_within_stock Sample.catalogue (Some "u1") None (CartService.mkAddDto "A" None)
           (Sample.world Sample.basket Sample.reliable) Sample.three_widgets).
  - vm_compute. reflexivity.
  - reflexivity.
Defined.

Lemma getCart_throw userId sessionId w e w' :
  CartService.getCart userId sessionId w = (Throw e, w') -> exists k, e = QueryFailedError k.
Proof.
  intros H. apply getCart_inv in H as (rc & Hrun & Hrc).
  destruct rc as [c|e0]; [discriminate|]. inversion Hrc. subst e0.
  now apply getOrCreateCart_throw in Hrun as [He _].
Qed.

Lemma refusal_not_fault e : refusal e -> ~ exists k, e = QueryFailedError k.
Proof. intros Hr (k & ->). exact Hr. Qed.

Ltac not_a_fault :=
  exfalso;
  match goal with
  | Hr : refusal ?e |- _ =>
      apply (refusal_not_fault e Hr);
      first [ eassumption
            | match goal with
              | H : store_io _ = (Throw e, _) |- _ =>
                  apply store_io_throw in H; eauto
              | H : CartService.getOrCreateCart _ _ _ = (Throw e, _) |- _ =>
                  apply getOrCreateCart_throw in H as [H _]; exact H
              | H : CartService.getCart _ _ _ = (Throw e, _) |- _ =>
                  apply getCart_throw in H; exact H
              end ]
  end.

(** X21.  When [addItem] refuses with NotFoundException or
    BadRequestException, no cart line and no product has changed; it is
    NotFoundException Product not found or is not available exactly for an
    inactive or missing product, and BadRequestException for a product whose
    stock is below the quantity asked for, or below it plus the quantity of
    a line that holds the product already. *)
Theorem addItem_refusal (is_active : string -> bool) (userId sessionId : option string)
    (dto : CartService.AddToCartDto) (w : World) (e : Exception) (w' : World) :
  CartService.addItem is_active userId sessionId dto w = (Throw e, w') ->
  refusal e ->
  cart_items (db w') = cart_items (db w)
  /\ products (db w') = products (db w)
  /\ ((e = NotFoundException "Product not found or is not available"
       /\ (is_active (CartService.add_product_id dto) = false
           \/ products (db w) !! CartService.add_product_id dto = None))
      \/ exists p msg,
           e = BadRequestException msg
           /\ products (db w) !! CartService.add_product_id dto = Some p
           /\ (Product.stock_quantity p < CartService.quantity_or_one (CartService.add_quantity dto)
               \/ exists line,
                    line ∈ cart_items (db w)
                    /\ CartItem.product_id line = CartService.add_product_id dto
                    /\ Product.stock_quantity p
                       < CartItem.quantity line
                         + CartService.quantity_or_one (CartService.add_quantity dto))).
Proof.
  unfold CartService.addItem. intros H Hr.
  apply bind_throw_inv in H as [H | (c & w1 & Hcart & H)]; [not_a_fault|].
  cbv zeta in H.
  assert (Hsame : products (db w1) = products (db w) /\ cart_items (db w1) = cart_items (db w)).
  { apply getOrCreateCart_ok in Hcart as (_ & _ & [(_ & -> & _) | (_ & _ & -> & _)]);
      now split. }
  destruct Hsame as [Hproducts Hrows].
  apply bind_throw_inv in H as [H | ([] & w2 & Hio & H)]; [not_a_fault|].
  apply store_io_inv in Hio. subst w2.
  apply bind_throw_inv in H as [H | (product & w2 & Hprod & H)]; [discriminate|].
  unfold gets in Hprod. inversion Hprod. subst product w2. clear Hprod.
  cbn [db set_io_count] in H. rewrite Hproducts in H.
  set (pid := CartService.add_product_id dto) in *.
  set (q := CartService.quantity_or_one (CartService.add_quantity dto)) in *.
  destruct (is_active pid) eqn:Hactive.
  2:{ inversion H. subst. cbn [db set_io_count]. split; [exact Hrows|]. split; [exact Hproducts|]. left. auto. }
  destruct (products (db w) !! pid) as [p|] eqn:Hp.
  2:{ inversion H. subst. cbn [db set_io_count]. split; [exact Hrows|]. split; [exact Hproducts|]. left. auto. }
  destruct (Product.stock_quantity p <? q) eqn:Hstock.
  { apply Z.ltb_lt in Hstock. inversion H. subst. cbn [db set_io_count].
    split; [exact Hrows|]. split; [exact Hproducts|].
    right. eexists p, _. split; [reflexivity|]. split; [reflexivity|]. now left. }
  apply Z.ltb_ge in Hstock.
  apply bind_throw_inv in H as [H | ([] & w3 & Hio & H)]; [not_a_fault|].
  apply store_io_inv in Hio. subst w3.
  apply bind_throw_inv in H as [H | (cartItem & w3 & Hline & H)]; [discriminate|].
  unfold gets in Hline. inversion Hline. subst cartItem w3. clear Hline.
  cbn [db set_io_count] in H.
  destruct (CartService.find_line (db w1) _ pid) as [item|] eqn:Hfind.
  - destruct (Product.stock_quantity p <? _) eqn:Hmore.
    + apply Z.ltb_lt in Hmore. inversion H. subst. cbn [db set_io_count].
      split; [exact Hrows|]. split; [exact Hproducts|].
      right. eexists p, _. split; [reflexivity|]. split; [reflexivity|]. right.
      apply find_line_some in Hfind as (Hin & _ & Hpid). rewrite Hrows in Hin.
      exists item. now repeat split.
    + apply bind_throw_inv in H as [H | ([] & w4 & Hio & H)]; [not_a_fault|].
      apply bind_throw_inv in H as [H | ([] & w5 & Hexec & H)]; [discriminate|].
      not_a_fault.
  - apply bind_throw_inv in H as [H | (new_id & w4 & Hu & H)]; [discriminate|].
    apply bind_throw_inv in H as [H | ([] & w5 & Hio & H)]; [not_a_fault|].
    apply bind_throw_inv in H as [H | ([] & w6 & Hexec & H)]; [discriminate|].
    not_a_fault.
Qed.

Lemma addItem_refusal_witness :
  cart_items (db (CartService.addItem Sample.catalogue (Some "u1") None
                    (CartService.mkAddDto "A" (Some 4))
                    (Sample.world Sample.basket Sample.reliable)).2)
  = cart_items Sample.basket
  /\ products (db (CartService.addItem Sample.catalogue (Some "u1") None
                     (CartService.mkAddDto "A" (Some 4))
                     (Sample.world Sample.basket Sample.reliable)).2)
     = products Sample.basket
  /\ ((BadRequestException "Cannot add more. Only 5 available, you already have 2 in cart."
       = NotFoundException "Product not found or is not available"
       /\ (Sample.catalogue "A" = false \/ products Sample.basket !! "A" = None))
      \/ exists p msg,
           BadRequestException "Cannot add more. Only 5 available, you already have 2 in cart."
           = BadRequestException msg
           /\ products Sample.basket !! "A" = Some p
           /\ (Product.stock_quantity p < CartService.quantity_or_one (Some 4)
               \/ exists line,
                    line ∈ cart_items Sample.basket
                    /\ CartItem.product_id line = "A"
                    /\ Product.stock_quantity p
                       < CartItem.quantity line + CartService.quantity_or_one (Some 4))).
Proof.
  apply (addItem_refusal Sample.catalogue (Some "u1") None (CartService.mkAddDto "A" (Some 4))
           (Sample.world Sample.basket Sample.reliable)
           (BadRequestException "Cannot add more. Only 5 available, you already have 2 in cart.")).
  - vm_compute. reflexivity.
  - exact I.
Defined.

(** *** removeItem and clearCart *)

Lemma getOrCreateCart_owner userId sessionId w c w1 :
  CartService.getOrCreateCart userId sessionId w = (Ok c, w1) ->
  truthy userId || truthy sessionId = true ->
  CartService.cart c ∈ carts (db w1)
  /\ caller_cart userId sessionId (CartService.cart c) = true
  /\ products (db w1) = products (db w)
  /\ cart_items (db w1) = cart_items (db w).
Proof.
  intros H Htruthy.
  apply getOrCreateCart_ok in H as (_ & _ & [(Hf & Hdb & _) | (Hf & -> & Hdb & _)]); rewrite Hdb.
  - apply find_cart_cart, find_some in Hf as [Hin Hp].
    split; [now apply list_elem_of_In | now repeat split].
  - cbn [apply_stmt carts products cart_items CartService.cart].
    split; [apply elem_of_app; right; constructor|].
    split; [now apply caller_cart_new | now split].
Qed.

Lemma find_item_some d itemId cid item :
  CartService.find_item d itemId cid = Some item ->
  item ∈ cart_items d /\ CartItem.id item = itemId /\ CartItem.cart_id item = cid.
Proof.
  unfold CartService.find_item. intros H. apply find_some in H as [Hin Hp].
  apply andb_true_iff in Hp as [H1 H2].
  apply bool_decide_eq_true_1 in H1. apply bool_decide_eq_true_1 in H2.
  split; [now apply list_elem_of_In | now split].
Qed.

(** X22.  For a caller with a user id or a session id, [removeItem] never
    touches the products; when it succeeds, the lines with the given id are
    gone, every other line is as it was, the removed line belonged to the
    caller's cart and the answer lists no line with that id; a refusal is
    NotFoundException Cart item not found and leaves every line in place;
    after any other failure the lines are either untouched or changed in
    that same way. *)
Theorem removeItem_scope (userId sessionId : option string) (itemId : string)
    (w : World) (r : Outcome CartService.CartResponse) (w' : World) :
  CartService.removeItem userId sessionId itemId w = (r, w') ->
  truthy userId || truthy sessionId = true ->
  products (db w') = products (db w)
  /\ match r with
     | Ok resp =>
         removed_own_line userId sessionId itemId w w'
         /\ Forall (fun line => CartService.id line <> itemId) (CartService.response_items resp)
     | Throw e =>
         (refusal e ->
          e = NotFoundException "Cart item not found"
          /\ cart_items (db w') = cart_items (db w))
         /\ (cart_items (db w') = cart_items (db w)
             \/ removed_own_line userId sessionId itemId w w')
     end.
Proof.
  unfold CartService.removeItem, bind at 1. intros H Htruthy.
  destruct (CartService.getOrCreateCart userId sessionId w) as [[c|e] w1] eqn:Hcart.
  2:{ inversion H. subst. apply getOrCreateCart_throw in Hcart as [(k & ->) Hdb].
      rewrite Hdb. split; [reflexivity|]. split; [intros []| now left]. }
  destruct (getOrCreateCart_owner _ _ _ _ _ Hcart Htruthy) as (Hin & Hown & Hprod & Hrows).
  unfold bind at 1, store_io at 1 in H.
  destruct (io_fault w1 (io_count w1)).
  { inversion H. subst. cbn [db set_io_count]. split; [exact Hprod|].
    split; [intros [] | now left]. }
  unfold bind at 1, gets at 1 in H. cbn [db set_io_count] in H.
  destruct (CartService.find_item (db w1) itemId _) as [item|] eqn:Hfind.
  2:{ inversion H. subst. cbn [db set_io_count]. split; [exact Hprod|].
      split; [intros _; now split | now left]. }
  apply find_item_some in Hfind as (Hitem & Hid & Hcid). rewrite Hrows in Hitem.
  unfold bind at 1, store_io at 1 in H. cbn [io_fault io_count set_io_count] in H.
  destruct (io_fault w1 (S (io_count w1))).
  { inversion H. subst. cbn [db set_io_count]. split; [exact Hprod|].
    split; [intros [] | now left]. }
  unfold bind at 1, cart_execute at 1, modify at 1 in H.
  match type of H with CartService.getCart _ _ ?x = _ => set (w5 := x) in * end.
  assert (Hremoved : forall w6, db w6 = db w5 -> removed_own_line userId sessionId itemId w w6).
  { intros w6 Hdb6. unfold removed_own_line. rewrite Hdb6. subst w5.
    cbn [db set_db set_io_count apply_cart_stmt with_cart_items cart_items carts].
    rewrite Hrows, Hid. split; [reflexivity|].
    exists item, (CartService.cart c). now repeat split. }
  apply getCart_inv in H as (rc & Hget & Hrc).
  assert (Hcarts5 : carts (db w5) = carts (db w1)) by reflexivity.
  destruct (getOrCreateCart_again _ _ _ _ _ w5 _ _ Hcart Htruthy Hcarts5 Hget) as [Hdb' Hc2].
  split; [rewrite Hdb'; exact Hprod|].
  destruct rc as [c2|e]; subst r.
  - split; [now apply Hremoved|].
    destruct (Hc2 c2 eq_refl) as [_ Hitems].
    unfold CartService.formatCartResponse. cbn [CartService.response_items]. rewrite Hitems.
    apply Forall_forall. intros line Hline.
    apply list_elem_of_fmap in Hline as ([row prod] & -> & Hrow). cbn [CartService.id].
    unfold CartService.load_items in Hrow.
    apply list_elem_of_fmap in Hrow as (row' & Heq & Hrow'). inversion Heq. subst row' prod.
    apply list_elem_of_filter in Hrow' as [_ Hrow'].
    subst w5. cbn [db set_db set_io_count apply_cart_stmt with_cart_items cart_items] in Hrow'.
    apply list_elem_of_filter in Hrow' as [Hne _]. now rewrite <- Hid.
  - split; [|right; now apply Hremoved].
    intros Hr. exfalso. apply getOrCreateCart_throw in Hget as [(k & ->) _]. exact Hr.
Qed.

Lemma removeItem_scope_witness :
  products (db (CartService.removeItem (Some "u1") None "ci1"
                  (Sample.world Sample.basket Sample.reliable)).2)
  = products Sample.basket
  /\ removed_own_line (Some "u1") None "ci1" (Sample.world Sample.basket Sample.reliable)
       (CartService.removeItem (Some "u1") None "ci1"
          (Sample.world Sample.basket Sample.reliable)).2
  /\ Forall (fun line => CartService.id line <> "ci1")
       (CartService.response_items Sample.empty_cart).
Proof.
  apply (removeItem_scope (Some "u1") None "ci1" (Sample.world Sample.basket Sample.reliable)
           (Ok Sample.empty_cart)).
  - vm_compute. reflexivity.
  - reflexivity.
Defined.

Lemma filter_out_then_in {A} (P : A -> Prop) `{forall x, Decision (P x)} (l : list A) :
  filter P (filter (fun x => ~ P x) l) = [].
Proof.
  induction l as [|x l IH]; [reflexivity|].
  rewrite filter_cons. destruct (decide (~ P x)) as [Hn|Hn]; [|exact IH].
  rewrite filter_cons, decide_False by exact Hn. exact IH.
Qed.

(** X23.  For a caller with a user id or a session id, [clearCart] never
    touches the products; when it succeeds, exactly the lines of the
    caller's cart are gone and the answer is the empty cart with subtotal
    and item count nought; after a failure the lines are either untouched or
    those of the caller's cart are gone. *)
Theorem clearCart_scope (userId sessionId : option string)
    (w : World) (r : Outcome CartService.CartResponse) (w' : World) :
  CartService.clearCart userId sessionId w = (r, w') ->
  truthy userId || truthy sessionId = true ->
  products (db w') = products (db w)
  /\ match r with
     | Ok resp =>
         cleared_own_cart userId sessionId (CartService.cart_id resp) w w'
         /\ CartService.response_items resp = []
         /\ CartService.subtotal resp = 0
         /\ CartService.itemCount resp = 0
     | Throw e =>
         cart_items (db w') = cart_items (db w)
         \/ exists cid, cleared_own_cart userId sessionId cid w w'
     end.
Proof.
  unfold CartService.clearCart, bind at 1. intros H Htruthy.
  destruct (CartService.getOrCreateCart userId sessionId w) as [[c|e] w1] eqn:Hcart.
  2:{ inversion H. subst. apply getOrCreateCart_throw in Hcart as [_ Hdb].
      rewrite Hdb. split; [reflexivity | now left]. }
  destruct (getOrCreateCart_owner _ _ _ _ _ Hcart Htruthy) as (Hin & Hown & Hprod & Hrows).
  unfold bind at 1, store_io at 1 in H.
  destruct (io_fault w1 (io_count w1)).
  { inversion H. subst. cbn [db set_io_count]. split; [exact Hprod | now left]. }
  unfold bind at 1, execute at 1, modify at 1 in H.
  match type of H with CartService.getCart _ _ ?x = _ => set (w5 := x) in * end.
  assert (Hcarts5 : carts (db w5) = carts (db w1)) by reflexivity.
  assert (Hcleared : forall w6, db w6 = db w5 ->
            cleared_own_cart userId sessionId (Cart.id (CartService.cart c)) w w6).
  { intros w6 Hdb6. unfold cleared_own_cart. rewrite Hdb6. subst w5.
    cbn [db set_db set_journal set_io_count apply_stmt cart_items carts].
    rewrite Hrows. split; [reflexivity|]. exists (CartService.cart c). now repeat split. }
  apply getCart_inv in H as (rc & Hget & Hrc).
  destruct (getOrCreateCart_again _ _ _ _ _ w5 _ _ Hcart Htruthy Hcarts5 Hget) as [Hdb' Hc2].
  split; [rewrite Hdb'; exact Hprod|].
  destruct rc as [c2|e]; subst r.
  - destruct (Hc2 c2 eq_refl) as [Hsame Hitems].
    assert (Hempty : CartService.items c2 = []).
    { rewrite Hitems. unfold CartService.load_items. subst w5.
      cbn [db set_db set_journal set_io_count apply_stmt cart_items].
      now rewrite (filter_out_then_in (fun i => CartItem.cart_id i = Cart.id (CartService.cart c))). }
    unfold CartService.formatCartResponse.
    cbn [CartService.cart_id CartService.response_items CartService.subtotal CartService.itemCount].
    rewrite Hempty, Hsame. split; [now apply Hcleared | now repeat split].
  - right. eexists. now apply Hcleared.
Qed.

Lemma clearCart_scope_witness :
  products (db (CartService.clearCart (Some "u1") None
                  (Sample.world Sample.basket Sample.reliable)).2)
  = products Sample.basket
  /\ cleared_own_cart (Some "u1") None (CartService.cart_id Sample.empty_cart)
       (Sample.world Sample.basket Sample.reliable)
       (CartService.clearCart (Some "u1") None (Sample.world Sample.basket Sample.reliable)).2
  /\ CartService.response_items Sample.empty_cart = []
  /\ CartService.subtotal Sample.empty_cart = 0
  /\ CartService.itemCount Sample.empty_cart = 0.
Proof.
  apply (clearCart_scope (Some "u1") None (Sample.world Sample.basket Sample.reliable)
           (Ok Sample.empty_cart)).
  - vm_compute. reflexivity.
  - reflexivity.
Defined.

(** *** mergeCart *)

Lemma key_unique {A K} (f : A -> K) (l : list A) a b :
  NoDup (map f l) -> a ∈ l -> b ∈ l -> f a = f b -> a = b.
Proof.
  induction l as [|x l IH]; intros Hnd Ha Hb Hf; [inversion Ha|].
  cbn in Hnd. apply NoDup_cons in Hnd as [Hx Hnd].
  apply elem_of_cons in Ha as [-> | Ha]; apply elem_of_cons in Hb as [-> | Hb].
  - reflexivity.
  - exfalso. apply Hx. rewrite Hf. apply list_elem_of_fmap. now exists b.
  - exfalso. apply Hx. rewrite <- Hf. apply list_elem_of_fmap. now exists a.
  - now apply IH.
Qed.

Lemma find_map_agree {A} (P : A -> bool) (f : A -> A) (l : list A) :
  (forall x, x ∈ l -> P (f x) = P x /\ (P x = true -> f x = x)) ->
  List.find P (map f l) = List.find P l.
Proof.
  induction l as [|x l IH]; intros H; [reflexivity|]. cbn.
  destruct (H x ltac:(constructor)) as [HP Hf]. rewrite HP.
  destruct (P x) eqn:E; [now rewrite Hf|].
  apply IH. intros y Hy. apply H. now constructor.
Qed.

Lemma filter_map_agree {A} (Q : A -> Prop) `{forall x, Decision (Q x)} (f : A -> A) (l : list A) :
  (forall x, x ∈ l -> (Q (f x) <-> Q x) /\ (Q x -> f x = x)) ->
  filter Q (map f l) = filter Q l.
Proof.
  induction l as [|x l IH]; intros Hf; [reflexivity|]. cbn [map].
  destruct (Hf x ltac:(constructor)) as [HQ Hfx]. rewrite !filter_cons.
  destruct (decide (Q x)) as [Hx|Hx].
  - rewrite decide_True by now apply HQ. rewrite (Hfx Hx). f_equal.
    apply IH. intros y Hy. apply Hf. now constructor.
  - rewrite decide_False by (intros HQf; now apply Hx, HQ).
    apply IH. intros y Hy. apply Hf. now constructor.
Qed.

(** What saving the line found for (cart, product) does to the table. *)
Section Save.

Variables (d : Db) (cid pid : string) (e : CartItem.t) (q pr : Z).
Hypothesis Hids : NoDup (map CartItem.id (cart_items d)).
Hypothesis Hfind : CartService.find_line d cid pid = Some e.

Let e' : CartItem.t :=
  CartItem.mk (CartItem.id e) (CartItem.cart_id e) (CartItem.product_id e) q pr.
Let d' : Db := apply_cart_stmt (SaveCartItem e') d.

Lemma save_pointwise row :
  row ∈ cart_items d ->
  (if bool_decide (CartItem.id row = CartItem.id e') then e' else row)
  = if bool_decide (row = e) then e' else row.
Proof.
  intros Hrow. destruct (find_line_some _ _ _ _ Hfind) as (He & _ & _).
  cbn [CartItem.id e'].
  destruct (decide (row = e)) as [->|Hne].
  - now rewrite !bool_decide_eq_true_2.
  - rewrite (bool_decide_eq_false_2 (row = e)) by exact Hne.
    rewrite bool_decide_eq_false_2; [reflexivity|].
    intros Hid. apply Hne. now apply (key_unique CartItem.id (cart_items d)).
Qed.

Lemma save_ids : map CartItem.id (cart_items d') = map CartItem.id (cart_items d).
Proof.
  subst d'. cbn [apply_cart_stmt with_cart_items cart_items]. rewrite map_map.
  apply map_ext. intros row. cbn [CartItem.id e']. now case_bool_decide.
Qed.

Lemma save_find_other cid' pid' :
  (cid', pid') <> (cid, pid) ->
  CartService.find_line d' cid' pid' = CartService.find_line d cid' pid'.
Proof.
  intros Hne. destruct (find_line_some _ _ _ _ Hfind) as (He & Hc & Hp).
  unfold CartService.find_line. subst d'. cbn [apply_cart_stmt with_cart_items cart_items].
  apply find_map_agree. intros row Hrow. rewrite (save_pointwise row Hrow).
  destruct (decide (row = e)) as [->|Hrow_ne].
  - rewrite (bool_decide_eq_true_2 (e = e)) by reflexivity.
    cbn [CartItem.cart_id CartItem.product_id e'].
    rewrite Hc, Hp.
    assert (Hfalse : bool_decide (cid = cid') && bool_decide (pid = pid') = false).
    { apply andb_false_iff. destruct (decide (cid = cid')) as [->|]; [right | left];
        apply bool_decide_eq_false_2; congruence. }
    rewrite Hfalse. split; [reflexivity | discriminate].
  - rewrite (bool_decide_eq_false_2 (row = e)) by exact Hrow_ne. now split.
Qed.

Lemma save_other_carts :
  filter (fun row => CartItem.cart_id row <> cid) (cart_items d')
  = filter (fun row => CartItem.cart_id row <> cid) (cart_items d).
Proof.
  destruct (find_line_some _ _ _ _ Hfind) as (He & Hc & Hp).
  subst d'. cbn [apply_cart_stmt with_cart_items cart_items].
  apply filter_map_agree. intros row Hrow. rewrite (save_pointwise row Hrow).
  destruct (decide (row = e)) as [->|Hrow_ne].
  - rewrite (bool_decide_eq_true_2 (e = e)) by reflexivity. cbn [CartItem.cart_id e'].
    split; [tauto|].
    intros Hn. now contradiction Hn.
  - rewrite (bool_decide_eq_false_2 (row = e)) by exact Hrow_ne. now split.
Qed.

End Save.

Lemma insert_find_other d new cid' pid' :
  (cid', pid') <> (CartItem.cart_id new, CartItem.product_id new) ->
  CartService.find_line (apply_cart_stmt (InsertCartItem new) d) cid' pid'
  = CartService.find_line d cid' pid'.
Proof.
  intros Hne. unfold CartService.find_line. cbn [apply_cart_stmt with_cart_items cart_items].
  induction (cart_items d) as [|x rows IH]; cbn.
  - assert (Hfalse : bool_decide (CartItem.cart_id new = cid')
                     && bool_decide (CartItem.product_id new = pid') = false).
    { apply andb_false_iff.
      destruct (decide (CartItem.cart_id new = cid')) as [<-|]; [right | left];
        apply bool_decide_eq_false_2; congruence. }
    now rewrite Hfalse.
  - destruct (_ && _); [reflexivity | exact IH].
Qed.

Lemma insert_other_carts d new :
  filter (fun row => CartItem.cart_id row <> CartItem.cart_id new)
         (cart_items (apply_cart_stmt (InsertCartItem new) d))
  = filter (fun row => CartItem.cart_id row <> CartItem.cart_id new) (cart_items d).
Proof.
  cbn [apply_cart_stmt with_cart_items cart_items]. rewrite filter_app.
  rewrite (filter_cons _ new), decide_False by (intros H; now apply H).
  now rewrite filter_nil, app_nil_r.
Qed.

Lemma guest_line_cons g prod rest pid :
  guest_line ((g, prod) :: rest) pid
  = if bool_decide (CartItem.product_id g = pid) then Some g else guest_line rest pid.
Proof. unfold guest_line. cbn. now case_bool_decide. Qed.

Lemma guest_line_absent guestItems pid :
  pid ∉ map (fun gi : CartItem.t * option Product.t => CartItem.product_id gi.1) guestItems ->
  guest_line guestItems pid = None.
Proof.
  induction guestItems as [|[g prod] rest IH]; intros Hn; [reflexivity|].
  rewrite guest_line_cons. cbn in Hn. apply not_elem_of_cons in Hn as [Hne Hn].
  rewrite bool_decide_eq_false_2 by congruence. now apply IH.
Qed.

Lemma merged_line_same d d' ucid g new_id :
  CartService.find_line d' ucid (CartItem.product_id g)
  = CartService.find_line d ucid (CartItem.product_id g) ->
  products d' = products d ->
  merged_line d' ucid g new_id = merged_line d ucid g new_id.
Proof. unfold merged_line. now intros -> ->. Qed.

(** The loop of [mergeCart], on a store without faults. *)
Lemma merge_items_run ucid guestItems : forall w,
  no_faults w ->
  line_ids_ok w ->
  NoDup (map (fun gi : CartItem.t * option Product.t => CartItem.product_id gi.1) guestItems) ->
  exists w',
    CartService.merge_items ucid guestItems w = (Ok tt, w')
    /\ no_faults w'
    /\ line_ids_ok w'
    /\ products (db w') = products (db w)
    /\ carts (db w') = carts (db w)
    /\ filter (fun row => CartItem.cart_id row <> ucid) (cart_items (db w'))
       = filter (fun row => CartItem.cart_id row <> ucid) (cart_items (db w))
    /\ forall pid,
         match guest_line guestItems pid with
         | Some g =>
             exists new_id,
               CartService.find_line (db w') ucid pid = Some (merged_line (db w) ucid g new_id)
         | None => CartService.find_line (db w') ucid pid = CartService.find_line (db w) ucid pid
         end.
Proof.
  induction guestItems as [|[g prod] rest IH]; intros w Hnf Hok Hnd.
  - exists w. cbn [CartService.merge_items].
    split; [reflexivity|]. split; [exact Hnf|]. split; [exact Hok|].
    split; [reflexivity|]. split; [reflexivity|]. split; [reflexivity|].
    intros pid. reflexivity.
  - cbn [map fst] in Hnd. apply NoDup_cons in Hnd as [Hfresh_pid Hnd].
    destruct Hok as (Hids & Hnew & Hinj).
    cbn [CartService.merge_items].
    (* the world after the head line, and what it did *)
    assert (Hstep : exists w1 new_id,
               (forall k : Async unit,
                  (store_io ;;;
                   existingItem <- gets (fun w => CartService.find_line (db w) ucid (CartItem.product_id g)) ;;
                   match existingItem with
                   | Some existing =>
                       store_io ;;;
                       product <- gets (fun w => products (db w) !! CartItem.product_id g) ;;
                       store_io ;;;
                       cart_execute
                         (SaveCartItem
                            (CartItem.mk (CartItem.id existing) (CartItem.cart_id existing)
                               (CartItem.product_id existing)
                               (Z.min (CartItem.quantity existing + CartItem.quantity g)
                                      (CartService.maxQty product))
                               (CartItem.price g)))
                   | None =>
                       new_id <- uuidv4 ;;
                       store_io ;;;
                       cart_execute
                         (InsertCartItem
                            (CartItem.mk new_id ucid (CartItem.product_id g)
                               (CartItem.quantity g) (CartItem.price g)))
                   end ;;; k) w = k w1)
               /\ no_faults w1 /\ line_ids_ok w1
               /\ products (db w1) = products (db w)
               /\ carts (db w1) = carts (db w)
               /\ filter (fun row => CartItem.cart_id row <> ucid) (cart_items (db w1))
                  = filter (fun row => CartItem.cart_id row <> ucid) (cart_items (db w))
               /\ CartService.find_line (db w1) ucid (CartItem.product_id g)
                  = Some (merged_line (db w) ucid g new_id)
               /\ forall pid, pid <> CartItem.product_id g ->
                    CartService.find_line (db w1) ucid pid = CartService.find_line (db w) ucid pid).
    { unfold merged_line.
      destruct (CartService.find_line (db w) ucid (CartItem.product_id g)) as [e|] eqn:Hfind.
      - destruct (find_line_some _ _ _ _ Hfind) as (He & Hc & Hp).
        eexists _, "". split.
        { intros k.
          eapply bind_run_to; [apply store_io_no_faults, Hnf|].
          eapply bind_run_to; [reflexivity|].
          cbn [db set_io_count]. rewrite Hfind.
          eapply bind_run_to; [|reflexivity].
          eapply bind_run_to; [apply store_io_no_faults, Hnf|].
          eapply bind_run_to; [reflexivity|].
          eapply bind_run_to; [apply store_io_no_faults, Hnf|].
          reflexivity. }
        cbn [db set_db set_io_count io_fault uuid_next uuid_source].
        split; [exact Hnf|]. split.
        { unfold line_ids_ok. cbn [db set_db set_io_count uuid_next uuid_source].
          rewrite (save_ids (db w)). now repeat split. }
        split; [reflexivity|]. split; [reflexivity|]. split.
        { rewrite <- Hc. apply (save_other_carts (db w) _ (CartItem.product_id g) e); [exact Hids|].
          now rewrite Hc. }
        split; [now apply find_line_save|].
        intros pid Hpid. apply (save_find_other (db w) ucid (CartItem.product_id g) e);
          [exact Hids | exact Hfind | congruence].
      - eexists _, (uuid_source w (uuid_next w)). split.
        { intros k.
          eapply bind_run_to; [apply store_io_no_faults, Hnf|].
          eapply bind_run_to; [reflexivity|].
          cbn [db set_io_count]. rewrite Hfind.
          eapply bind_run_to; [|reflexivity].
          eapply bind_run_to; [reflexivity|].
          eapply bind_run_to; [apply store_io_no_faults, Hnf|].
          reflexivity. }
        cbn [db set_db set_io_count set_uuid_next io_fault uuid_next uuid_source].
        split; [exact Hnf|]. split.
        { unfold line_ids_ok.
          cbn [db set_db set_io_count set_uuid_next uuid_next uuid_source apply_cart_stmt
               with_cart_items cart_items].
          rewrite map_app. cbn [map CartItem.id]. split; [|split].
          - rewrite <- (Permutation_cons_append _ _). apply NoDup_cons. split; [|exact Hids].
            now apply Hnew.
          - intros n Hn. rewrite elem_of_app, list_elem_of_singleton.
            intros [Hin | Heq]; [now apply (Hnew n ltac:(lia)) |].
            apply Hinj in Heq; lia.
          - intros n m Hn Hm. apply Hinj; lia. }
        split; [reflexivity|]. split; [reflexivity|]. split.
        { apply (insert_other_carts (db w)
                   (CartItem.mk _ ucid (CartItem.product_id g) (CartItem.quantity g)
                      (CartItem.price g))). }
        split; [now apply find_line_insert|].
        intros pid Hpid. apply insert_find_other. cbn. congruence. }
    destruct Hstep as (w1 & new_id & Hrun1 & Hnf1 & Hok1 & Hprod1 & Hcarts1 & Hother1 & Hhead & Hrest).
    destruct (IH w1 Hnf1 Hok1 Hnd) as (w' & Hrun & Hnf' & Hok' & Hprod & Hcarts & Hother & Hspec).
    exists w'. split.
    { rewrite Hrun1. exact Hrun. }
    split; [exact Hnf'|]. split; [exact Hok'|].
    split; [congruence|]. split; [congruence|]. split; [congruence|].
    intros pid. rewrite guest_line_cons. specialize (Hspec pid).
    destruct (decide (CartItem.product_id g = pid)) as [<-|Hpid].
    + rewrite bool_decide_eq_true_2 by reflexivity.
      rewrite (guest_line_absent rest _ Hfresh_pid) in Hspec.
      exists new_id. now rewrite Hspec.
    + rewrite bool_decide_eq_false_2 by exact Hpid.
      destruct (guest_line rest pid) as [g'|] eqn:Hg'.
      * destruct Hspec as (new_id' & Hspec). exists new_id'. rewrite Hspec. f_equal.
        apply merged_line_same; [|exact Hprod1].
        assert (Hg'pid : CartItem.product_id g' = pid).
        { clear - Hg'. unfold guest_line in Hg'.
          destruct (List.find _ rest) as [[x y]|] eqn:Hf; [|discriminate].
          apply find_some in Hf as [_ Hp]. apply bool_decide_eq_true_1 in Hp.
          cbn in Hg'. inversion Hg'. now subst. }
        rewrite Hg'pid. apply Hrest. congruence.
      * rewrite Hspec. apply Hrest. congruence.
Qed.

Lemma find_filter_keeps {A} (P : A -> bool) (Q : A -> Prop) `{forall x, Decision (Q x)}
      (l : list A) x :
  List.find P l = Some x -> Q x -> List.find P (filter Q l) = Some x.
Proof.
  induction l as [|y l IH]; cbn [List.find]; intros Hfind Hq; [discriminate|].
  rewrite filter_cons. destruct (P y) eqn:Hp.
  - inversion Hfind. subst y. rewrite decide_True by exact Hq. cbn [List.find]. now rewrite Hp.
  - destruct (decide (Q y)); [cbn [List.find]; rewrite Hp|]; now apply IH.
Qed.

Lemma find_filter_implied {A} (P : A -> bool) (Q : A -> Prop) `{forall x, Decision (Q x)}
      (l : list A) :
  (forall x, P x = true -> Q x) -> List.find P (filter Q l) = List.find P l.
Proof.
  intros Himp. induction l as [|y l IH]; [reflexivity|].
  rewrite filter_cons. cbn [List.find]. destruct (P y) eqn:Hp.
  - rewrite decide_True by now apply Himp. cbn [List.find]. now rewrite Hp.
  - destruct (decide (Q y)); [cbn [List.find]; rewrite Hp|]; exact IH.
Qed.

Lemma getOrCreateCart_user_run userId w :
  no_faults w -> truthy userId = true ->
  exists c w1, CartService.getOrCreateCart userId None w = (Ok c, w1) /\ no_faults w1.
Proof.
  intros Hnf Htruthy.
  assert (Hrun : exists c w1, CartService.getOrCreateCart userId None w = (Ok c, w1)).
  { rewrite getOrCreateCart_unfold. unfold cart_lookup. rewrite Htruthy.
    destruct (CartService.find_cart (db w)
                (fun c => CartService.owned_by (default "" userId) (Cart.user_id c)))
      as [c0|] eqn:Hfind.
    - eexists _, _. eapply bind_run_to.
      + eapply bind_run_to; [apply store_io_no_faults, Hnf | reflexivity].
      + cbn [db set_io_count]. rewrite Hfind. reflexivity.
    - eexists _, _. eapply bind_run_to.
      + eapply bind_run_to; [apply store_io_no_faults, Hnf | reflexivity].
      + cbn [db set_io_count]. rewrite Hfind.
        eapply bind_run_to; [reflexivity|].
        eapply bind_run_to; [apply store_io_ok, Hnf|].
        reflexivity. }
  destruct Hrun as (c & w1 & Hrun). exists c, w1. split; [exact Hrun|].
  apply getOrCreateCart_ok in Hrun as (Hio & _). intros k. rewrite Hio. apply Hnf.
Qed.

Lemma uuids_inj n m : Sample.uuids n = Sample.uuids m -> n = m.
Proof.
  unfold Sample.uuids. cbn [append]. intros H. injection H as H.
  now apply toString_of_nat_inj.
Qed.

(** X24.  On a store that accepts every round trip, with sound keys and
    unused uuids, [mergeCart] for a user and a session whose cart holds
    lines succeeds and answers with the user's cart as stored afterwards.
    The guest cart and its lines are gone and the products are unchanged.
    For every product of the guest cart the user's cart holds one line at
    the guest's price: the two quantities added and capped at the stock
    (nought for a product that is gone) when the user's cart held the
    product already, the guest's quantity uncapped when it did not.  The
    user's other lines and the lines of other carts stay as they were. *)
Theorem mergeCart_moves_guest_lines (userId sessionId : string) (w : World)
        (guest : CartService.LoadedCart) :
  no_faults w ->
  truthy (Some userId) = true ->
  truthy (Some sessionId) = true ->
  CartService.find_cart (db w) (fun c => CartService.owned_by sessionId (Cart.session_id c))
  = Some guest ->
  CartService.items guest <> [] ->
  Cart.user_id (CartService.cart guest) <> Some userId ->
  cart_ids_ok w ->
  line_ids_ok w ->
  NoDup (map (fun gi : CartItem.t * option Product.t => CartItem.product_id gi.1)
             (CartService.items guest)) ->
  exists resp w' userCart,
    CartService.mergeCart userId sessionId w = (Ok resp, w')
    /\ Cart.user_id userCart = Some userId
    /\ resp = CartService.formatCartResponse
                (CartService.mkLoaded userCart
                   (CartService.load_items (db w') (Cart.id userCart)))
    /\ (forall c, c ∈ carts (db w') -> Cart.id c <> Cart.id (CartService.cart guest))
    /\ (forall row, row ∈ cart_items (db w') ->
          CartItem.cart_id row <> Cart.id (CartService.cart guest))
    /\ products (db w') = products (db w)
    /\ (forall pid,
          match guest_line (CartService.items guest) pid with
          | Some g =>
              exists new_id,
                CartService.find_line (db w') (Cart.id userCart) pid
                = Some (merged_line (db w) (Cart.id userCart) g new_id)
          | None =>
              CartService.find_line (db w') (Cart.id userCart) pid
              = CartService.find_line (db w) (Cart.id userCart) pid
          end)
    /\ (forall row,
          CartItem.cart_id row <> Cart.id userCart ->
          CartItem.cart_id row <> Cart.id (CartService.cart guest) ->
          row ∈ cart_items (db w') <-> row ∈ cart_items (db w)).
Proof.
  intros Hnf Huser Hsession Hguest Hlines Hforeign (Hcnd & Hcnew) Hok Hpnd.
  set (gid := Cart.id (CartService.cart guest)) in *.
  set (w0 := set_io_count (S (io_count w)) w).
  assert (Hnf0 : no_faults w0) by exact Hnf.
  destruct (getOrCreateCart_user_run (Some userId) w0 Hnf0 Huser) as (c & w1 & Hgoc & Hnf1).
  assert (Htruthy : truthy (Some userId) || truthy None = true) by now rewrite Huser.
  pose proof (getOrCreateCart_ok _ _ _ _ _ Hgoc) as (_ & Hus & Hcases).
  pose proof (getOrCreateCart_owner _ _ _ _ _ Hgoc Htruthy) as (Hin & Hcaller & Hprod1 & Hitems1).
  set (ucid := Cart.id (CartService.cart c)) in *.
  assert (Hguest_in : CartService.cart guest ∈ carts (db w)).
  { apply find_cart_cart, find_some in Hguest as [Hg _]. now apply list_elem_of_In. }
  assert (Howner : Cart.user_id (CartService.cart c) = Some userId).
  { unfold caller_cart in Hcaller. rewrite Huser in Hcaller. cbn [default] in Hcaller.
    unfold CartService.owned_by in Hcaller.
    destruct (Cart.user_id (CartService.cart c)) as [u|]; [|discriminate].
    apply bool_decide_eq_true_1 in Hcaller. now subst. }
  assert (Hrefind : List.find (caller_cart (Some userId) None) (carts (db w1))
                    = Some (CartService.cart c)).
  { destruct Hcases as [(Hf & Hdb & _) | (Hf & -> & Hdb & _)]; rewrite Hdb.
    - now apply find_cart_cart.
    - cbn [apply_stmt carts CartService.cart].
      apply find_app_new; [now apply find_cart_none | now apply caller_cart_new]. }
  assert (Hdistinct : ucid <> gid).
  { destruct Hcases as [(Hf & Hdb & _) | (Hf & Hc & Hdb & _)].
    - intros Heq. apply Hforeign. rewrite <- Howner. f_equal.
      apply find_cart_cart, find_some in Hf as [Hc _]. apply list_elem_of_In in Hc.
      symmetry. eapply (key_unique Cart.id); [exact Hcnd | exact Hc | exact Hguest_in | exact Heq].
    - intros Heq. apply Hcnew. unfold ucid in Heq. rewrite Hc in Heq.
      cbn [CartService.cart new_cart Cart.id] in Heq.
      change (uuid_source w0 (uuid_next w0)) with (uuid_source w (uuid_next w)) in Heq.
      rewrite Heq. apply list_elem_of_fmap. now exists (CartService.cart guest). }
  assert (Hnext : (uuid_next w <= uuid_next w1)%nat).
  { destruct Hcases as [(_ & _ & ->) | (_ & _ & _ & ->)]; cbn; lia. }
  assert (Hok1 : line_ids_ok w1).
  { destruct Hok as (Hids & Hnew & Hinj). unfold line_ids_ok. rewrite Hitems1, Hus.
    change (cart_items (db w0)) with (cart_items (db w)).
    change (uuid_source w0) with (uuid_source w).
    split; [exact Hids|]. split.
    - intros n Hn. apply Hnew. lia.
    - intros n m Hn Hm. apply Hinj; lia. }
  destruct (CartService.items guest) as [|g0 rest] eqn:Hitems; [now contradiction Hlines|].
  destruct (merge_items_run ucid (g0 :: rest) w1 Hnf1 Hok1 Hpnd)
    as (w2 & Hrun & Hnf2 & Hok2 & Hprod2 & Hcarts2 & Hother2 & Hspec).
  set (w3 := set_io_count (S (io_count w2)) w2).
  set (w4 := set_journal (journal w3 ++ [DeleteCartItems gid])
               (set_db (apply_stmt (DeleteCartItems gid) (db w3)) w3)).
  set (w5 := set_io_count (S (io_count w4)) w4).
  set (w6 := set_db (apply_cart_stmt (RemoveCart gid) (db w5)) w5).
  assert (Hcarts6 : carts (db w6) = filter (fun c => Cart.id c <> gid) (carts (db w1))).
  { cbn. now rewrite Hcarts2. }
  assert (Hrows6 : cart_items (db w6)
                   = filter (fun row => CartItem.cart_id row <> gid)
                       (filter (fun row => CartItem.cart_id row <> gid) (cart_items (db w2))))
    by reflexivity.
  assert (Hfind6 : forall pid,
             CartService.find_line (db w6) ucid pid = CartService.find_line (db w2) ucid pid).
  { intros pid. unfold CartService.find_line. rewrite Hrows6.
    rewrite !find_filter_implied; [reflexivity| |];
      intros x Hx; apply andb_true_iff in Hx as [Hx _];
      apply bool_decide_eq_true_1 in Hx; congruence. }
  exists (CartService.formatCartResponse
            (CartService.mkLoaded (CartService.cart c)
               (CartService.load_items (db w6) ucid))),
         (set_io_count (S (io_count w6)) w6), (CartService.cart c).
  split.
  { unfold CartService.mergeCart. rewrite Hsession. cbn [negb].
    eapply bind_run_to; [apply store_io_no_faults, Hnf|].
    eapply bind_run_to; [reflexivity|].
    cbn [db set_io_count]. rewrite Hguest, Hitems.
    eapply bind_run_to; [exact Hgoc|].
    eapply bind_run_to; [exact Hrun|].
    eapply bind_run_to; [apply store_io_no_faults, Hnf2|].
    eapply bind_run_to; [reflexivity|].
    eapply bind_run_to; [apply store_io_ok, Hnf2|].
    eapply bind_run_to; [reflexivity|].
    unfold CartService.getCart.
    eapply bind_run_to; [|reflexivity].
    apply getOrCreateCart_found; [apply Hnf2 | exact Htruthy |].
    fold gid. fold w3. fold w4. fold w5. fold w6.
    rewrite Hcarts6. now apply find_filter_keeps. }
  cbn [db set_io_count].
  split; [exact Howner|]. split; [reflexivity|]. split.
  { intros x Hx. rewrite Hcarts6 in Hx. now apply list_elem_of_filter in Hx as [Hx _]. }
  split.
  { intros row Hrow. rewrite Hrows6 in Hrow. now apply list_elem_of_filter in Hrow as [Hrow _]. }
  split.
  { change (products (db w6)) with (products (db w2)). rewrite Hprod2. exact Hprod1. }
  split.
  { intros pid. specialize (Hspec pid). rewrite Hfind6.
    destruct (guest_line (g0 :: rest) pid) as [g|].
    - destruct Hspec as (new_id & Hspec). exists new_id. rewrite Hspec. f_equal.
      apply merged_line_same; [now apply find_line_rows | exact Hprod1].
    - rewrite Hspec. now apply find_line_rows. }
  intros row Hu Hg. rewrite Hrows6, !list_elem_of_filter.
  assert (Hmid : row ∈ cart_items (db w2) <-> row ∈ cart_items (db w1)).
  { assert (H2 : row ∈ filter (fun row => CartItem.cart_id row <> ucid) (cart_items (db w2))
                 <-> row ∈ filter (fun row => CartItem.cart_id row <> ucid) (cart_items (db w1)))
      by now rewrite Hother2.
    rewrite !list_elem_of_filter in H2. tauto. }
  rewrite Hmid, Hitems1. tauto.
Qed.

Lemma mergeCart_moves_guest_lines_witness :
  exists resp w' userCart,
    CartService.mergeCart "u1" "s1" (Sample.world Sample.before_login Sample.reliable)
    = (Ok resp, w')
    /\ Cart.user_id userCart = Some "u1"
    /\ resp = CartService.formatCartResponse
                (CartService.mkLoaded userCart
                   (CartService.load_items (db w') (Cart.id userCart)))
    /\ (forall c, c ∈ carts (db w') -> Cart.id c <> Cart.id (CartService.cart Sample.guest_cart))
    /\ (forall row, row ∈ cart_items (db w') ->
          CartItem.cart_id row <> Cart.id (CartService.cart Sample.guest_cart))
    /\ products (db w') = products Sample.before_login
    /\ (forall pid,
          match guest_line (CartService.items Sample.guest_cart) pid with
          | Some g =>
              exists new_id,
                CartService.find_line (db w') (Cart.id userCart) pid
                = Some (merged_line Sample.before_login (Cart.id userCart) g new_id)
          | None =>
              CartService.find_line (db w') (Cart.id userCart) pid
              = CartService.find_line Sample.before_login (Cart.id userCart) pid
          end)
    /\ (forall row,
          CartItem.cart_id row <> Cart.id userCart ->
          CartItem.cart_id row <> Cart.id (CartService.cart Sample.guest_cart) ->
          row ∈ cart_items (db w') <-> row ∈ cart_items Sample.before_login).
Proof.
  apply (mergeCart_moves_guest_lines "u1" "s1"
           (Sample.world Sample.before_login Sample.reliable) Sample.guest_cart).
  - intros k. reflexivity.
  - reflexivity.
  - reflexivity.
  - vm_compute. reflexivity.
  - discriminate.
  - discriminate.
  - split; apply (bool_decide_unpack _); vm_compute; exact I.
  - split; [apply (bool_decide_unpack _); vm_compute; exact I|]. split.
    + intros n _ Hin. unfold Sample.world, Sample.uuids in Hin.
      cbn [uuid_source db cart_items Sample.before_login map CartItem.id append] in Hin.
      repeat (apply elem_of_cons in Hin as [Hin|Hin]; [discriminate Hin|]).
      inversion Hin.
    + intros n m _ _. apply uuids_inj.
  - apply (bool_decide_unpack _); vm_compute; exact I.
Defined.

(** Ann logs in: her two widgets and the guest's four are capped at the five
    in stock and take the guest's price; the three gadgets move as they are
    although one is in stock; the guest cart is gone. *)
Example merged_cart_after_login :
  (let w' := (CartService.mergeCart "u1" "s1"
                (Sample.world Sample.before_login Sample.reliable)).2 in
   (carts (db w'), cart_items (db w')))
  = ([Cart.mk "c1" (Some "u1") None],
     [CartItem.mk "ci1" "c1" "A" 5 900; CartItem.mk "uuid-0" "c1" "B" 3 500]).
Proof. vm_compute. reflexivity. Qed.
